(** * Ranked leaderboard: ordering, rank lookup, pagination and page actions

    A shallow embedding of [Plugins/helpers/leaderboard.py].

    - Python [int] is [Z]; Python [str] is a list of Unicode code points
      ([str.strip] and [int()] classify characters by code point).
    - Raised exceptions are explicit: a computation yields [Ok v] or
      [Raise e].  Code that logs or talks to the chat transport threads a
      [world] (log lines written, replies sent).
    - [round(x, 1)] on floats is kept symbolic ([pct]): the embedding records
      which quotient is rounded, not its binary64 value. *)

From Stdlib Require Import ZArith NArith String Ascii List Sorted Lia.
From Stdlib Require Import Decimal DecimalString DecimalZ DecimalPos DecimalN.
From stdpp Require Import prelude gmap.

Local Open Scope Z_scope.

(* ================================================================= *)
(** ** Python values and builtins *)

(** A Python [str]: the sequence of its code points. *)
Definition str := list N.

(** An ASCII literal of the source, as a [str]. *)
Definition lit (s : string) : str :=
  map N_of_ascii (list_ascii_of_string s).

(** Exceptions deriving from [Exception]. *)
Inductive exn :=
| ZeroDivisionError
| ValueError
| IndexError
| OverflowError
| DatabaseError (msg : str)
| OtherException (msg : str).

Inductive outcome (A : Type) :=
| Ok (a : A)
| Raise (e : exn).
Arguments Ok {A} a.
Arguments Raise {A} e.

#[global] Instance outcome_ret : MRet outcome := @Ok.
#[global] Instance outcome_bind : MBind outcome :=
  fun A B f m => match m with Ok a => f a | Raise e => Raise e end.
#[global] Instance outcome_fmap : FMap outcome :=
  fun A B f m => match m with Ok a => Ok (f a) | Raise e => Raise e end.

(** [a or b] on strings and on integers: the falsy values are [''] and [0]. *)
Definition or_str (a b : str) : str :=
  match a with [] => b | _ :: _ => a end.

Definition or_int (a b : Z) : Z :=
  if decide (a = 0) then b else a.

(** [len(l)] *)
Definition len {A} (l : list A) : Z := Z.of_nat (length l).

(** Bound of a slice [l[i:j]]: negative bounds count from the end, and
    every bound is clamped into [0, len]. *)
Definition slice_bound (n i : Z) : Z :=
  if decide (i < 0) then Z.max 0 (i + n) else Z.min i n.

(** [l[start:stop]] *)
Definition py_slice {A} (l : list A) (start stop : Z) : list A :=
  let lo := slice_bound (len l) start in
  let hi := slice_bound (len l) stop in
  take (Z.to_nat (hi - lo)) (drop (Z.to_nat lo) l).

(** [enumerate(l, start)] *)
Fixpoint enumerate {A} (l : list A) (start : Z) : list (Z * A) :=
  match l with
  | [] => []
  | x :: l' => (start, x) :: enumerate l' (start + 1)
  end.

(** [next((f(x) for x in l if p(x)), default)] *)
Fixpoint next_or {A B} (p : A -> bool) (f : A -> B) (l : list A) (default : B) : B :=
  match l with
  | [] => default
  | x :: l' => if p x then f x else next_or p f l' default
  end.

(** [math.ceil(a / b)].  The source divides in binary64 and rounds up; for
    [|a|, |b| < 2^53] (a list length and a page size) the quotient is
    correctly rounded and its ceiling is the integer ceiling computed here. *)
Definition ceil_div (a b : Z) : outcome Z :=
  if decide (b = 0) then Raise ZeroDivisionError else Ok (- ((- a) / b)).

(** The value of [round(wins / games * 100, 1)], or the integer [0] the
    source substitutes when it does not divide. *)
Inductive pct :=
| PctZero
| PctRound1 (wins games : Z).

(** [round(w / g * 100, 1)]: dividing by zero raises.  The quotient of the
    two integers is taken to have a binary64 value, as it has for the 64-bit
    integers of SQLite; beyond that range the division raises
    [OverflowError]. *)
Definition round_pct (w g : Z) : outcome pct :=
  if decide (g = 0) then Raise ZeroDivisionError else Ok (PctRound1 w g).

(** [str(z)] for an integer: optional minus sign and decimal digits. *)
Fixpoint uint_digits (d : Decimal.uint) : str :=
  match d with
  | Nil => []
  | D0 d => 48%N :: uint_digits d
  | D1 d => 49%N :: uint_digits d
  | D2 d => 50%N :: uint_digits d
  | D3 d => 51%N :: uint_digits d
  | D4 d => 52%N :: uint_digits d
  | D5 d => 53%N :: uint_digits d
  | D6 d => 54%N :: uint_digits d
  | D7 d => 55%N :: uint_digits d
  | D8 d => 56%N :: uint_digits d
  | D9 d => 57%N :: uint_digits d
  end.

Definition str_of_int (z : Z) : str :=
  match Z.to_int z with
  | Pos d => uint_digits d
  | Neg d => 45%N :: uint_digits d
  end.

(** [html.escape(s)] with [quote=True]. *)
Definition escape_char (c : N) : str :=
  if decide (c = 38%N) then lit "&amp;"
  else if decide (c = 60%N) then lit "&lt;"
  else if decide (c = 62%N) then lit "&gt;"
  else if decide (c = 34%N) then lit "&quot;"
  else if decide (c = 39%N) then lit "&#x27;"
  else [c].

Definition html_escape (s : str) : str := concat (map escape_char s).

(** [s.startswith(p)] *)
Fixpoint startswith (s p : str) {struct p} : bool :=
  match p, s with
  | [], _ => true
  | _ :: _, [] => false
  | a :: p', b :: s' => if decide (a = b) then startswith s' p' else false
  end.

(** [s.split(sep, maxsplit)] for a one-character separator. *)
Fixpoint str_split (sep : N) (maxsplit : nat) (s : str) : list str :=
  match s with
  | [] => [[]]
  | c :: r =>
      if decide (c = sep) then
        match maxsplit with
        | O => [s]
        | S m => [] :: str_split sep m r
        end
      else
        match str_split sep maxsplit r with
        | [] => [[c]]
        | h :: t => (c :: h) :: t
        end
  end.

(** [l[i]] for [i >= 0]; out of range raises [IndexError]. *)
Definition index_nat {A} (l : list A) (i : nat) : outcome A :=
  match l !! i with
  | Some x => Ok x
  | None => Raise IndexError
  end.

Section Unicode.

(** The interpreter's character database above ASCII: [str.isspace] and
    the decimal value of a digit character. *)
Variable unicode_isspace : N -> bool.
Variable unicode_decimal : N -> option Z.

(** [c.isspace()] *)
Definition isspace (c : N) : bool :=
  if decide (c < 128)%N
  then bool_decide (9 <= c <= 13)%N || bool_decide (28 <= c <= 32)%N
  else unicode_isspace c.

Fixpoint lstrip (s : str) : str :=
  match s with
  | [] => []
  | c :: r => if isspace c then lstrip r else s
  end.

Fixpoint rstrip (s : str) : str :=
  match s with
  | [] => []
  | c :: r =>
      match rstrip r with
      | [] => if isspace c then [] else [c]
      | r' => c :: r'
      end
  end.

(** [s.strip()] *)
Definition strip (s : str) : str := rstrip (lstrip s).

(** [int(s)] first rewrites the text to ASCII: a blank above ASCII becomes
    a space, a decimal digit its ASCII digit, anything else ['?']. *)
Definition to_ascii_decimal (c : N) : N :=
  if decide (c < 128)%N then c
  else if unicode_isspace c then 32%N
  else match unicode_decimal c with
       | Some d => (48 + Z.to_N d)%N
       | None => 63%N
       end.

(** Blanks skipped around the number by the integer parser. *)
Definition c_isspace (c : N) : bool :=
  bool_decide (9 <= c <= 13)%N || bool_decide (c = 32)%N.

Fixpoint skip_blanks (s : str) : str :=
  match s with
  | [] => []
  | c :: r => if c_isspace c then skip_blanks r else s
  end.

Definition digit_value (c : N) : option Z :=
  if bool_decide (48 <= c <= 57)%N then Some (Z.of_N c - 48) else None.

(** Digits in base ten; single underscores may separate digits.  After the
    digits only blanks may follow.  [after_digit] tells whether the previous
    character was a digit. *)
Fixpoint parse_digits (acc : Z) (after_digit : bool) (s : str) : option Z :=
  match s with
  | [] => if after_digit then Some acc else None
  | c :: r =>
      match digit_value c with
      | Some d => parse_digits (10 * acc + d) true r
      | None =>
          if decide (c = 95%N) then
            if after_digit then parse_digits acc false r else None
          else if after_digit && forallb c_isspace s then Some acc
          else None
      end
  end.

Definition parse_long (s : str) : option Z :=
  match skip_blanks s with
  | [] => None
  | c :: r =>
      if decide (c = 43%N) then parse_digits 0 false r
      else if decide (c = 45%N) then Z.opp <$> parse_digits 0 false r
      else parse_digits 0 false (c :: r)
  end.

(** [int(s)]: a text that is not an integer raises [ValueError]. *)
Definition int_of_str (s : str) : outcome Z :=
  match parse_long (map to_ascii_decimal s) with
  | Some z => Ok z
  | None => Raise ValueError
  end.

End Unicode.

(** [sorted(l, key=..., reverse=True)] and SQL [ORDER BY ... DESC]: a stable
    insertion sort.  [before y x] holds when [y] has to precede [x]
    whatever their original order.  Python's sort is stable; SQL leaves the
    order of rows with equal keys open, and the embedding keeps storage order
    for them. *)
Fixpoint insert_by {A} (before : A -> A -> bool) (x : A) (l : list A) : list A :=
  match l with
  | [] => [x]
  | y :: l' => if before y x then y :: insert_by before x l' else x :: l
  end.

Definition sort_by {A} (before : A -> A -> bool) (l : list A) : list A :=
  foldr (insert_by before) [] l.

(** [l.index(x)]: first position holding a value equal to [x]. *)
Fixpoint list_index `{EqDecision A} (x : A) (l : list A) : outcome Z :=
  match l with
  | [] => Raise ValueError
  | y :: l' => if decide (y = x) then Ok 0 else (fun i => i + 1) <$> list_index x l'
  end.

(* ================================================================= *)
(** ** Data model *)

(** A row of the [users] table as stored: any column but the key may be NULL. *)
Record user_record := {
  rec_user_id : Z;
  rec_username : option str;
  rec_first_name : option str;
  rec_games_played : option Z;
  rec_wins : option Z;
  rec_losses : option Z;
  rec_rounds_played : option Z;
  rec_eliminations : option Z;
  rec_total_score : option Z;
  rec_penalties : option Z
}.

(** A row as the handlers read it ([row['wins']] and so on): the query
    replaces NULL by [''] or [0], and the daily source yields the same shape. *)
Record row := {
  user_id : Z;
  username : str;
  first_name : str;
  games_played : Z;
  wins : Z;
  losses : Z;
  rounds_played : Z;
  eliminations : Z;
  total_score : Z;
  penalties : Z
}.

#[global] Instance row_eq_dec : EqDecision row.
Proof. solve_decision. Defined.

(** The dictionary returned by [get_user_rank]. *)
Record summary := {
  s_username : str;
  s_rank : Z;
  s_total_users : Z;
  s_total_played : Z;
  s_wins : Z;
  s_losses : Z;
  s_win_percent : pct;
  s_rounds_played : Z;
  s_eliminations : Z;
  s_total_score : Z;
  s_penalties : Z
}.

(** The [me] dictionary of [_build_leaderboard_text]. *)
Record me_dict := {
  me_username : str;
  me_rank : Z;
  me_games_played : Z;
  me_wins : Z;
  me_losses : Z;
  me_total_score : Z;
  me_penalties : Z
}.

(** The rendered text, one block per group of [text += ...] statements:
    the title, one block per listed player, and the trailing block that
    starts with the "Your Rank:" line. *)
Inductive block :=
| Header
| Entry (rank : Z) (medal highlight display_name : str) (uid : Z)
        (games : Z) (win_percent : pct) (won lost score pen : Z)
| YourRank (rank : Z) (name : str) (viewer_id : Z)
           (games : Z) (win_percent : pct) (won lost score pen : Z).

Definition text := list block.

(** [InlineKeyboardButton(label, callback_data=...)] and
    [InlineKeyboardMarkup(rows)]. *)
Record button := { label : str; callback_data : str }.

Definition markup := list (list button).

(* ================================================================= *)
(** ** Effects: log lines and replies *)

Inductive reply :=
| Answered                                        (* [query.answer()] *)
| Edited (body : text) (pager : option markup).   (* [edit_caption] / [edit_text] *)

Record world := { logged : list str; sent : list reply }.

Definition M (A : Type) : Type := world -> outcome A * world.

#[global] Instance M_ret : MRet M := fun A a w => (Ok a, w).
#[global] Instance M_bind : MBind M :=
  fun A B f m w =>
    match m w with
    | (Ok a, w') => f a w'
    | (Raise e, w') => (Raise e, w')
    end.

Definition raise {A} (e : exn) : M A := fun w => (Raise e, w).

Definition lift {A} (o : outcome A) : M A := fun w => (o, w).

(** [try: body  except <catches>: handler] *)
Definition try_except {A} (body : M A) (catches : exn -> bool) (handler : M A) : M A :=
  fun w =>
    match body w with
    | (Ok a, w') => (Ok a, w')
    | (Raise e, w') => if catches e then handler w' else (Raise e, w')
    end.

(** [except Exception] *)
Definition any_exception (e : exn) : bool := true.

(** [except (IndexError, ValueError)] *)
Definition index_or_value_error (e : exn) : bool :=
  match e with
  | IndexError | ValueError => true
  | _ => false
  end.

(** [logger.exception(msg)] *)
Definition log_exception (msg : str) : M unit :=
  fun w => (Ok tt, {| logged := logged w ++ [msg]; sent := sent w |}).

Definition send (r : reply) : M unit :=
  fun w => (Ok tt, {| logged := logged w; sent := sent w ++ [r] |}).

(* ================================================================= *)
(** ** The store: [get_all_users_sorted], [get_user_rank] *)

Definition PER_PAGE : Z := 5.

(** Default of [get_all_users_sorted(limit=100)]. *)
Definition DEFAULT_LIMIT : Z := 100.

(** The statements of the retrieval that can fail. *)
Inductive db_step :=
| EnsureColumns   (* [ensure_columns_exist()] *)
| Connect         (* [sqlite3.connect], [conn.cursor()] *)
| Execute         (* [cursor.execute] *)
| FetchAll        (* [cursor.fetchall()] *)
| Close.          (* [conn.close()] *)

(** The database at the time of a call: the stored rows, and for each
    statement the exception it raises, if any. *)
Record database := {
  users_table : list user_record;
  fault_at : db_step -> option exn
}.

(** [IFNULL(col, default) AS col] for every selected column. *)
Definition select_columns (u : user_record) : row :=
  {| user_id := rec_user_id u;
     username := default [] (rec_username u);
     first_name := default [] (rec_first_name u);
     games_played := default 0 (rec_games_played u);
     wins := default 0 (rec_wins u);
     losses := default 0 (rec_losses u);
     rounds_played := default 0 (rec_rounds_played u);
     eliminations := default 0 (rec_eliminations u);
     total_score := default 0 (rec_total_score u);
     penalties := default 0 (rec_penalties u) |}.

(** [ORDER BY wins DESC, total_score DESC]: the names denote the selected
    (NULL-free) columns. *)
Definition wins_then_score (a b : row) : bool :=
  bool_decide (wins b < wins a)
  || (bool_decide (wins a = wins b) && bool_decide (total_score b < total_score a)).

(** A Python [int] bound to a [?] of a statement: SQLite integers have 64
    bits, and [sqlite3] raises [OverflowError] for any other value. *)
Definition sqlite_integer (z : Z) : Prop := - 2 ^ 63 <= z < 2 ^ 63.

Definition bind_integer (z : Z) : outcome Z :=
  if decide (sqlite_integer z) then Ok z else Raise OverflowError.

(** [LIMIT n]: a negative [n] puts no bound. *)
Definition sql_limit {A} (n : Z) (l : list A) : list A :=
  if decide (n < 0) then l else take (Z.to_nat n) l.

Definition run_query (table : list user_record) (limit : Z) : list row :=
  sql_limit limit (sort_by wins_then_score (map select_columns table)).

Definition summary_of_row (idx total : Z) (r : row) (win_percent : pct) : summary :=
  {| s_username := or_str (or_str (username r) (first_name r)) (lit "Unknown");
     s_rank := idx;
     s_total_users := total;
     s_total_played := or_int (games_played r) 0;
     s_wins := or_int (wins r) 0;
     s_losses := or_int (losses r) 0;
     s_win_percent := win_percent;
     s_rounds_played := or_int (rounds_played r) 0;
     s_eliminations := or_int (eliminations r) 0;
     s_total_score := or_int (total_score r) 0;
     s_penalties := or_int (penalties r) 0 |}.

(** The summary of a user who is not in the list. *)
Definition summary_not_listed (total : Z) : summary :=
  {| s_username := lit "Unknown";
     s_rank := total + 1;
     s_total_users := total;
     s_total_played := 0; s_wins := 0; s_losses := 0; s_win_percent := PctZero;
     s_rounds_played := 0; s_eliminations := 0; s_total_score := 0;
     s_penalties := 0 |}.

(** The summary returned from the [except] branch of [get_user_rank]. *)
Definition summary_on_error : summary :=
  {| s_username := lit "Unknown";
     s_rank := 1;
     s_total_users := 0;
     s_total_played := 0; s_wins := 0; s_losses := 0; s_win_percent := PctZero;
     s_rounds_played := 0; s_eliminations := 0; s_total_score := 0;
     s_penalties := 0 |}.

(** The [for idx, row in enumerate(all_users, start=1)] loop of
    [get_user_rank] and the [return] after it. *)
Fixpoint rank_scan (uid total : Z) (it : list (Z * row)) : outcome summary :=
  match it with
  | [] => Ok (summary_not_listed total)
  | (idx, r) :: rest =>
      if decide (user_id r = uid) then
        let gp := or_int (games_played r) 0 in
        win_percent ← (if decide (gp > 0)
                       then round_pct (or_int (wins r) 0) gp
                       else Ok PctZero);
        Ok (summary_of_row idx total r win_percent)
      else rank_scan uid total rest
  end.

Section Store.

Variable db : database.

(** One statement of the retrieval: it raises its fault, if it has one. *)
Definition attempt (s : db_step) : M unit :=
  match fault_at db s with
  | Some e => raise e
  | None => mret tt
  end.

(** The [try] body runs the statements in order and returns the fetched
    rows; [except Exception] logs and returns the empty list. *)
Definition get_all_users_sorted (limit : Z) : M (list row) :=
  try_except
    (attempt EnsureColumns;;
     attempt Connect;;
     attempt Execute;;
     limit ← lift (bind_integer limit);      (* [LIMIT ?] with [(limit,)] *)
     attempt FetchAll;;
     let result := run_query (users_table db) limit in
     attempt Close;;
     mret result)
    any_exception
    (log_exception (lit "Error in get_all_users_sorted");;
     mret []).

(** The [try] body fetches the list with the default limit and scans it;
    [except Exception] logs and returns the fixed summary. *)
Definition get_user_rank (uid : Z) : M summary :=
  try_except
    (all_users ← get_all_users_sorted DEFAULT_LIMIT;
     lift (rank_scan uid (len all_users) (enumerate all_users 1)))
    any_exception
    (log_exception (lit "Error in get_user_rank");;
     mret summary_on_error).

End Store.

(* ================================================================= *)
(** ** The view: [_medal_for_rank], [_build_pager_old],
       [_build_leaderboard_text] *)

Definition _medal_for_rank (rank : Z) : str :=
  if decide (rank = 1) then [0x1F947%N]
  else if decide (rank = 2) then [0x1F948%N]
  else if decide (rank = 3) then [0x1F949%N]
  else [].

Definition _build_pager_old (page total_pages : Z) (prefix : str) : option markup :=
  if decide (total_pages <= 1) then None
  else
    let buttons := [] in
    let nav_row := [] in
    let nav_row :=
      if decide (page > 1)
      then nav_row ++ [ {| label := 0x25C4%N :: lit " Previous";
                           callback_data := prefix ++ lit "_" ++ str_of_int (page - 1) |} ]
      else nav_row in
    let nav_row :=
      if decide (page < total_pages)
      then nav_row ++ [ {| label := lit "Next " ++ [0x25BA%N];
                           callback_data := prefix ++ lit "_" ++ str_of_int (page + 1) |} ]
      else nav_row in
    let buttons := match nav_row with [] => buttons | _ => buttons ++ [nav_row] end in
    let page_row :=
      [ {| label := lit "Page " ++ str_of_int page ++ lit "/" ++ str_of_int total_pages;
           callback_data := prefix ++ lit ":nop" |} ] in
    let buttons := buttons ++ [page_row] in
    Some buttons.

(** The body of the [for i, row in enumerate(...)] loop: the block it
    appends to [text]. *)
Definition entry_block (viewer_id : Z) (i : Z) (r : row) : outcome block :=
  let rank := i in
  let medal := _medal_for_rank rank in
  let gp := or_int (games_played r) 0 in
  let won := or_int (wins r) 0 in
  let lost := or_int (losses r) 0 in
  let score := or_int (total_score r) 0 in
  let pen := or_int (penalties r) 0 in
  win_percent ← (if decide (gp > 0) then round_pct won gp else Ok PctZero);
  let display_name :=
    html_escape (or_str (or_str (first_name r) (username r)) (lit "Unknown")) in
  let highlight := if decide (user_id r = viewer_id) then [0x2B50%N; 32%N] else [] in
  Ok (Entry rank medal highlight display_name (user_id r) gp win_percent won lost score pen).

Fixpoint render_entries (viewer_id : Z) (it : list (Z * row)) (st : text * bool)
  : outcome (text * bool) :=
  match it with
  | [] => Ok st
  | (i, r) :: rest =>
      b ← entry_block viewer_id i r;
      let user_in_page := if decide (user_id r = viewer_id) then true else st.2 in
      render_entries viewer_id rest (st.1 ++ [b], user_in_page)
  end.

Definition is_user (uid : Z) (r : row) : bool := bool_decide (user_id r = uid).

Definition me_of_row (rank : Z) (r : row) : me_dict :=
  {| me_username := or_str (or_str (username r) (first_name r)) (lit "Unknown");
     me_rank := rank;
     me_games_played := or_int (games_played r) 0;
     me_wins := or_int (wins r) 0;
     me_losses := or_int (losses r) 0;
     me_total_score := or_int (total_score r) 0;
     me_penalties := or_int (penalties r) 0 |}.

Definition me_not_listed (total : Z) : me_dict :=
  {| me_username := lit "Unknown";
     me_rank := total + 1;
     me_games_played := 0; me_wins := 0; me_losses := 0;
     me_total_score := 0; me_penalties := 0 |}.

(** The block appended under [if not user_in_page].  A row that was found
    is truthy (it has columns), so [if me_row] tests whether one was found. *)
Definition your_rank_block (all_users : list row) (viewer_id : Z) : outcome block :=
  let total := len all_users in
  let me_row := next_or (is_user viewer_id) Some all_users None in
  let me :=
    match me_row with
    | Some me_row =>
        let rank :=
          next_or (fun ir => is_user viewer_id ir.2) fst (enumerate all_users 1) (total + 1) in
        me_of_row rank me_row
    | None => me_not_listed total
    end in
  win_percent ← (if decide (me_games_played me = 0) then Ok PctZero
                 else round_pct (me_wins me) (me_games_played me));
  Ok (YourRank (me_rank me) (html_escape (me_username me)) viewer_id
        (me_games_played me) win_percent (me_wins me) (me_losses me)
        (me_total_score me) (me_penalties me)).

Definition _build_leaderboard_text
    (all_users : list row) (page per_page viewer_id : Z) (daily : bool)
  : outcome (text * Z * Z) :=
  let total := len all_users in
  pages ← ceil_div total per_page;
  let total_pages := Z.max 1 pages in
  let page := Z.max 1 (Z.min page total_pages) in
  let start_idx := (page - 1) * per_page in
  let end_idx := Z.min (start_idx + per_page) total in
  let text := [Header] in
  let user_in_page := false in
  st ← render_entries viewer_id
         (enumerate (py_slice all_users start_idx end_idx) (start_idx + 1))
         (text, user_in_page);
  let text : list block := st.1 in
  let user_in_page : bool := st.2 in
  text ← (if user_in_page then Ok text
          else me ← your_rank_block all_users viewer_id; Ok (text ++ [me]));
  Ok (text, total_pages, page).

(* ================================================================= *)
(** ** The handlers: page actions and the daily statistics view *)

(** The values shown by the "daily" branch of [userinfo_callback]. *)
Record daily_view := {
  d_rank : Z;
  d_games : Z;
  d_wins : Z;
  d_losses : Z;
  d_score : Z;
  d_pen : Z;
  d_win_pct : pct
}.

(** [key=lambda x: x['total_score'], reverse=True] *)
Definition by_score (a b : row) : bool := bool_decide (total_score b < total_score a).

(** [query.data or ""] *)
Definition data_or_empty (query_data : option str) : str :=
  match query_data with
  | None => []
  | Some s => or_str s []
  end.

Section Handlers.

Variable unicode_isspace : N -> bool.
Variable unicode_decimal : N -> option Z.
Variable db : database.

(** What [plugins.game.db.get_daily_leaderboard()] returns: the daily
    snapshot kept by the game module. *)
Variable daily_users : list row.

(** The transport is taken to accept the edit: the [except] branches
    around [edit_caption] / [edit_text] are not entered. *)
Definition _edit_leaderboard_page (viewer_id page : Z) : M unit :=
  all_users ← get_all_users_sorted db DEFAULT_LIMIT;
  r ← lift (_build_leaderboard_text all_users page PER_PAGE viewer_id false);
  let body : text := r.1.1 in
  let total_pages : Z := r.1.2 in
  let page : Z := r.2 in
  let pager := _build_pager_old page total_pages (lit "leaderboard") in
  send (Edited body pager);;
  send Answered.

Definition leaderboard_callback (viewer_id : Z) (query_data : option str) : M unit :=
  let data := strip unicode_isspace (data_or_empty query_data) in
  try_except
    (if negb (startswith data (lit "leaderboard_")) then send Answered
     else
       part ← lift (index_nat (str_split 95%N 1 data) 1);
       page ← lift (int_of_str unicode_isspace unicode_decimal part);
       _edit_leaderboard_page viewer_id page)
    index_or_value_error
    (send Answered).

Definition _edit_daily_leaderboard_page (viewer_id page : Z) : M unit :=
  let all_users := daily_users in
  r ← lift (_build_leaderboard_text all_users page PER_PAGE viewer_id true);
  let body : text := r.1.1 in
  let total_pages : Z := r.1.2 in
  let page : Z := r.2 in
  let pager := _build_pager_old page total_pages (lit "daily_leaderboard") in
  send (Edited body pager);;
  send Answered.

Definition daily_leaderboard_callback (viewer_id : Z) (query_data : option str) : M unit :=
  let data := strip unicode_isspace (data_or_empty query_data) in
  try_except
    (if negb (startswith data (lit "daily_leaderboard_")) then send Answered
     else
       part ← lift (index_nat (str_split 95%N 2 data) 2);
       page ← lift (int_of_str unicode_isspace unicode_decimal part);
       _edit_daily_leaderboard_page viewer_id page)
    index_or_value_error
    (send Answered).

(** The [if view_type == "daily":] branch of [userinfo_callback], up to the
    values placed in the message. *)
Definition userinfo_callback_daily (uid : Z) : outcome daily_view :=
  let daily_users_sorted := sort_by by_score daily_users in
  match next_or (is_user uid) Some daily_users_sorted None with
  | Some r =>
      win_pct ← (if decide (games_played r = 0) then Ok PctZero
                 else round_pct (wins r) (games_played r));
      i ← list_index r daily_users_sorted;
      let rank := i + 1 in
      Ok {| d_rank := rank; d_games := games_played r; d_wins := wins r;
            d_losses := losses r; d_score := total_score r;
            d_pen := penalties r; d_win_pct := win_pct |}
  | None =>
      Ok {| d_rank := 0; d_games := 0; d_wins := 0; d_losses := 0;
            d_score := 0; d_pen := 0; d_win_pct := PctZero |}
  end.

End Handlers.

(* ================================================================= *)
(** ** The statistics view and the first screen *)

(** [s.split(sep)] for a one-character separator: every separator splits. *)
Fixpoint str_split_all (sep : N) (s : str) : list str :=
  match s with
  | [] => [[]]
  | c :: r =>
      match str_split_all sep r with
      | [] => [[c]]
      | h :: t => if decide (c = sep) then [] :: h :: t else (c :: h) :: t
      end
  end.

(** The message of [userinfo_callback]: the daily or the overall template,
    by the values placed in it. *)
Inductive stats_text :=
| DailyStats (v : daily_view)
| OverallStats (s : summary).

Inductive info_reply :=
| InfoAnswered                                         (* [query.answer()] *)
| InfoEdited (body : stats_text) (buttons : markup).   (* [edit_caption] / [edit_text] *)

(** The two buttons under a statistics message, built alike by [userinfo]
    and by [userinfo_callback]. *)
Definition userinfo_buttons (uid : Z) : markup :=
  [ [ {| label := 0x1F4CA%N :: lit " Daily Stats";
         callback_data := lit "userinfo_daily_" ++ str_of_int uid |};
      {| label := 0x1F3C6%N :: lit " Overall Stats";
         callback_data := lit "userinfo_overall_" ++ str_of_int uid |} ] ].

Section StatisticsView.

Variable unicode_isspace : N -> bool.
Variable unicode_decimal : N -> option Z.
Variable db : database.
Variable daily_users : list row.

(** [userinfo_callback]: the replies handed to the transport, in order.
    [int(user_id)] is not inside a [try]: its [ValueError] leaves the handler.
    The transport is taken to accept the edit. *)
Definition userinfo_callback (data : str) : M (list info_reply) :=
  let parts := str_split_all 95%N data in
  match parts with
  | [_; view_type; uid] =>
      uid ← lift (int_of_str unicode_isspace unicode_decimal uid);
      body ← (if decide (view_type = lit "daily")
              then v ← lift (userinfo_callback_daily daily_users uid);
                   mret (DailyStats v)
              else stats ← get_user_rank db uid;
                   mret (OverallStats stats));
      mret [InfoEdited body (userinfo_buttons uid); InfoAnswered]
  | _ => mret [InfoAnswered]
  end.

(** [_send_leaderboard_initial], up to the values handed to the transport:
    the caption, the keyboard, and the user whose photo is put on the card.
    The calls of the transport themselves (the loading sticker, the photo or
    the text that replaces it) are not part of it. *)
Definition _send_leaderboard_initial (viewer_id : Z) : M (text * option markup * Z) :=
  all_users ← get_all_users_sorted db DEFAULT_LIMIT;
  r ← lift (_build_leaderboard_text all_users 1 PER_PAGE viewer_id false);
  let body : text := r.1.1 in
  let total_pages : Z := r.1.2 in
  let page : Z := r.2 in
  let pager := _build_pager_old page total_pages (lit "leaderboard") in
  let top_user_id := match all_users with r0 :: _ => user_id r0 | [] => viewer_id end in
  mret (body, pager, top_user_id).

(** [_send_daily_leaderboard_initial], likewise.  [daily_fetch] is what the
    call [get_daily_leaderboard()] does: it returns the snapshot or raises,
    and the call is not inside a [try]. *)
Definition _send_daily_leaderboard_initial (daily_fetch : outcome (list row))
    (viewer_id : Z) : outcome (text * option markup * Z) :=
  all_users ← daily_fetch;
  r ← _build_leaderboard_text all_users 1 PER_PAGE viewer_id true;
  let body : text := r.1.1 in
  let total_pages : Z := r.1.2 in
  let page : Z := r.2 in
  let pager := _build_pager_old page total_pages (lit "daily_leaderboard") in
  let top_user_id := match all_users with r0 :: _ => user_id r0 | [] => viewer_id end in
  Ok (body, pager, top_user_id).

End StatisticsView.

(** The daily half of the report of [users_rank] (the same lines open
    [userinfo]): the counters of the user's first row in the daily snapshot,
    as it comes, or zeros. *)
Record daily_stats := {
  ds_games : Z;
  ds_wins : Z;
  ds_losses : Z;
  ds_score : Z;
  ds_pen : Z;
  ds_win_pct : pct
}.

Definition daily_stats_of (uid : Z) (daily_users : list row) : outcome daily_stats :=
  match next_or (is_user uid) Some daily_users None with
  | Some daily_row =>
      daily_win_pct ← (if decide (games_played daily_row = 0) then Ok PctZero
                       else round_pct (wins daily_row) (games_played daily_row));
      Ok {| ds_games := games_played daily_row; ds_wins := wins daily_row;
            ds_losses := losses daily_row; ds_score := total_score daily_row;
            ds_pen := penalties daily_row; ds_win_pct := daily_win_pct |}
  | None =>
      Ok {| ds_games := 0; ds_wins := 0; ds_losses := 0; ds_score := 0;
            ds_pen := 0; ds_win_pct := PctZero |}
  end.

(** [users_rank] for the target user [user_id], up to the values placed in
    the message: the overall summary and the daily counters.  [daily_fetch]
    is what the call [get_daily_leaderboard()] does: it returns the snapshot
    or raises, and the call is not inside a [try].  The [reply_text] that
    sends the message is not part of it. *)
Definition users_rank (db : database) (daily_fetch : outcome (list row))
    (user_id : Z) : M (summary * daily_stats) :=
  overall_stats ← get_user_rank db user_id;
  daily_users ← lift daily_fetch;
  daily ← lift (daily_stats_of user_id daily_users);
  mret (overall_stats, daily).

(* ================================================================= *)
(** ** Moderation: the [mods] table and the reset of a player
       ([plugins/helpers/moderators.py]) *)

(** The [mods] table: [mod_id] is its primary key, [username] the other
    column written by this module.  The connection is taken to work: these
    functions have no [try], a fault of the store leaves them as it comes. *)
Definition mods_table := gmap Z str.

Definition is_mod (user_id : Z) (mods : gmap Z str) : bool :=
  match mods !! user_id with
  | Some _ => true     (* [c.fetchone() is not None] *)
  | None => false
  end.

Definition add_mod (mod_id : Z) (username : str) (mods : gmap Z str)
  : bool * gmap Z str :=
  match mods !! mod_id with
  | Some _ => (false, mods)
  | None => (true, <[mod_id := username]> mods)
  end.

Definition remove_mod (mod_id : Z) (mods : gmap Z str) : bool * gmap Z str :=
  match mods !! mod_id with
  | None => (false, mods)
  | Some _ => (true, delete mod_id mods)
  end.

(** [UPDATE users SET games_played = 0, wins = 0, ... WHERE user_id = ?], on
    the columns of [user_record] (the statement also clears [last_score] and
    stamps [updated_at], which no query of the leaderboard reads).
    [reset_user_stats] below is the function on the ids that SQLite can bind;
    [reset_callback] binds the id before it. *)
Definition clear_counters (u : user_record) : user_record :=
  {| rec_user_id := rec_user_id u;
     rec_username := rec_username u;
     rec_first_name := rec_first_name u;
     rec_games_played := Some 0;
     rec_wins := Some 0;
     rec_losses := Some 0;
     rec_rounds_played := Some 0;
     rec_eliminations := Some 0;
     rec_total_score := Some 0;
     rec_penalties := Some 0 |}.

Definition has_id (user_id : Z) (u : user_record) : bool :=
  bool_decide (rec_user_id u = user_id).

Definition reset_user_stats (user_id : Z) (users : list user_record)
  : bool * list user_record :=
  if existsb (has_id user_id) users
  then (true, map (fun u => if has_id user_id u then clear_counters u else u) users)
  else (false, users).

(** The replies of [reset_callback]. *)
Inductive reset_reply :=
| ResetAlertNotYours        (* [query.answer("You cannot confirm/cancel ...", show_alert=True)] *)
| ResetEditedDone (target_id : Z)      (* "Stats for user ID ... have been reset." *)
| ResetEditedNoUser                    (* "No such user found." *)
| ResetEditedCanceled (target_id : Z)  (* "Reset for user ID ... was canceled." *)
| ResetLogged (target_id initiator_id : Z)   (* the message to [LOG_CHAT_ID] *)
| ResetAnswered                        (* [query.answer()] *)
| ResetAlertWrong.          (* [query.answer("Something went wrong.", show_alert=True)] *)

(** The "Yes" and "No" buttons of the [reset] command. *)
Definition reset_buttons (target_id user_id : Z) : markup :=
  [ [ {| label := 0x2705%N :: lit " Yes";
         callback_data := lit "confirm_reset:" ++ str_of_int target_id
                          ++ lit ":" ++ str_of_int user_id |};
      {| label := 0x274C%N :: lit " No";
         callback_data := lit "cancel_reset:" ++ str_of_int target_id
                          ++ lit ":" ++ str_of_int user_id |} ] ].

(** The replies of [reset_all_callback]. *)
Inductive reset_all_reply :=
| AllAlertNotYours          (* [query.answer("You cannot confirm/cancel ...", show_alert=True)] *)
| AllEditedDone             (* "All users' game stats have been reset!" *)
| AllLogged (initiator_id : Z)         (* the message to [LOG_CHAT_ID] *)
| AllEditedCanceled         (* "Reset all users' game stats was canceled." *)
| AllAnswered               (* [query.answer()] *)
| AllAlertWrong.            (* [query.answer("Something went wrong.", show_alert=True)] *)

(** The "Yes" and "No" buttons of the [reset_all] command. *)
Definition reset_all_buttons (user_id : Z) : markup :=
  [ [ {| label := 0x2705%N :: lit " Yes";
         callback_data := lit "confirm_reset_all:" ++ str_of_int user_id |};
      {| label := 0x274C%N :: lit " No";
         callback_data := lit "cancel_reset_all:" ++ str_of_int user_id |} ] ].

Section Moderation.

Variable unicode_isspace : N -> bool.
Variable unicode_decimal : N -> option Z.

(** [LOG_CHAT_ID] of the configuration; a falsy value means no log chat. *)
Variable LOG_CHAT_ID : Z.

(** The [try] body of [reset_callback]: replies and users table, or the
    exception raised.  [presser] is [query.from_user.id].  The transport is
    taken to accept every message. *)
Definition reset_callback_body (data : str) (presser : Z) (users : list user_record)
  : outcome (list reset_reply * list user_record) :=
  match str_split_all 58%N data with
  | [action; target_id; initiator_id] =>
      target_id ← int_of_str unicode_isspace unicode_decimal target_id;
      initiator_id ← int_of_str unicode_isspace unicode_decimal initiator_id;
      if decide (presser <> initiator_id) then Ok ([ResetAlertNotYours], users)
      else if decide (action = lit "confirm_reset") then
        target_id ← bind_integer target_id;    (* [WHERE user_id = ?] *)
        let '(found, users') := reset_user_stats target_id users in
        if found then
          Ok ([ResetEditedDone target_id]
                ++ (if decide (LOG_CHAT_ID = 0) then []
                    else [ResetLogged target_id initiator_id])
                ++ [ResetAnswered], users')
        else Ok ([ResetEditedNoUser; ResetAnswered], users')
      else if decide (action = lit "cancel_reset") then
        Ok ([ResetEditedCanceled target_id; ResetAnswered], users)
      else Ok ([ResetAnswered], users)
  | _ => Raise ValueError     (* unpacking into three names *)
  end.

(** [reset_callback]: [except Exception] answers with an alert (the line
    that [logger.exception] writes is not among the replies). *)
Definition reset_callback (data : str) (presser : Z) (users : list user_record)
  : list reset_reply * list user_record :=
  match reset_callback_body data presser users with
  | Ok result => result
  | Raise _ => ([ResetAlertWrong], users)
  end.

(** The [try] body of [reset_all_callback]; the [UPDATE] has no [WHERE]. *)
Definition reset_all_callback_body (data : str) (presser : Z) (users : list user_record)
  : outcome (list reset_all_reply * list user_record) :=
  match str_split_all 58%N data with
  | [action; initiator_id] =>
      initiator_id ← int_of_str unicode_isspace unicode_decimal initiator_id;
      if decide (presser <> initiator_id) then Ok ([AllAlertNotYours], users)
      else if decide (action = lit "confirm_reset_all") then
        Ok ([AllEditedDone]
              ++ (if decide (LOG_CHAT_ID = 0) then [] else [AllLogged initiator_id])
              ++ [AllAnswered],
            map clear_counters users)
      else if decide (action = lit "cancel_reset_all") then
        Ok ([AllEditedCanceled; AllAnswered], users)
      else Ok ([AllAnswered], users)
  | _ => Raise ValueError     (* unpacking into two names *)
  end.

(** [reset_all_callback]: [except Exception] answers with an alert. *)
Definition reset_all_callback (data : str) (presser : Z) (users : list user_record)
  : list reset_all_reply * list user_record :=
  match reset_all_callback_body data presser users with
  | Ok result => result
  | Raise _ => ([AllAlertWrong], users)
  end.

End Moderation.

(** A Telegram user as the commands read it. *)
Record tg_user := {
  tg_id : Z;
  tg_username : option str;
  tg_full_name : str
}.

(** The replies of the moderation commands. *)
Inductive command_reply :=
| CmdNotAuthorized                     (* "You are not authorized to use this command." *)
| CmdReplyToAdd                        (* "Reply to a user's message to add them as mod." *)
| CmdModAdded (name : str)             (* "Added @... as mod." *)
| CmdLogModAdded (name : str) (mod_id : Z)   (* the message to [LOG_CHAT_ID] *)
| CmdAlreadyMod                        (* "This user is already a mod." *)
| CmdInvalidId                         (* "Invalid user ID. ..." *)
| CmdProvideModId                      (* "Provide a user ID or reply to a user's message to remove mod." *)
| CmdProvideTargetId                   (* "Provide a user ID or reply to a user's message to reset stats." *)
| CmdModRemoved (mod_id : Z)           (* "Removed mod with ID ..." *)
| CmdLogModRemoved (mod_id : Z)        (* the message to [LOG_CHAT_ID] *)
| CmdNoSuchMod                         (* "No such mod found." *)
| CmdConfirmReset (target_id : Z) (buttons : markup)    (* "Are you sure ...?" *)
| CmdConfirmResetAll (buttons : markup).   (* "Are you sure you want to reset all users' game stats? ..." *)

(** [user.username or user.full_name] *)
Definition name_of (u : tg_user) : str :=
  match tg_username u with
  | Some s => or_str s (tg_full_name u)
  | None => tg_full_name u
  end.

Section Commands.

Variable unicode_isspace : N -> bool.
Variable unicode_decimal : N -> option Z.

(** [OWNER_ID] and [LOG_CHAT_ID] of the configuration. *)
Variable OWNER_ID : Z.
Variable LOG_CHAT_ID : Z.

Definition is_owner (user_id : Z) : bool := bool_decide (user_id = OWNER_ID).

(** The user id a command is aimed at: [int(context.args[0])] when there are
    arguments, else the author of the message replied to, else [None].
    [reply_from] is [None] without a replied message, [Some None] when that
    message has no author. *)
Definition target_of (args : list str) (reply_from : option (option tg_user))
  : outcome (option Z) :=
  match args with
  | arg :: _ => Some <$> int_of_str unicode_isspace unicode_decimal arg
  | [] =>
      match reply_from with
      | Some (Some u) => Ok (Some (tg_id u))
      | _ => Ok None
      end
  end.

(** [addmod]: replies and the [mods] table afterwards.  The transport is
    taken to accept every message. *)
Definition addmod (user : tg_user) (reply_from : option (option tg_user))
    (mods : gmap Z str) : list command_reply * gmap Z str :=
  if negb (is_owner (tg_id user)) then ([CmdNotAuthorized], mods)
  else
    match reply_from with
    | Some (Some mod_user) =>
        let '(added, mods') := add_mod (tg_id mod_user) (name_of mod_user) mods in
        if added then
          ([CmdModAdded (name_of mod_user)]
             ++ (if decide (LOG_CHAT_ID = 0) then []
                 else [CmdLogModAdded (name_of mod_user) (tg_id mod_user)]),
           mods')
        else ([CmdAlreadyMod], mods')
    | _ => ([CmdReplyToAdd], mods)
    end.

(** [rmmod] *)
Definition rmmod (user : tg_user) (args : list str)
    (reply_from : option (option tg_user)) (mods : gmap Z str)
  : list command_reply * gmap Z str :=
  if negb (is_owner (tg_id user)) then ([CmdNotAuthorized], mods)
  else
    match target_of args reply_from with
    | Raise _ => ([CmdInvalidId], mods)             (* [except ValueError] *)
    | Ok mod_id =>
        match mod_id with
        | Some mod_id =>
            if decide (mod_id = 0) then ([CmdProvideModId], mods)   (* [if not mod_id] *)
            else
              let '(removed, mods') := remove_mod mod_id mods in
              if removed then
                ([CmdModRemoved mod_id]
                   ++ (if decide (LOG_CHAT_ID = 0) then []
                       else [CmdLogModRemoved mod_id]),
                 mods')
              else ([CmdNoSuchMod], mods')
        | None => ([CmdProvideModId], mods)
        end
    end.

(** [reset]: the command only asks for confirmation. *)
Definition reset (user : tg_user) (args : list str)
    (reply_from : option (option tg_user)) (mods : gmap Z str)
  : list command_reply :=
  if negb (is_owner (tg_id user) || is_mod (tg_id user) mods) then [CmdNotAuthorized]
  else
    match target_of args reply_from with
    | Raise _ => [CmdInvalidId]
    | Ok target_id =>
        match target_id with
        | Some target_id =>
            if decide (target_id = 0) then [CmdProvideTargetId]
            else [CmdConfirmReset target_id (reset_buttons target_id (tg_id user))]
        | None => [CmdProvideTargetId]
        end
    end.

(** [reset_all]: owner only; the command only asks for confirmation. *)
Definition reset_all (user : tg_user) : list command_reply :=
  if negb (is_owner (tg_id user)) then [CmdNotAuthorized]
  else [CmdConfirmResetAll (reset_all_buttons (tg_id user))].

End Commands.

(* ================================================================= *)
(** ** Vocabulary of the statements *)

(** The win percentage shown for a listed player and in a rank summary:
    the rounded quotient when at least one game was played, else [0]. *)
Definition pct_if_played (w g : Z) : pct :=
  if decide (0 < g) then PctRound1 w g else PctZero.

(** The win percentage of the trailing block: the quotient is taken
    whenever the number of games is not zero. *)
Definition pct_if_nonzero (w g : Z) : pct :=
  if decide (g = 0) then PctZero else PctRound1 w g.

(** The fallback chain first_name, username, "Unknown". *)
Definition first_name_then_username (r : row) : str :=
  if decide (first_name r <> []) then first_name r
  else if decide (username r <> []) then username r
  else lit "Unknown".

(** The fallback chain username, first_name, "Unknown". *)
Definition username_then_first_name (r : row) : str :=
  if decide (username r <> []) then username r
  else if decide (first_name r <> []) then first_name r
  else lit "Unknown".

(** The block of the player in row [r] listed at rank [rank]. *)
Definition entry_of (viewer_id rank : Z) (r : row) : block :=
  Entry rank (_medal_for_rank rank)
    (if decide (user_id r = viewer_id) then [0x2B50%N; 32%N] else [])
    (html_escape (first_name_then_username r)) (user_id r)
    (games_played r) (pct_if_played (wins r) (games_played r))
    (wins r) (losses r) (total_score r) (penalties r).

Definition is_entry (b : block) : bool :=
  match b with Entry _ _ _ _ _ _ _ _ _ _ _ => true | _ => false end.

Definition is_your_rank (b : block) : bool :=
  match b with YourRank _ _ _ _ _ _ _ _ _ => true | _ => false end.

(** The player blocks of a rendered text, in order. *)
Definition entries (body : text) : list block := List.filter is_entry body.

(** The rows listed on page [page]: [per_page] rows from offset
    [(page - 1) * per_page]. *)
Definition page_rows (all_users : list row) (per_page page : Z) : list row :=
  take (Z.to_nat per_page) (drop (Z.to_nat ((page - 1) * per_page)) all_users).

(** The player blocks rendered for page [page]. *)
Definition page_entries
    (all_users : list row) (per_page viewer_id : Z) (daily : bool) (page : Z)
  : list block :=
  match _build_leaderboard_text all_users page per_page viewer_id daily with
  | Ok (body, _, _) => entries body
  | Raise _ => []
  end.

(** First position (from 0) and row of a user in a list. *)
Definition locate (uid : Z) (l : list row) : option (nat * row) :=
  list_find (fun r => user_id r = uid) l.

(** The trailing block for a viewer, against the list it is computed from. *)
Definition your_rank_of (all_users : list row) (viewer_id : Z) : block :=
  match locate viewer_id all_users with
  | Some (k, r) =>
      YourRank (Z.of_nat k + 1) (html_escape (username_then_first_name r)) viewer_id
        (games_played r) (pct_if_nonzero (wins r) (games_played r))
        (wins r) (losses r) (total_score r) (penalties r)
  | None =>
      YourRank (len all_users + 1) (html_escape (lit "Unknown")) viewer_id
        0 PctZero 0 0 0 0
  end.

(** [a] may precede [b] under the wins-then-score rule. *)
Definition ranked_before (a b : row) : Prop :=
  wins b < wins a \/ (wins a = wins b /\ total_score b <= total_score a).






Definition healthy (db : database) : Prop := forall s, fault_at db s = None.

Definition faulty (db : database) : Prop := exists s e, fault_at db s = Some e.

(** Number of pages and clamped page, as the function computes them. *)
Definition pages_of (total per_page : Z) : Z := Z.max 1 (- ((- total) / per_page)).

Definition clamp_page (page total_pages : Z) : Z := Z.max 1 (Z.min page total_pages).

(** Sample data: seven players already in ranked order, and a viewer (id 9)
    who is not listed. *)
Definition player (uid won score : Z) (first user : string) : row :=
  {| user_id := uid; username := lit user; first_name := lit first;
     games_played := 4; wins := won; losses := 4 - won; rounds_played := 12;
     eliminations := 0; total_score := score; penalties := 0 |}.

Definition seven_players : list row :=
  [ player 1 4 100 "Ann" "ann99"; player 2 4 50 "Bob" "";
    player 3 3 70 "" "cy"; player 4 3 10 "" "";
    player 5 2 0 "Eve" "eve"; player 6 1 0 "Fay" "fay";
    player 7 0 0 "Gus" "gus" ].

Definition quiet : world := {| logged := []; sent := [] |}.

(** The buttons of the pager. *)
Definition previous_button (prefix : str) (page : Z) : button :=
  {| label := 0x25C4%N :: lit " Previous";
     callback_data := prefix ++ lit "_" ++ str_of_int (page - 1) |}.

Definition next_button (prefix : str) (page : Z) : button :=
  {| label := lit "Next " ++ [0x25BA%N];
     callback_data := prefix ++ lit "_" ++ str_of_int (page + 1) |}.

Definition indicator_button (prefix : str) (page total_pages : Z) : button :=
  {| label := lit "Page " ++ str_of_int page ++ lit "/" ++ str_of_int total_pages;
     callback_data := prefix ++ lit ":nop" |}.

(** The name a block shows. *)
Definition block_name (b : block) : option str :=
  match b with
  | Header => None
  | Entry _ _ _ name _ _ _ _ _ _ _ => Some name
  | YourRank _ name _ _ _ _ _ _ _ => Some name
  end.


(** A stored record with the given key, wins and score, other columns NULL. *)
Definition stored (uid won score : Z) : user_record :=
  {| rec_user_id := uid; rec_username := None; rec_first_name := None;
     rec_games_played := Some won; rec_wins := Some won; rec_losses := None;
     rec_rounds_played := None; rec_eliminations := None;
     rec_total_score := Some score; rec_penalties := None |}.

Definition no_fault : db_step -> option exn := fun _ => None.

(** A store of 101 players; player [i] has [200 - i] wins, so player 101 is
    the last of the ranking. *)
Definition crowded_db : database :=
  {| users_table := map (fun i => stored (Z.of_nat i) (200 - Z.of_nat i) 0) (seq 1 101);
     fault_at := no_fault |}.

(** A store whose query fails. *)
Definition locked_db : database :=
  {| users_table := [stored 1 3 30];
     fault_at := fun s => match s with
                          | Execute => Some (DatabaseError (lit "database is locked"))
                          | _ => None
                          end |}.

(** A store holding Ann, who has both names. *)
Definition ann_db : database :=
  {| users_table :=
       [ {| rec_user_id := 1; rec_username := Some (lit "ann99");
            rec_first_name := Some (lit "Ann"); rec_games_played := Some 4;
            rec_wins := Some 4; rec_losses := Some 0; rec_rounds_played := None;
            rec_eliminations := None; rec_total_score := Some 100;
            rec_penalties := None |} ];
     fault_at := no_fault |}.

(** A daily snapshot: player 1 has the higher score, player 2 more wins. *)
Definition two_daily : list row :=
  [ player 1 1 100 "Ann" "ann99"; player 2 4 50 "Bob" "" ].

(** A character database with nothing above ASCII. *)
Definition ascii_only_space : N -> bool := fun _ => false.
Definition ascii_only_decimal : N -> option Z := fun _ => None.

(** The rank a block shows for the viewer: the rank of a highlighted entry
    or of the "your rank" block. *)
Definition self_rank (b : block) : option Z :=
  match b with
  | Header => None
  | Entry rank _ highlight _ _ _ _ _ _ _ _ =>
      match highlight with [] => None | _ :: _ => Some rank end
  | YourRank rank _ _ _ _ _ _ _ _ => Some rank
  end.

(** The characters with a meaning in the HTML markup of a message. *)
Definition markup_char (c : N) : Prop :=
  c = 60%N \/ c = 62%N \/ c = 34%N \/ c = 39%N.

(** The win percentage of a block. *)
Definition block_pct (b : block) : option pct :=
  match b with
  | Header => None
  | Entry _ _ _ _ _ _ p _ _ _ _ => Some p
  | YourRank _ _ _ _ p _ _ _ _ => Some p
  end.

(** [PctRound1 w g] stands for [round(w / g * 100, 1)].  Python computes it
    when [g] is not zero and [w / g] has a binary64 value, which a quotient
    below 2^1023 in size has; the [0] of the other branch is always there. *)
Definition pct_is_computed (p : pct) : Prop :=
  match p with
  | PctZero => True
  | PctRound1 w g => g <> 0 /\ Z.abs w < 2 ^ 1023 * Z.abs g
  end.

(* ================================================================= *)
(** ** Builtins: basic facts *)

Lemma or_int_zero (a : Z) : or_int a 0 = a.
Proof. unfold or_int. case_decide; congruence. Qed.

Lemma or_str_first_name_chain (r : row) :
  or_str (or_str (first_name r) (username r)) (lit "Unknown") = first_name_then_username r.
Proof.
  unfold first_name_then_username, or_str.
  destruct (first_name r), (username r); reflexivity.
Qed.

Lemma or_str_username_chain (r : row) :
  or_str (or_str (username r) (first_name r)) (lit "Unknown") = username_then_first_name r.
Proof.
  unfold username_then_first_name, or_str.
  destruct (first_name r), (username r); reflexivity.
Qed.

Lemma len_nonneg {A} (l : list A) : 0 <= len l.
Proof. unfold len. lia. Qed.

Lemma ceil_div_pos (a b : Z) :
  0 < b -> exists c, ceil_div a b = Ok c /\ b * (c - 1) < a <= b * c.
Proof.
  intros Hb. unfold ceil_div. case_decide; [lia|].
  eexists; split; [reflexivity|].
  pose proof (Z.div_mod (- a) b ltac:(lia)) as Hdm.
  pose proof (Z.mod_pos_bound (- a) b Hb) as Hm.
  set (q := (- a) / b) in *.
  replace (b * (- q - 1)) with (- (b * q) - b) by ring.
  replace (b * - q) with (- (b * q)) by ring.
  lia.
Qed.

Lemma enumerate_app {A} (l1 l2 : list A) (s : Z) :
  enumerate (l1 ++ l2) s = enumerate l1 s ++ enumerate l2 (s + len l1).
Proof.
  revert s. induction l1 as [|x l1 IH]; intros s; simpl.
  - replace (s + len (@nil A)) with s by (unfold len; simpl; lia). done.
  - replace (s + len (x :: l1)) with (s + 1 + len l1)
      by (unfold len; simpl length; lia).
    by rewrite IH.
Qed.

Lemma enumerate_imap {A} (l : list A) (s : Z) :
  enumerate l s = imap (fun k x => (s + Z.of_nat k, x)) l.
Proof.
  revert s. induction l as [|x l IH]; intros s; simpl; [done|].
  f_equal; [f_equal; lia|].
  rewrite IH. apply imap_ext. intros k y _. simpl. f_equal. lia.
Qed.

Lemma next_or_find_row (uid : Z) (l : list row) :
  next_or (is_user uid) Some l None = snd <$> locate uid l.
Proof.
  unfold locate. induction l as [|x l IH]; simpl; [done|].
  unfold is_user at 1. case_bool_decide; case_decide; try done.
  rewrite IH. by destruct (list_find _ l) as [[??]|].
Qed.

Lemma next_or_find_rank (uid : Z) (l : list row) (s d : Z) :
  next_or (fun ir : Z * row => is_user uid ir.2) fst (enumerate l s) d
  = match locate uid l with Some (k, _) => s + Z.of_nat k | None => d end.
Proof.
  unfold locate. revert s. induction l as [|x l IH]; intros s; simpl; [done|].
  unfold is_user at 1. simpl. case_bool_decide; case_decide; try done.
  - lia.
  - rewrite IH. destruct (list_find _ l) as [[??]|]; simpl; lia.
Qed.

(* ================================================================= *)
(** ** Rendering a page: what [_build_leaderboard_text] computes *)

Lemma existsb_is_user (uid : Z) (l : list row) :
  existsb (is_user uid) l = true <-> uid ∈ map user_id l.
Proof.
  rewrite existsb_exists, list_elem_of_fmap. unfold is_user.
  split.
  - intros (r & Hin & Hr). apply bool_decide_eq_true in Hr.
    exists r. split; [done|]. by apply list_elem_of_In.
  - intros (r & -> & Hin). exists r. split; [by apply list_elem_of_In|].
    by apply bool_decide_eq_true.
Qed.

Lemma entry_block_ok (viewer_id i : Z) (r : row) :
  entry_block viewer_id i r = Ok (entry_of viewer_id i r).
Proof.
  unfold entry_block, entry_of, pct_if_played, round_pct.
  rewrite !or_int_zero, or_str_first_name_chain.
  repeat case_decide; try lia; reflexivity.
Qed.

Lemma render_entries_ok (viewer_id : Z) (rows : list row) (s : Z) (t : text) (f : bool) :
  render_entries viewer_id (enumerate rows s) (t, f)
  = Ok (t ++ imap (fun k r => entry_of viewer_id (s + Z.of_nat k) r) rows,
        f || existsb (is_user viewer_id) rows).
Proof.
  revert s t f. induction rows as [|r rows IH]; intros s t f.
  - simpl. by rewrite app_nil_r, orb_false_r.
  - cbn [enumerate render_entries]. rewrite entry_block_ok. cbn [mbind outcome_bind].
    cbn [fst snd]. rewrite IH. f_equal. f_equal.
    + rewrite <- app_assoc. cbn [imap app]. rewrite Z.add_0_r. do 2 f_equal.
      apply imap_ext. intros k y _. cbn. f_equal. lia.
    + cbn [existsb]. unfold is_user at 2.
      case_decide; case_bool_decide; try done.
      by rewrite orb_true_r.
Qed.

Lemma your_rank_block_ok (all_users : list row) (viewer_id : Z) :
  your_rank_block all_users viewer_id = Ok (your_rank_of all_users viewer_id).
Proof.
  unfold your_rank_block, your_rank_of.
  rewrite next_or_find_row, next_or_find_rank.
  destruct (locate viewer_id all_users) as [[k r]|]; cbn [fmap option_fmap option_map snd].
  - cbn [me_of_row me_games_played me_wins me_username me_rank me_losses
           me_total_score me_penalties].
    rewrite !or_int_zero, or_str_username_chain.
    unfold pct_if_nonzero, round_pct.
    repeat case_decide; try lia; cbn; do 2 f_equal; lia.
  - cbn. reflexivity.
Qed.

Lemma py_slice_page {A} (l : list A) (start per_page : Z) :
  0 <= start -> 0 < per_page ->
  py_slice l start (Z.min (start + per_page) (len l))
  = take (Z.to_nat per_page) (drop (Z.to_nat start) l).
Proof.
  intros Hs Hp. unfold py_slice, slice_bound.
  pose proof (len_nonneg l) as Hl. unfold len in *.
  repeat case_decide; try lia.
  destruct (decide (start <= Z.of_nat (length l))) as [Hle|Hgt].
  - rewrite (Z.min_l start) by lia.
    destruct (decide (per_page <= Z.of_nat (length l) - start)) as [Hfit|Hcut].
    + f_equal. lia.
    + rewrite !take_ge; [done| |]; rewrite length_drop; lia.
  - rewrite !drop_ge by lia. by rewrite !take_nil.
Qed.

Lemma build_text_eq (all_users : list row) (page per_page viewer_id : Z) (daily : bool) :
  0 < per_page ->
  let total_pages := pages_of (len all_users) per_page in
  let shown := clamp_page page total_pages in
  let rows := page_rows all_users per_page shown in
  _build_leaderboard_text all_users page per_page viewer_id daily
  = Ok (Header
          :: imap (fun k r =>
                     entry_of viewer_id ((shown - 1) * per_page + 1 + Z.of_nat k) r) rows
          ++ (if existsb (is_user viewer_id) rows then []
              else [your_rank_of all_users viewer_id]),
        total_pages, shown).
Proof.
  intros Hp total_pages shown rows.
  unfold _build_leaderboard_text, ceil_div.
  case_decide; [lia|]. cbn [mbind outcome_bind].
  fold (pages_of (len all_users) per_page). fold total_pages.
  fold (clamp_page page total_pages). fold shown.
  assert (1 <= shown) as Hshown by (unfold shown, clamp_page; lia).
  rewrite py_slice_page by nia.
  fold (page_rows all_users per_page shown). fold rows.
  rewrite render_entries_ok. cbn [mbind outcome_bind fst snd orb].
  destruct (existsb (is_user viewer_id) rows).
  - cbn. by rewrite app_nil_r.
  - rewrite your_rank_block_ok. cbn. reflexivity.
Qed.

Lemma pages_of_ceiling (total per_page : Z) :
  0 < per_page ->
  exists c, pages_of total per_page = Z.max 1 c
            /\ per_page * (c - 1) < total <= per_page * c.
Proof.
  intros Hp. destruct (ceil_div_pos total per_page Hp) as (c & Hc & Hb).
  exists c. split; [|done].
  unfold ceil_div in Hc. case_decide; [lia|]. injection Hc as <-. reflexivity.
Qed.

Lemma pages_of_covers (total per_page : Z) :
  0 < per_page -> 0 <= total ->
  1 <= pages_of total per_page
  /\ total <= pages_of total per_page * per_page
  /\ (pages_of total per_page - 1) * per_page <= total.
Proof.
  intros Hp Ht. destruct (pages_of_ceiling total per_page Hp) as (c & -> & Hc).
  split; [lia|]. destruct (decide (1 <= c)).
  - rewrite Z.max_r by lia. lia.
  - rewrite Z.max_l by lia. nia.
Qed.

Lemma clamp_page_in_range (page total_pages : Z) :
  1 <= page <= total_pages -> clamp_page page total_pages = page.
Proof. unfold clamp_page. lia. Qed.

Lemma entries_imap_entry {A} (f : nat -> A -> block) (l : list A) (tail : text) :
  (forall k x, is_entry (f k x) = true) ->
  Forall (fun b => is_entry b = false) tail ->
  entries (Header :: imap f l ++ tail) = imap f l.
Proof.
  intros Hf Htail. unfold entries. cbn [List.filter is_entry].
  rewrite List.filter_app.
  assert (List.filter is_entry tail = []) as ->.
  { induction Htail as [|b t Hb _ IH]; [done|]. cbn. by rewrite Hb. }
  rewrite app_nil_r. revert f Hf. induction l as [|x l IH]; intros f Hf; [done|].
  cbn [imap List.filter]. rewrite Hf. f_equal. apply IH. intros k y. apply Hf.
Qed.

Lemma page_entries_eq (all_users : list row) (per_page viewer_id page : Z) (daily : bool) :
  0 < per_page ->
  let shown := clamp_page page (pages_of (len all_users) per_page) in
  page_entries all_users per_page viewer_id daily page
  = imap (fun k r => entry_of viewer_id ((shown - 1) * per_page + 1 + Z.of_nat k) r)
      (page_rows all_users per_page shown).
Proof.
  intros Hp shown. unfold page_entries. rewrite build_text_eq by done.
  fold shown. apply entries_imap_entry; [done|].
  destruct (existsb _ _); [constructor|].
  constructor; [|constructor]. unfold your_rank_of.
  by destruct (locate _ _) as [[??]|].
Qed.

Lemma page_rows_length (all_users : list row) (per_page page : Z) :
  0 < per_page -> 1 <= page -> (page - 1) * per_page <= len all_users ->
  len (page_rows all_users per_page page)
  = Z.min per_page (len all_users - (page - 1) * per_page).
Proof.
  intros Hp Hpage Hfirst. unfold page_rows, len in *.
  assert (0 <= (page - 1) * per_page) by nia.
  rewrite length_take, length_drop. lia.
Qed.

(** Cutting a list into [n] consecutive chunks of [k] elements and
    numbering each chunk from its offset numbers the whole list. *)
Lemma chunks_imap {A B} (f : nat -> A -> B) (k n : nat) (l : list A) :
  (0 < k)%nat -> (length l <= n * k)%nat ->
  concat (map (fun i => imap (fun j x => f (i * k + j)%nat x)
                          (take k (drop (i * k) l))) (seq 0 n))
  = imap f l.
Proof.
  intros Hk. revert f l. induction n as [|n IH]; intros f l Hlen.
  - destruct l; [done|]. simpl in Hlen. lia.
  - cbn [seq map concat]. rewrite <- fmap_S_seq.
    change (map ?g (S <$> ?s)) with (g <$> (S <$> s)). rewrite <- list_fmap_compose.
    cbn [Nat.mul Nat.add drop].
    specialize (IH (fun j => f (k + j)%nat) (drop k l)).
    rewrite length_drop in IH. specialize (IH ltac:(simpl in Hlen; lia)).
    transitivity (imap f (take k l ++ drop k l)); [|by rewrite take_drop].
    rewrite imap_app. cbn [drop]. f_equal.
    destruct (decide (length l <= k)%nat) as [Hshort|Hlong].
    + rewrite (drop_ge l k) by done. cbn [imap].
      clear IH. induction (seq 0 n) as [|i s IHs]; [done|].
      cbn. rewrite drop_ge by lia. rewrite take_nil. cbn. apply IHs.
    + rewrite length_take, Nat.min_l by lia. rewrite <- IH.
      f_equal. apply list_fmap_ext. intros _ i _. cbn.
      rewrite drop_drop. replace (k + i * k)%nat with (i * k + k)%nat by lia.
      apply imap_ext. intros j x _. cbn. f_equal. lia.
Qed.
Lemma all_pages_cover (all_users : list row) (per_page viewer_id : Z) (daily : bool) :
  0 < per_page ->
  concat (map (page_entries all_users per_page viewer_id daily)
            (seqZ 1 (pages_of (len all_users) per_page)))
  = imap (fun k r => entry_of viewer_id (Z.of_nat k + 1) r) all_users.
Proof.
  intros Hp.
  destruct (pages_of_covers (len all_users) per_page Hp (len_nonneg _))
    as (Hone & Hcover & _).
  set (tp := pages_of (len all_users) per_page) in *.
  rewrite <- (chunks_imap (fun k r => entry_of viewer_id (Z.of_nat k + 1) r)
                (Z.to_nat per_page) (Z.to_nat tp) all_users);
    [|lia|unfold len in Hcover; nia].
  unfold seqZ. change (map ?g (?h <$> ?s)) with (g <$> (h <$> s)).
  rewrite <- list_fmap_compose. f_equal.
  apply list_fmap_ext. intros i ? Hi.
  apply lookup_seq in Hi as [-> Hi]. cbn.
  rewrite page_entries_eq by done. fold tp.
  rewrite clamp_page_in_range by lia.
  unfold page_rows.
  replace (Z.to_nat ((Z.of_nat i + 1 - 1) * per_page)) with (i * Z.to_nat per_page)%nat by nia.
  apply imap_ext. intros j r _. cbn. f_equal. nia.
Qed.

(** C1. For every list of players and page size of at least one, the number
    of pages is [max(1, ceil(total / per_page))]; every page from 1 to that
    number lists [min(per_page, total - (page - 1) * per_page)] players, the
    rows at offsets [(page - 1) * per_page ...] of the list, each under its
    absolute position counted from one; and the pages taken in order list every
    player exactly once, in the order of the list. *)
Theorem pages_partition_ordering
    (all_users : list row) (per_page viewer_id : Z) (daily : bool) :
  1 <= per_page ->
  exists total_pages,
    (exists c, total_pages = Z.max 1 c
               /\ per_page * (c - 1) < len all_users <= per_page * c)
    /\ (forall page, exists body shown,
          _build_leaderboard_text all_users page per_page viewer_id daily
          = Ok (body, total_pages, shown))
    /\ (forall page, 1 <= page <= total_pages ->
          exists body,
            _build_leaderboard_text all_users page per_page viewer_id daily
            = Ok (body, total_pages, page)
            /\ entries body
               = imap (fun k r =>
                         entry_of viewer_id ((page - 1) * per_page + Z.of_nat k + 1) r)
                   (page_rows all_users per_page page)
            /\ len (entries body)
               = Z.min per_page (len all_users - (page - 1) * per_page))
    /\ concat (map (page_entries all_users per_page viewer_id daily)
                 (seqZ 1 total_pages))
       = imap (fun k r => entry_of viewer_id (Z.of_nat k + 1) r) all_users.
Proof.
  intros Hp. assert (0 < per_page) as Hpos by lia.
  exists (pages_of (len all_users) per_page).
  split; [by apply pages_of_ceiling|].
  split; [intros page; rewrite build_text_eq by done; eauto|].
  split; [|by apply all_pages_cover].
  intros page Hpage.
  pose proof (page_entries_eq all_users per_page viewer_id page daily Hpos) as Hent.
  unfold page_entries in Hent. cbn zeta in Hent.
  rewrite build_text_eq in * by done.
  rewrite clamp_page_in_range in * by done.
  eexists. split; [reflexivity|].
  rewrite Hent. split.
  - apply imap_ext. intros k r _. cbn. f_equal. lia.
  - unfold len at 1. rewrite length_imap. apply page_rows_length; [done|lia|].
    destruct (pages_of_covers (len all_users) per_page Hpos (len_nonneg _))
      as (_ & _ & Hlast). nia.
Qed.

Lemma pages_partition_ordering_witness :
  1 <= 5 /\
  exists total_pages,
    (exists c, total_pages = Z.max 1 c
               /\ 5 * (c - 1) < len seven_players <= 5 * c)
    /\ (forall page, exists body shown,
          _build_leaderboard_text seven_players page 5 9 false
          = Ok (body, total_pages, shown))
    /\ (forall page, 1 <= page <= total_pages ->
          exists body,
            _build_leaderboard_text seven_players page 5 9 false
            = Ok (body, total_pages, page)
            /\ entries body
               = imap (fun k r => entry_of 9 ((page - 1) * 5 + Z.of_nat k + 1) r)
                   (page_rows seven_players 5 page)
            /\ len (entries body)
               = Z.min 5 (len seven_players - (page - 1) * 5))
    /\ concat (map (page_entries seven_players 5 9 false) (seqZ 1 total_pages))
       = imap (fun k r => entry_of 9 (Z.of_nat k + 1) r) seven_players.
Proof.
  split; [lia|]. apply (pages_partition_ordering seven_players 5 9 false). lia.
Defined.

(** C2. A page request below 1 is answered exactly as page 1, one above the
    number of pages exactly as the last page, and the page reported back
    always lies between 1 and the number of pages. *)
Theorem page_request_is_clamped
    (all_users : list row) (per_page viewer_id : Z) (daily : bool) :
  1 <= per_page ->
  exists total_pages,
    (forall page, exists body shown,
       _build_leaderboard_text all_users page per_page viewer_id daily
       = Ok (body, total_pages, shown)
       /\ 1 <= shown <= total_pages)
    /\ (forall page, page < 1 ->
          _build_leaderboard_text all_users page per_page viewer_id daily
          = _build_leaderboard_text all_users 1 per_page viewer_id daily)
    /\ (forall page, total_pages < page ->
          _build_leaderboard_text all_users page per_page viewer_id daily
          = _build_leaderboard_text all_users total_pages per_page viewer_id daily).
Proof.
  intros Hp. assert (0 < per_page) as Hpos by lia.
  exists (pages_of (len all_users) per_page).
  assert (1 <= pages_of (len all_users) per_page) as Hone
    by (unfold pages_of; lia).
  repeat split.
  - intros page. rewrite build_text_eq by done.
    do 2 eexists. split; [reflexivity|]. unfold clamp_page. lia.
  - intros page Hlow. rewrite !build_text_eq by done.
    replace (clamp_page page _) with (clamp_page 1 (pages_of (len all_users) per_page))
      by (unfold clamp_page; lia).
    reflexivity.
  - intros page Hhigh. rewrite !build_text_eq by done.
    replace (clamp_page page _)
      with (clamp_page (pages_of (len all_users) per_page)
              (pages_of (len all_users) per_page))
      by (unfold clamp_page; lia).
    reflexivity.
Qed.

Lemma page_request_is_clamped_witness :
  1 <= 5 /\
  exists total_pages,
    (forall page, exists body shown,
       _build_leaderboard_text seven_players page 5 9 false
       = Ok (body, total_pages, shown)
       /\ 1 <= shown <= total_pages)
    /\ (forall page, page < 1 ->
          _build_leaderboard_text seven_players page 5 9 false
          = _build_leaderboard_text seven_players 1 5 9 false)
    /\ (forall page, total_pages < page ->
          _build_leaderboard_text seven_players page 5 9 false
          = _build_leaderboard_text seven_players total_pages 5 9 false).
Proof.
  split; [lia|]. apply (page_request_is_clamped seven_players 5 9 false). lia.
Defined.

(** C3. When no player listed on the shown page is the viewer, the text ends
    with one "your rank" block and holds no other: for a viewer found in the
    list it carries the position of the viewer's first row in that same list,
    counted from one, and that row's counters; for a viewer found nowhere it
    carries rank [total + 1] and zero counters.  When the viewer is listed on
    the page, the text holds no such block. *)
Theorem your_rank_block_rule
    (all_users : list row) (page per_page viewer_id : Z) (daily : bool) :
  1 <= per_page ->
  exists body total_pages shown,
    _build_leaderboard_text all_users page per_page viewer_id daily
    = Ok (body, total_pages, shown)
    /\ (viewer_id ∉ map user_id (page_rows all_users per_page shown) ->
          exists listed mine,
            body = listed ++ [mine]
            /\ Forall (fun b => is_your_rank b = false) listed
            /\ is_your_rank mine = true
            /\ (forall (k : nat) r,
                  all_users !! k = Some r -> user_id r = viewer_id ->
                  (forall (j : nat) y, all_users !! j = Some y -> (j < k)%nat ->
                                       user_id y <> viewer_id) ->
                  mine = YourRank (Z.of_nat k + 1)
                           (html_escape (username_then_first_name r)) viewer_id
                           (games_played r)
                           (pct_if_nonzero (wins r) (games_played r))
                           (wins r) (losses r) (total_score r) (penalties r))
            /\ (viewer_id ∉ map user_id all_users ->
                  mine = YourRank (len all_users + 1) (html_escape (lit "Unknown"))
                           viewer_id 0 PctZero 0 0 0 0))
    /\ (viewer_id ∈ map user_id (page_rows all_users per_page shown) ->
          Forall (fun b => is_your_rank b = false) body).
Proof.
  intros Hp. rewrite build_text_eq by lia.
  set (shown := clamp_page page _). set (rows := page_rows all_users per_page shown).
  do 3 eexists. split; [reflexivity|].
  assert (forall f : nat -> row -> block,
             (forall k r, is_your_rank (f k r) = false) ->
             Forall (fun b => is_your_rank b = false) (Header :: imap f rows)) as Hlisted.
  { intros f Hf. constructor; [done|].
    apply Forall_forall. intros b Hb. apply elem_of_lookup_imap in Hb
      as (k & r & -> & _). apply Hf. }
  split.
  - intros Hout. apply (not_iff_compat (existsb_is_user viewer_id rows)) in Hout.
    apply not_true_is_false in Hout. rewrite Hout.
    exists (Header :: imap (fun k r =>
              entry_of viewer_id ((shown - 1) * per_page + 1 + Z.of_nat k) r) rows),
      (your_rank_of all_users viewer_id).
    split; [done|]. split; [by apply Hlisted|].
    unfold your_rank_of, locate.
    destruct (list_find _ all_users) as [[k0 r0]|] eqn:Hfind.
    + apply list_find_Some in Hfind as (Hk0 & Hr0 & Hfirst).
      split; [done|]. split.
      * intros k r Hk Hr Hmin.
        destruct (Nat.lt_trichotomy k k0) as [Hlt|[->|Hgt]].
        -- by destruct (Hfirst k r Hk Hlt).
        -- by simplify_eq.
        -- by destruct (Hmin k0 r0 Hk0 Hgt).
      * intros Hnot. destruct Hnot. apply list_elem_of_fmap.
        exists r0. split; [done|]. by eapply list_elem_of_lookup_2.
    + apply list_find_None in Hfind.
      split; [done|]. split; [|done].
      intros k r Hk Hr _. rewrite Forall_forall in Hfind.
      destruct (Hfind r); [by eapply list_elem_of_lookup_2|done].
  - intros Hin. apply (proj2 (existsb_is_user viewer_id rows)) in Hin.
    rewrite Hin, app_nil_r.
    by apply Hlisted.
Qed.

Lemma your_rank_block_rule_witness :
  1 <= 5 /\
  exists body total_pages shown,
    _build_leaderboard_text seven_players 1 5 6 false
    = Ok (body, total_pages, shown)
    /\ (6 ∉ map user_id (page_rows seven_players 5 shown) ->
          exists listed mine,
            body = listed ++ [mine]
            /\ Forall (fun b => is_your_rank b = false) listed
            /\ is_your_rank mine = true
            /\ (forall (k : nat) r,
                  seven_players !! k = Some r -> user_id r = 6 ->
                  (forall (j : nat) y, seven_players !! j = Some y -> (j < k)%nat ->
                                       user_id y <> 6) ->
                  mine = YourRank (Z.of_nat k + 1)
                           (html_escape (username_then_first_name r)) 6
                           (games_played r)
                           (pct_if_nonzero (wins r) (games_played r))
                           (wins r) (losses r) (total_score r) (penalties r))
            /\ (6 ∉ map user_id seven_players ->
                  mine = YourRank (len seven_players + 1) (html_escape (lit "Unknown"))
                           6 0 PctZero 0 0 0 0))
    /\ (6 ∈ map user_id (page_rows seven_players 5 shown) ->
          Forall (fun b => is_your_rank b = false) body).
Proof.
  split; [lia|]. apply (your_rank_block_rule seven_players 1 5 6 false). lia.
Defined.

(* ================================================================= *)
(** ** The pager *)

Lemma startswith_nop (prefix : str) :
  startswith (prefix ++ lit ":nop") (prefix ++ lit "_") = false.
Proof.
  induction prefix as [|c p IH]; [reflexivity|].
  cbn [app startswith]. by rewrite decide_True.
Qed.

(** C4 (amended). The pager is absent exactly when there is at most one
    page.  With two pages or more it has two rows: a navigation row that
    holds the "previous" button, for page - 1, exactly when the page is above
    1, the "next" button, for page + 1, exactly when the page is below the
    number of pages, and nothing else; and a row with the page indicator,
    whose token is not a page action. *)
Theorem pager_rule (page total_pages : Z) (prefix : str) :
  (_build_pager_old page total_pages prefix = None <-> total_pages <= 1)
  /\ (1 < total_pages ->
      exists nav,
        _build_pager_old page total_pages prefix
        = Some [nav; [indicator_button prefix page total_pages]]
        /\ (previous_button prefix page ∈ nav <-> 1 < page)
        /\ (next_button prefix page ∈ nav <-> page < total_pages)
        /\ (forall b, b ∈ nav ->
                      b = previous_button prefix page \/ b = next_button prefix page)
        /\ callback_data (previous_button prefix page)
           = prefix ++ lit "_" ++ str_of_int (page - 1)
        /\ callback_data (next_button prefix page)
           = prefix ++ lit "_" ++ str_of_int (page + 1)
        /\ startswith (callback_data (indicator_button prefix page total_pages))
             (prefix ++ lit "_") = false).
Proof.
  split.
  - unfold _build_pager_old. case_decide; split; intros; try done; lia.
  - intros Hmany. unfold _build_pager_old. rewrite decide_False by lia.
    fold (previous_button prefix page) (next_button prefix page)
         (indicator_button prefix page total_pages).
    assert (previous_button prefix page <> next_button prefix page) as Hne
      by (intros Heq; apply (f_equal label) in Heq; discriminate Heq).
    destruct (decide (page > 1)) as [Hprev|Hprev];
      destruct (decide (page < total_pages)) as [Hnext|Hnext]; try lia;
      cbn [app]; eexists; (split; [reflexivity|]);
      repeat split; try apply startswith_nop; intros;
      repeat match goal with
        | H : _ ∈ _ :: _ |- _ => apply elem_of_cons in H as [H|H]
        | H : _ ∈ [] |- _ => by apply elem_of_nil in H
        end;
      first [lia | congruence | by left | by right | by repeat constructor].
Qed.

Lemma pager_rule_witness :
  exists nav,
    _build_pager_old 2 2 (lit "leaderboard")
    = Some [nav; [indicator_button (lit "leaderboard") 2 2]]
    /\ (previous_button (lit "leaderboard") 2 ∈ nav <-> 1 < 2)
    /\ (next_button (lit "leaderboard") 2 ∈ nav <-> 2 < 2)
    /\ (forall b, b ∈ nav ->
                  b = previous_button (lit "leaderboard") 2
                  \/ b = next_button (lit "leaderboard") 2)
    /\ callback_data (previous_button (lit "leaderboard") 2)
       = lit "leaderboard" ++ lit "_" ++ str_of_int (2 - 1)
    /\ callback_data (next_button (lit "leaderboard") 2)
       = lit "leaderboard" ++ lit "_" ++ str_of_int (2 + 1)
    /\ startswith (callback_data (indicator_button (lit "leaderboard") 2 2))
         (lit "leaderboard" ++ lit "_") = false.
Proof.
  apply (proj2 (pager_rule 2 2 (lit "leaderboard"))). lia.
Defined.

(** C4, as stated, fails: with zero pages the pager is absent although the
    number of pages is not one. *)
Lemma pager_absent_without_pages :
  _build_pager_old 1 0 (lit "leaderboard") = None /\ (0 : Z) <> 1.
Proof. split; [reflexivity|lia]. Qed.

(* ================================================================= *)
(** ** Sorting *)

Section Sorting.

Context {A : Type} (before : A -> A -> bool).

Lemma insert_by_perm (x : A) (l : list A) : insert_by before x l ≡ₚ x :: l.
Proof.
  induction l as [|y l IH]; [done|]. cbn.
  destruct (before y x); [|done].
  rewrite IH. apply Permutation_swap.
Qed.

Lemma sort_by_perm (l : list A) : sort_by before l ≡ₚ l.
Proof.
  induction l as [|x l IH]; [done|]. cbn.
  by rewrite insert_by_perm, IH.
Qed.

Hypothesis before_asym : forall a b, before a b = true -> before b a = false.
Hypothesis before_negtrans :
  forall a b c, before a c = true -> before a b = true \/ before b c = true.

Lemma insert_by_sorted (x : A) (l : list A) :
  StronglySorted (fun a b => before b a = false) l ->
  StronglySorted (fun a b => before b a = false) (insert_by before x l).
Proof.
  induction 1 as [|y l Hl IH Hy]; cbn.
  - repeat constructor.
  - destruct (before y x) eqn:Hyx.
    + constructor; [done|].
      rewrite insert_by_perm. constructor; [by apply before_asym|done].
    + constructor; [by constructor|].
      constructor; [done|].
      eapply Forall_impl; [exact Hy|]. intros z Hz. cbn beta in *.
      destruct (before z x) eqn:Hzx; [|done].
      destruct (before_negtrans z y x Hzx); congruence.
Qed.

Lemma sort_by_sorted (l : list A) :
  StronglySorted (fun a b => before b a = false) (sort_by before l).
Proof.
  induction l as [|x l IH]; cbn; [constructor|]. by apply insert_by_sorted.
Qed.

End Sorting.

Lemma sorted_weaken {A} (R R' : A -> A -> Prop) (l : list A) :
  (forall a b, R a b -> R' a b) -> StronglySorted R l -> StronglySorted R' l.
Proof.
  intros HR. induction 1 as [|x l Hl IH Hx]; constructor; [done|].
  eapply Forall_impl; [exact Hx|]. intros y. apply HR.
Qed.

Lemma sorted_take {A} (R : A -> A -> Prop) (n : nat) (l : list A) :
  StronglySorted R l -> StronglySorted R (take n l).
Proof.
  intros Hl. revert n. induction Hl as [|x l Hl IH Hx]; intros [|n]; cbn;
    try constructor; [apply IH|].
  by apply Forall_take.
Qed.

Lemma wins_then_score_false (a b : row) :
  wins_then_score b a = false <-> ranked_before a b.
Proof.
  unfold wins_then_score, ranked_before.
  rewrite orb_false_iff, andb_false_iff, !bool_decide_eq_false. lia.
Qed.

Lemma wins_then_score_sorted (l : list row) :
  StronglySorted ranked_before (sort_by wins_then_score l).
Proof.
  eapply sorted_weaken; [|apply sort_by_sorted].
  - intros a b. apply wins_then_score_false.
  - intros a b. unfold wins_then_score.
    rewrite orb_true_iff, andb_true_iff, !bool_decide_eq_true.
    rewrite orb_false_iff, andb_false_iff, !bool_decide_eq_false. lia.
  - intros a b c. unfold wins_then_score.
    rewrite !orb_true_iff, !andb_true_iff, !bool_decide_eq_true. lia.
Qed.


(* ================================================================= *)
(** ** The store *)

Lemma attempt_healthy (db : database) (s : db_step) (w : world) :
  healthy db -> attempt db s w = (Ok tt, w).
Proof. intros H. unfold attempt. by rewrite H. Qed.

Lemma get_all_users_sorted_healthy (db : database) (limit : Z) (w : world) :
  healthy db -> sqlite_integer limit ->
  get_all_users_sorted db limit w = (Ok (run_query (users_table db) limit), w).
Proof.
  intros H Hlimit. unfold get_all_users_sorted, try_except, attempt.
  unfold mbind, M_bind, lift, bind_integer. rewrite !H.
  by rewrite decide_True.
Qed.

Lemma default_limit_binds : sqlite_integer DEFAULT_LIMIT.
Proof. unfold sqlite_integer, DEFAULT_LIMIT. lia. Qed.

Lemma get_all_users_sorted_default (db : database) (w : world) :
  healthy db ->
  get_all_users_sorted db DEFAULT_LIMIT w
  = (Ok (run_query (users_table db) DEFAULT_LIMIT), w).
Proof.
  intros H. apply get_all_users_sorted_healthy; [done|apply default_limit_binds].
Qed.

Lemma get_all_users_sorted_overflow (db : database) (limit : Z) (w : world) :
  ~ sqlite_integer limit ->
  get_all_users_sorted db limit w
  = (Ok [], {| logged := logged w ++ [lit "Error in get_all_users_sorted"];
               sent := sent w |}).
Proof.
  intros Hlimit. unfold get_all_users_sorted, try_except, attempt.
  unfold mbind, M_bind, lift, bind_integer.
  destruct (fault_at db EnsureColumns) eqn:H1; [reflexivity|].
  destruct (fault_at db Connect) eqn:H2; [reflexivity|].
  destruct (fault_at db Execute) eqn:H3; [reflexivity|].
  by rewrite decide_False.
Qed.

Lemma get_all_users_sorted_faulty (db : database) (limit : Z) (w : world) :
  faulty db ->
  get_all_users_sorted db limit w
  = (Ok [], {| logged := logged w ++ [lit "Error in get_all_users_sorted"];
               sent := sent w |}).
Proof.
  intros (s & e & Hs). unfold get_all_users_sorted, try_except, attempt.
  unfold mbind, M_bind.
  destruct (fault_at db EnsureColumns) eqn:H1; [reflexivity|].
  destruct (fault_at db Connect) eqn:H2; [reflexivity|].
  destruct (fault_at db Execute) eqn:H3; [reflexivity|].
  unfold lift, bind_integer.
  destruct (decide (sqlite_integer limit)); [|reflexivity].
  destruct (fault_at db FetchAll) eqn:H4; [reflexivity|].
  destruct (fault_at db Close) eqn:H5; [reflexivity|].
  destruct s; congruence.
Qed.

Lemma get_all_users_sorted_total (db : database) (limit : Z) (w : world) :
  exists rows w', get_all_users_sorted db limit w = (Ok rows, w').
Proof.
  unfold get_all_users_sorted, try_except, attempt.
  unfold mbind, M_bind, lift, bind_integer.
  repeat (destruct (fault_at db _); [by eauto|]).
  destruct (decide (sqlite_integer limit)); [|by eauto].
  repeat (destruct (fault_at db _); [by eauto|]). by eauto.
Qed.

Lemma rank_scan_eq (uid total : Z) (l : list row) (s : Z) :
  rank_scan uid total (enumerate l s)
  = Ok match locate uid l with
       | Some (k, r) =>
           summary_of_row (s + Z.of_nat k) total r
             (pct_if_played (wins r) (games_played r))
       | None => summary_not_listed total
       end.
Proof.
  unfold locate. revert s. induction l as [|x l IH]; intros s; [done|].
  cbn [enumerate rank_scan list_find]. case_decide.
  - rewrite !or_int_zero. unfold pct_if_played, round_pct.
    repeat case_decide; try lia; cbn; do 2 f_equal; lia.
  - rewrite IH. destruct (list_find _ l) as [[k r]|]; cbn; [|done].
    do 2 f_equal. lia.
Qed.

Lemma summary_of_row_eq (idx total : Z) (r : row) (p : pct) :
  summary_of_row idx total r p
  = {| s_username := username_then_first_name r; s_rank := idx;
       s_total_users := total; s_total_played := games_played r;
       s_wins := wins r; s_losses := losses r; s_win_percent := p;
       s_rounds_played := rounds_played r; s_eliminations := eliminations r;
       s_total_score := total_score r; s_penalties := penalties r |}.
Proof.
  unfold summary_of_row. by rewrite !or_int_zero, or_str_username_chain.
Qed.

Lemma get_user_rank_eq (db : database) (uid : Z) (w : world) :
  forall rows w',
    get_all_users_sorted db DEFAULT_LIMIT w = (Ok rows, w') ->
    get_user_rank db uid w
    = (Ok match locate uid rows with
          | Some (k, r) =>
              summary_of_row (Z.of_nat k + 1) (len rows) r
                (pct_if_played (wins r) (games_played r))
          | None => summary_not_listed (len rows)
          end, w').
Proof.
  intros rows w' Hrows. unfold get_user_rank, try_except.
  unfold mbind, M_bind. rewrite Hrows. unfold lift. rewrite rank_scan_eq.
  f_equal. f_equal. destruct (locate uid rows) as [[k r]|]; [|done].
  f_equal. lia.
Qed.

Lemma locate_first (uid : Z) (l : list row) (k : nat) (r : row) :
  l !! k = Some r -> user_id r = uid ->
  (forall (j : nat) y, l !! j = Some y -> (j < k)%nat -> user_id y <> uid) ->
  locate uid l = Some (k, r).
Proof. intros Hk Hr Hmin. apply list_find_Some. eauto. Qed.

Lemma locate_absent (uid : Z) (l : list row) :
  uid ∉ map user_id l -> locate uid l = None.
Proof.
  intros Hnot. apply list_find_None, Forall_forall. intros r Hr Heq.
  apply Hnot, list_elem_of_fmap. eauto.
Qed.

Lemma run_query_default (table : list user_record) :
  run_query table DEFAULT_LIMIT
  = take 100 (sort_by wins_then_score (map select_columns table)).
Proof. reflexivity. Qed.

(** C5. With a working store, the list searched is the first hundred rows
    of the table sorted by wins, then score, both descending.  For a user
    found in it the summary carries the position of the user's row counted
    from one, the length of the list, the row's counters, and as win percent
    the rounded quotient when games were played and [0] when none were; for a
    user not in it the summary carries rank [total + 1] and zero counters.  In
    both cases the call returns. *)
Theorem rank_summary_rule (db : database) (uid : Z) (w : world) :
  healthy db ->
  exists ordering ranked,
    get_all_users_sorted db DEFAULT_LIMIT w = (Ok ordering, w)
    /\ ranked ≡ₚ map select_columns (users_table db)
    /\ StronglySorted ranked_before ranked
    /\ ordering = take 100 ranked
    /\ (forall (k : nat) r,
          ordering !! k = Some r -> user_id r = uid ->
          (forall (j : nat) y, ordering !! j = Some y -> (j < k)%nat ->
                               user_id y <> uid) ->
          get_user_rank db uid w
          = (Ok {| s_username := username_then_first_name r;
                   s_rank := Z.of_nat k + 1;
                   s_total_users := len ordering;
                   s_total_played := games_played r;
                   s_wins := wins r;
                   s_losses := losses r;
                   s_win_percent :=
                     if decide (0 < games_played r)
                     then PctRound1 (wins r) (games_played r) else PctZero;
                   s_rounds_played := rounds_played r;
                   s_eliminations := eliminations r;
                   s_total_score := total_score r;
                   s_penalties := penalties r |}, w))
    /\ (uid ∉ map user_id ordering ->
          get_user_rank db uid w
          = (Ok {| s_username := lit "Unknown";
                   s_rank := len ordering + 1;
                   s_total_users := len ordering;
                   s_total_played := 0; s_wins := 0; s_losses := 0;
                   s_win_percent := PctZero; s_rounds_played := 0;
                   s_eliminations := 0; s_total_score := 0;
                   s_penalties := 0 |}, w)).
Proof.
  intros Hdb.
  exists (run_query (users_table db) DEFAULT_LIMIT),
    (sort_by wins_then_score (map select_columns (users_table db))).
  pose proof (get_all_users_sorted_default db w Hdb) as Hget.
  split; [done|]. split; [apply sort_by_perm|].
  split; [apply wins_then_score_sorted|]. split; [apply run_query_default|].
  split.
  - intros k r Hk Hr Hmin. rewrite (get_user_rank_eq _ _ _ _ _ Hget).
    rewrite (locate_first _ _ _ _ Hk Hr Hmin). by rewrite summary_of_row_eq.
  - intros Hnot. rewrite (get_user_rank_eq _ _ _ _ _ Hget).
    by rewrite (locate_absent _ _ Hnot).
Qed.

Lemma rank_summary_rule_witness :
  healthy ann_db /\
  exists ordering ranked,
    get_all_users_sorted ann_db DEFAULT_LIMIT quiet = (Ok ordering, quiet)
    /\ ranked ≡ₚ map select_columns (users_table ann_db)
    /\ StronglySorted ranked_before ranked
    /\ ordering = take 100 ranked
    /\ (forall (k : nat) r,
          ordering !! k = Some r -> user_id r = 1 ->
          (forall (j : nat) y, ordering !! j = Some y -> (j < k)%nat ->
                               user_id y <> 1) ->
          get_user_rank ann_db 1 quiet
          = (Ok {| s_username := username_then_first_name r;
                   s_rank := Z.of_nat k + 1;
                   s_total_users := len ordering;
                   s_total_played := games_played r;
                   s_wins := wins r;
                   s_losses := losses r;
                   s_win_percent :=
                     if decide (0 < games_played r)
                     then PctRound1 (wins r) (games_played r) else PctZero;
                   s_rounds_played := rounds_played r;
                   s_eliminations := eliminations r;
                   s_total_score := total_score r;
                   s_penalties := penalties r |}, quiet))
    /\ (1 ∉ map user_id ordering ->
          get_user_rank ann_db 1 quiet
          = (Ok {| s_username := lit "Unknown";
                   s_rank := len ordering + 1;
                   s_total_users := len ordering;
                   s_total_played := 0; s_wins := 0; s_losses := 0;
                   s_win_percent := PctZero; s_rounds_played := 0;
                   s_eliminations := 0; s_total_score := 0;
                   s_penalties := 0 |}, quiet)).
Proof.
  assert (healthy ann_db) as H by (intros s; reflexivity).
  split; [exact H|]. apply (rank_summary_rule ann_db 1 quiet H).
Defined.

(** C8. Neither retrieval ever raises.  When a statement of the retrieval
    fails, [get_all_users_sorted] logs the fault and returns the empty list,
    and [get_user_rank] returns the summary with rank 1, zero users, zero
    counters and the name "Unknown". *)
Theorem retrieval_faults_are_absorbed
    (db : database) (limit uid : Z) (w : world) :
  (exists rows w', get_all_users_sorted db limit w = (Ok rows, w'))
  /\ (exists s w', get_user_rank db uid w = (Ok s, w'))
  /\ (faulty db ->
      let w' := {| logged := logged w ++ [lit "Error in get_all_users_sorted"];
                   sent := sent w |} in
      get_all_users_sorted db limit w = (Ok [], w')
      /\ get_user_rank db uid w
         = (Ok {| s_username := lit "Unknown";
                  s_rank := 1;
                  s_total_users := 0;
                  s_total_played := 0; s_wins := 0; s_losses := 0;
                  s_win_percent := PctZero; s_rounds_played := 0;
                  s_eliminations := 0; s_total_score := 0;
                  s_penalties := 0 |}, w')).
Proof.
  split; [apply get_all_users_sorted_total|]. split.
  - destruct (get_all_users_sorted_total db DEFAULT_LIMIT w) as (rows & w' & Hrows).
    rewrite (get_user_rank_eq _ _ _ _ _ Hrows). eauto.
  - intros Hfault w'. split; [by apply get_all_users_sorted_faulty|].
    by rewrite (get_user_rank_eq _ _ _ _ _
                  (get_all_users_sorted_faulty db DEFAULT_LIMIT w Hfault)).
Qed.

Lemma retrieval_faults_are_absorbed_witness :
  faulty locked_db /\
  get_all_users_sorted locked_db 100 quiet
  = (Ok [], {| logged := [lit "Error in get_all_users_sorted"]; sent := [] |})
  /\ get_user_rank locked_db 1 quiet
     = (Ok {| s_username := lit "Unknown";
              s_rank := 1;
              s_total_users := 0;
              s_total_played := 0; s_wins := 0; s_losses := 0;
              s_win_percent := PctZero; s_rounds_played := 0;
              s_eliminations := 0; s_total_score := 0;
              s_penalties := 0 |},
        {| logged := [lit "Error in get_all_users_sorted"]; sent := [] |}).
Proof.
  assert (faulty locked_db) as H by (exists Execute; eexists; reflexivity).
  split; [exact H|].
  exact (proj2 (proj2 (retrieval_faults_are_absorbed locked_db 100 1 quiet)) H).
Defined.

(** C10. The rank lookup searches the first hundred rows of the ranking
    only: a user whose row is not among them gets the summary of an absent
    user, with rank [total + 1], which is at most 101, zero counters and the
    name "Unknown", whether or not the table holds a row for the user. *)
Theorem rank_lookup_stops_at_hundred (db : database) (uid : Z) (w : world) :
  healthy db ->
  uid ∉ map user_id
          (take 100 (sort_by wins_then_score (map select_columns (users_table db)))) ->
  exists total,
    total = len (take 100 (sort_by wins_then_score
                             (map select_columns (users_table db))))
    /\ total <= 100
    /\ get_user_rank db uid w
       = (Ok {| s_username := lit "Unknown";
                s_rank := total + 1;
                s_total_users := total;
                s_total_played := 0; s_wins := 0; s_losses := 0;
                s_win_percent := PctZero; s_rounds_played := 0;
                s_eliminations := 0; s_total_score := 0;
                s_penalties := 0 |}, w)
    /\ total + 1 <= 101.
Proof.
  intros Hdb Hnot. eexists. split; [reflexivity|].
  assert (len (take 100 (sort_by wins_then_score
                           (map select_columns (users_table db)))) <= 100) as Hlen.
  { unfold len. rewrite length_take. lia. }
  split; [done|]. split; [|lia].
  rewrite (get_user_rank_eq _ _ _ _ _
             (get_all_users_sorted_default db w Hdb)).
  rewrite run_query_default. by rewrite (locate_absent _ _ Hnot).
Qed.

Lemma rank_lookup_stops_at_hundred_witness :
  healthy crowded_db
  /\ (101 ∈ map rec_user_id (users_table crowded_db))
  /\ (101 ∉ map user_id
              (take 100 (sort_by wins_then_score
                           (map select_columns (users_table crowded_db)))))
  /\ get_user_rank crowded_db 101 quiet
     = (Ok {| s_username := lit "Unknown";
              s_rank := 101;
              s_total_users := 100;
              s_total_played := 0; s_wins := 0; s_losses := 0;
              s_win_percent := PctZero; s_rounds_played := 0;
              s_eliminations := 0; s_total_score := 0;
              s_penalties := 0 |}, quiet).
Proof.
  assert (healthy crowded_db) as H by (intros s; reflexivity).
  assert (Hnot : 101 ∉ map user_id
                         (take 100 (sort_by wins_then_score
                                      (map select_columns (users_table crowded_db))))).
  { apply (bool_decide_unpack _). vm_compute. exact I. }
  split; [exact H|].
  split; [apply (bool_decide_unpack _); vm_compute; exact I|].
  split; [exact Hnot|].
  destruct (rank_lookup_stops_at_hundred crowded_db 101 quiet H Hnot)
    as (total & Htotal & _ & Hrank & _).
  rewrite Hrank. subst total. vm_compute. reflexivity.
Defined.

(* ================================================================= *)
(** ** The daily rank of the statistics view *)

Lemma list_index_first `{EqDecision A} (x : A) (l : list A) (k : nat) :
  l !! k = Some x ->
  (forall (j : nat) y, l !! j = Some y -> (j < k)%nat -> y <> x) ->
  list_index x l = Ok (Z.of_nat k).
Proof.
  revert k. induction l as [|y l IH]; intros k Hk Hmin; [done|].
  cbn [list_index]. destruct k as [|k].
  - cbn in Hk. simplify_eq. by rewrite decide_True.
  - rewrite decide_False by (apply (Hmin 0%nat); [done|lia]).
    rewrite (IH k); [cbn; f_equal; lia|done|].
    intros j z Hj Hlt. apply (Hmin (S j)); [done|lia].
Qed.

Lemma userinfo_callback_daily_eq (daily_users : list row) (uid : Z) :
  userinfo_callback_daily daily_users uid
  = Ok match locate uid (sort_by by_score daily_users) with
       | Some (k, r) =>
           {| d_rank := Z.of_nat k + 1; d_games := games_played r;
              d_wins := wins r; d_losses := losses r; d_score := total_score r;
              d_pen := penalties r;
              d_win_pct := pct_if_nonzero (wins r) (games_played r) |}
       | None =>
           {| d_rank := 0; d_games := 0; d_wins := 0; d_losses := 0;
              d_score := 0; d_pen := 0; d_win_pct := PctZero |}
       end.
Proof.
  unfold userinfo_callback_daily. rewrite next_or_find_row.
  destruct (locate uid _) as [[k r]|] eqn:Hloc; cbn [fmap option_fmap option_map snd];
    [|done].
  apply list_find_Some in Hloc as (Hk & Hr & Hmin).
  rewrite (list_index_first r _ k Hk).
  - unfold pct_if_nonzero, round_pct. by repeat case_decide.
  - intros j y Hj Hlt ->. by apply (Hmin j r).
Qed.




(* ================================================================= *)
(** ** Display names *)

Lemma map_imap_const {A B C} (h : B -> C) (f : nat -> A -> B) (g : A -> C) (l : list A) :
  (forall k x, h (f k x) = g x) -> map h (imap f l) = map g l.
Proof.
  revert f. induction l as [|x l IH]; intros f Hf; [done|].
  cbn. rewrite Hf. f_equal. apply IH. intros k y. apply Hf.
Qed.

(** C7 (amended). A listed player is shown under first_name, else username,
    else "Unknown".  The trailing "your rank" block and the rank summary
    resolve the name the other way round: username, else first_name, else
    "Unknown". *)
Theorem display_name_rule :
  (forall r,
      (first_name r <> [] -> first_name_then_username r = first_name r)
      /\ (first_name r = [] -> username r <> [] ->
          first_name_then_username r = username r)
      /\ (first_name r = [] -> username r = [] ->
          first_name_then_username r = lit "Unknown")
      /\ (username r <> [] -> username_then_first_name r = username r)
      /\ (username r = [] -> first_name r <> [] ->
          username_then_first_name r = first_name r)
      /\ (username r = [] -> first_name r = [] ->
          username_then_first_name r = lit "Unknown"))
  /\ (forall all_users page per_page viewer_id daily body total_pages shown,
        1 <= per_page ->
        _build_leaderboard_text all_users page per_page viewer_id daily
        = Ok (body, total_pages, shown) ->
        map block_name (entries body)
        = map (fun r => Some (html_escape (first_name_then_username r)))
            (page_rows all_users per_page shown))
  /\ (forall all_users page per_page viewer_id daily body total_pages shown
             (k : nat) r,
        1 <= per_page ->
        _build_leaderboard_text all_users page per_page viewer_id daily
        = Ok (body, total_pages, shown) ->
        viewer_id ∉ map user_id (page_rows all_users per_page shown) ->
        all_users !! k = Some r -> user_id r = viewer_id ->
        (forall (j : nat) y, all_users !! j = Some y -> (j < k)%nat ->
                             user_id y <> viewer_id) ->
        block_name <$> last body
        = Some (Some (html_escape (username_then_first_name r))))
  /\ (forall db uid w ordering w' (k : nat) r,
        get_all_users_sorted db DEFAULT_LIMIT w = (Ok ordering, w') ->
        ordering !! k = Some r -> user_id r = uid ->
        (forall (j : nat) y, ordering !! j = Some y -> (j < k)%nat ->
                             user_id y <> uid) ->
        exists s, get_user_rank db uid w = (Ok s, w')
                  /\ s_username s = username_then_first_name r).
Proof.
  split; [|split; [|split]].
  - intros r. unfold first_name_then_username, username_then_first_name.
    repeat split; intros; repeat case_decide; congruence.
  - intros all_users page per_page viewer_id daily body total_pages shown Hp Hb.
    rewrite build_text_eq in Hb by lia. injection Hb as <- <- <-.
    rewrite entries_imap_entry.
    + by apply map_imap_const.
    + done.
    + destruct (existsb _ _); [constructor|].
      constructor; [|constructor]. unfold your_rank_of.
      by destruct (locate _ _) as [[??]|].
  - intros all_users page per_page viewer_id daily body total_pages shown k r
      Hp Hb Hout Hk Hr Hmin.
    rewrite build_text_eq in Hb by lia. injection Hb as <- <- <-.
    apply (not_iff_compat (existsb_is_user viewer_id _)) in Hout.
    apply not_true_is_false in Hout. rewrite Hout.
    rewrite app_comm_cons, last_snoc. cbn [fmap option_fmap option_map].
    unfold your_rank_of. by rewrite (locate_first _ _ _ _ Hk Hr Hmin).
  - intros db uid w ordering w' k r Hget Hk Hr Hmin.
    rewrite (get_user_rank_eq _ _ _ _ _ Hget), (locate_first _ _ _ _ Hk Hr Hmin).
    eexists. split; [reflexivity|]. by rewrite summary_of_row_eq.
Qed.

Lemma display_name_rule_witness :
  map block_name (entries [Header; entry_of 1 1 (player 1 4 100 "Ann" "ann99")])
  = map (fun r => Some (html_escape (first_name_then_username r)))
      (page_rows [player 1 4 100 "Ann" "ann99"] 5 1)
  /\ exists s, get_user_rank ann_db 1 quiet = (Ok s, quiet)
               /\ s_username s
                  = username_then_first_name (player 1 4 100 "Ann" "ann99").
Proof.
  destruct display_name_rule as (_ & Hlisted & _ & Hsummary). split.
  - apply (Hlisted [player 1 4 100 "Ann" "ann99"] 1 5 1 false _ 1 1);
      [lia|reflexivity].
  - destruct (Hsummary ann_db 1 quiet
                [ {| user_id := 1; username := lit "ann99"; first_name := lit "Ann";
                     games_played := 4; wins := 4; losses := 0; rounds_played := 0;
                     eliminations := 0; total_score := 100; penalties := 0 |} ]
                quiet 0%nat _ eq_refl eq_refl eq_refl) as (s & Hs & Hname).
    + intros j y _ Hlt. lia.
    + exists s. split; [exact Hs|]. rewrite Hname. reflexivity.
Defined.

(** C7, as stated, fails: Ann has a first name and a username; the rank
    summary and the "your rank" block show the username, not the first name. *)
Lemma summary_prefers_username :
  first_name_then_username (player 1 4 100 "Ann" "ann99") = lit "Ann"
  /\ s_username <$> (get_user_rank ann_db 1 quiet).1 = Ok (lit "ann99")
  /\ (fun r => block_name <$> last r.1.1)
       <$> _build_leaderboard_text seven_players 2 5 1 false
     = Ok (Some (Some (lit "ann99"))).
Proof. repeat split; reflexivity. Qed.

(* ================================================================= *)
(** ** Page actions *)

Lemma startswith_true (s p : str) :
  startswith s p = true <-> exists rest, s = p ++ rest.
Proof.
  revert s. induction p as [|a p IH]; intros s; cbn.
  - split; [by exists s|done].
  - destruct s as [|b s].
    + split; [done|]. by intros (rest & ?).
    + case_decide as Hab.
      * subst b. rewrite IH. split; intros (rest & Hrest); exists rest.
        -- by rewrite Hrest.
        -- by injection Hrest.
      * split; [done|]. intros (rest & Hrest). by injection Hrest as <- _.
Qed.

Lemma str_split_zero (sep : N) (s : str) : str_split sep 0 s = [s].
Proof.
  induction s as [|c s IH]; [done|]. cbn. case_decide; [done|]. by rewrite IH.
Qed.

Lemma str_split_at_sep (sep : N) (n : nat) (p rest : str) :
  sep ∉ p -> str_split sep (S n) (p ++ sep :: rest) = p :: str_split sep n rest.
Proof.
  induction p as [|c p IH]; intros Hp; cbn.
  - by rewrite decide_True.
  - apply not_elem_of_cons in Hp as [Hc Hp].
    rewrite decide_False by done. by rewrite IH.
Qed.

Lemma leaderboard_token_page (rest : str) :
  index_nat (str_split 95%N 1 (lit "leaderboard_" ++ rest)) 1 = Ok rest.
Proof.
  change (lit "leaderboard_" ++ rest) with (lit "leaderboard" ++ 95%N :: rest).
  rewrite str_split_at_sep, str_split_zero; [done|].
  apply (bool_decide_unpack _). vm_compute. exact I.
Qed.

Lemma daily_leaderboard_token_page (rest : str) :
  index_nat (str_split 95%N 2 (lit "daily_leaderboard_" ++ rest)) 2 = Ok rest.
Proof.
  change (lit "daily_leaderboard_" ++ rest)
    with (lit "daily" ++ 95%N :: (lit "leaderboard" ++ 95%N :: rest)).
  rewrite !str_split_at_sep, str_split_zero; [done| |];
    apply (bool_decide_unpack _); vm_compute; exact I.
Qed.

Section PageActions.

Variable unicode_isspace : N -> bool.
Variable unicode_decimal : N -> option Z.

Lemma leaderboard_callback_cases (db : database) (viewer_id : Z)
    (query_data : option str) (w : world) :
  let data := strip unicode_isspace (data_or_empty query_data) in
  (exists rest page,
      data = lit "leaderboard_" ++ rest
      /\ int_of_str unicode_isspace unicode_decimal rest = Ok page
      /\ leaderboard_callback unicode_isspace unicode_decimal db viewer_id query_data w
         = try_except (_edit_leaderboard_page db viewer_id page)
             index_or_value_error (send Answered) w)
  \/ ((forall rest page,
          data = lit "leaderboard_" ++ rest ->
          int_of_str unicode_isspace unicode_decimal rest <> Ok page)
      /\ leaderboard_callback unicode_isspace unicode_decimal db viewer_id query_data w
         = (Ok tt, {| logged := logged w; sent := sent w ++ [Answered] |})).
Proof.
  intros data. unfold leaderboard_callback. fold data.
  destruct (startswith data (lit "leaderboard_")) eqn:Hstart; cbn [negb].
  - apply startswith_true in Hstart as (rest & Hrest). rewrite Hrest.
    unfold try_except, mbind, M_bind, lift. rewrite leaderboard_token_page.
    unfold int_of_str.
    destruct (parse_long (map (to_ascii_decimal unicode_isspace unicode_decimal) rest))
      as [page|] eqn:Hint.
    + left. exists rest, page. unfold int_of_str. by rewrite Hint.
    + right. split; [|reflexivity].
      intros rest' page Heq. apply app_inv_head in Heq as <-.
      unfold int_of_str. by rewrite Hint.
  - right. split; [|reflexivity].
    intros rest page Heq. assert (startswith data (lit "leaderboard_") = true)
      by (apply startswith_true; eauto). congruence.
Qed.

Lemma daily_leaderboard_callback_cases (daily_users : list row) (viewer_id : Z)
    (query_data : option str) (w : world) :
  let data := strip unicode_isspace (data_or_empty query_data) in
  (exists rest page,
      data = lit "daily_leaderboard_" ++ rest
      /\ int_of_str unicode_isspace unicode_decimal rest = Ok page
      /\ daily_leaderboard_callback unicode_isspace unicode_decimal daily_users
           viewer_id query_data w
         = try_except (_edit_daily_leaderboard_page daily_users viewer_id page)
             index_or_value_error (send Answered) w)
  \/ ((forall rest page,
          data = lit "daily_leaderboard_" ++ rest ->
          int_of_str unicode_isspace unicode_decimal rest <> Ok page)
      /\ daily_leaderboard_callback unicode_isspace unicode_decimal daily_users
           viewer_id query_data w
         = (Ok tt, {| logged := logged w; sent := sent w ++ [Answered] |})).
Proof.
  intros data. unfold daily_leaderboard_callback. fold data.
  destruct (startswith data (lit "daily_leaderboard_")) eqn:Hstart; cbn [negb].
  - apply startswith_true in Hstart as (rest & Hrest). rewrite Hrest.
    unfold try_except, mbind, M_bind, lift. rewrite daily_leaderboard_token_page.
    unfold int_of_str.
    destruct (parse_long (map (to_ascii_decimal unicode_isspace unicode_decimal) rest))
      as [page|] eqn:Hint.
    + left. exists rest, page. unfold int_of_str. by rewrite Hint.
    + right. split; [|reflexivity].
      intros rest' page Heq. apply app_inv_head in Heq as <-.
      unfold int_of_str. by rewrite Hint.
  - right. split; [|reflexivity].
    intros rest page Heq.
    assert (startswith data (lit "daily_leaderboard_") = true)
      by (apply startswith_true; eauto). congruence.
Qed.

End PageActions.




(* ================================================================= *)
(** ** Tokens written by the pager are read back by the handlers *)

Ltac eval_digit :=
  match goal with
  | |- context [digit_value ?c] =>
      let v := eval vm_compute in (digit_value c) in
      change (digit_value c) with v; cbv iota
  end.

Lemma parse_uint_digits_acc (d : Decimal.uint) (acc : positive) (b : bool) :
  parse_digits (Z.pos acc) b (uint_digits d)
  = match d with
    | Nil => if b then Some (Z.pos acc) else None
    | _ => Some (Z.pos (Pos.of_uint_acc d acc))
    end.
Proof.
  revert acc b. induction d as [|d IH|d IH|d IH|d IH|d IH|d IH|d IH|d IH|d IH|d IH];
    intros acc b; [done|..];
    cbn [uint_digits parse_digits Pos.of_uint_acc];
    eval_digit;
    (match goal with
     | |- parse_digits ?z _ _ = Some (Z.pos (Pos.of_uint_acc _ ?p)) =>
         replace z with (Z.pos p) by lia
     end);
    rewrite IH; by destruct d.
Qed.

Lemma parse_uint_digits (d : Decimal.uint) (b : bool) :
  parse_digits 0 b (uint_digits d)
  = match d with
    | Nil => if b then Some 0 else None
    | _ => Some (Z.of_N (Pos.of_uint d))
    end.
Proof.
  revert b. induction d as [|d IH|d IH|d IH|d IH|d IH|d IH|d IH|d IH|d IH|d IH];
    intros b; [done|..];
    cbn [uint_digits parse_digits Pos.of_uint]; eval_digit.
  - change (10 * 0 + 0) with 0. rewrite IH. by destruct d.
  - change (10 * 0 + 1) with (Z.pos 1). rewrite parse_uint_digits_acc. by destruct d.
  - change (10 * 0 + 2) with (Z.pos 2). rewrite parse_uint_digits_acc. by destruct d.
  - change (10 * 0 + 3) with (Z.pos 3). rewrite parse_uint_digits_acc. by destruct d.
  - change (10 * 0 + 4) with (Z.pos 4). rewrite parse_uint_digits_acc. by destruct d.
  - change (10 * 0 + 5) with (Z.pos 5). rewrite parse_uint_digits_acc. by destruct d.
  - change (10 * 0 + 6) with (Z.pos 6). rewrite parse_uint_digits_acc. by destruct d.
  - change (10 * 0 + 7) with (Z.pos 7). rewrite parse_uint_digits_acc. by destruct d.
  - change (10 * 0 + 8) with (Z.pos 8). rewrite parse_uint_digits_acc. by destruct d.
  - change (10 * 0 + 9) with (Z.pos 9). rewrite parse_uint_digits_acc. by destruct d.
Qed.

Lemma uint_digits_ascii (d : Decimal.uint) :
  Forall (fun c => (48 <= c <= 57)%N) (uint_digits d).
Proof. induction d; cbn; constructor; (lia || done). Qed.

Lemma to_uint_not_nil (p : positive) : Pos.to_uint p <> Nil.
Proof.
  intros Hnil. pose proof (DecimalPos.Unsigned.of_to p) as Hof.
  rewrite Hnil in Hof. discriminate Hof.
Qed.

Lemma parse_long_digits (d : Decimal.uint) :
  d <> Nil -> parse_long (uint_digits d) = Some (Z.of_N (Pos.of_uint d)).
Proof.
  intros Hd. pose proof (uint_digits_ascii d) as Hdigits.
  pose proof (parse_uint_digits d false) as Hparse.
  destruct (uint_digits d) as [|c r] eqn:E; [by destruct d|].
  apply Forall_cons in Hdigits as [Hc _].
  unfold parse_long. cbn [skip_blanks]. unfold c_isspace.
  rewrite (bool_decide_eq_false_2 (9 <= c <= 13)%N) by lia.
  rewrite (bool_decide_eq_false_2 (c = 32)%N) by lia. cbn [orb].
  rewrite !decide_False by lia. rewrite Hparse. by destruct d.
Qed.

Section ReadBack.

Variable unicode_isspace : N -> bool.
Variable unicode_decimal : N -> option Z.

Lemma to_ascii_decimal_digits (s : str) :
  Forall (fun c => (c < 128)%N) s ->
  map (to_ascii_decimal unicode_isspace unicode_decimal) s = s.
Proof.
  induction 1 as [|c s Hc _ IH]; [done|]. cbn. rewrite IH.
  unfold to_ascii_decimal. by rewrite decide_True.
Qed.

(** [int(str(z)) == z] *)
Lemma int_of_str_of_int (z : Z) :
  int_of_str unicode_isspace unicode_decimal (str_of_int z) = Ok z.
Proof.
  unfold int_of_str, str_of_int.
  destruct z as [|p|p]; cbn [Z.to_int]; [reflexivity| |].
  - rewrite to_ascii_decimal_digits
      by (eapply Forall_impl; [apply uint_digits_ascii|]; cbn; intros; lia).
    rewrite parse_long_digits by apply to_uint_not_nil.
    by rewrite DecimalPos.Unsigned.of_to.
  - cbn [map]. rewrite to_ascii_decimal_digits
      by (eapply Forall_impl; [apply uint_digits_ascii|]; cbn; intros; lia).
    unfold to_ascii_decimal. rewrite decide_True by lia.
    unfold parse_long. cbn [skip_blanks].
    change (c_isspace 45) with false. cbv iota.
    rewrite decide_False by lia. rewrite decide_True by done.
    pose proof (parse_long_digits (Pos.to_uint p) (to_uint_not_nil p)) as Hlong.
    pose proof (uint_digits_ascii (Pos.to_uint p)) as Hdigits.
    rewrite parse_uint_digits.
    destruct (Pos.to_uint p) eqn:E; [by destruct (to_uint_not_nil p)|..];
      rewrite <- E, DecimalPos.Unsigned.of_to; reflexivity.
Qed.

End ReadBack.

Lemma last_str_of_int (z : Z) :
  exists c, last (str_of_int z) = Some c /\ (48 <= c <= 57)%N.
Proof.
  assert (forall d, d <> Nil ->
            exists c, last (uint_digits d) = Some c /\ (48 <= c <= 57)%N) as Hlast.
  { intros d Hd. destruct (last (uint_digits d)) as [c|] eqn:E.
    - exists c. split; [done|]. apply last_Some in E as (l' & E).
      pose proof (uint_digits_ascii d) as Hall. rewrite E in Hall.
      apply Forall_app in Hall as [_ Hc]. exact (Forall_inv Hc).
    - apply last_None in E. by destruct d. }
  unfold str_of_int. destruct z as [|p|p]; cbn [Z.to_int].
  - exists 48%N. split; [done|lia].
  - apply Hlast, to_uint_not_nil.
  - destruct (Hlast _ (to_uint_not_nil p)) as (c & Hc & Hrange).
    exists c. split; [|done].
    change (45%N :: ?l) with ([45%N] ++ l). by rewrite last_app, Hc.
Qed.

Section PageChange.

Variable unicode_isspace : N -> bool.
Variable unicode_decimal : N -> option Z.

Lemma rstrip_keeps (s : str) (c : N) :
  last s = Some c -> isspace unicode_isspace c = false ->
  rstrip unicode_isspace s = s.
Proof.
  intros Hlast Hc. induction s as [|a s IH]; [done|].
  cbn [rstrip]. destruct s as [|b s].
  - cbn in Hlast. injection Hlast as ->. cbn. by rewrite Hc.
  - rewrite IH by done. done.
Qed.

Lemma strip_token (prefix : str) (page : Z) (a : N) (p : str) :
  prefix = a :: p -> isspace unicode_isspace a = false ->
  strip unicode_isspace (prefix ++ lit "_" ++ str_of_int page)
  = prefix ++ lit "_" ++ str_of_int page.
Proof.
  intros -> Ha. unfold strip. cbn [app lstrip]. rewrite Ha.
  destruct (last_str_of_int page) as (c & Hc & Hrange).
  apply (rstrip_keeps _ c).
  - change (a :: (p ++ ?t)) with ((a :: p) ++ t). by rewrite !last_app, Hc.
  - unfold isspace. rewrite decide_True by lia.
    by rewrite !bool_decide_eq_false_2 by lia.
Qed.

(** X21. A page action token "leaderboard_{page}" is served: the ordering is
    fetched, the page is rendered with [PER_PAGE] rows, the message is edited
    and the query is answered. *)
Lemma leaderboard_action_is_served (db : database) (viewer_id page : Z) (w : world) :
  exists rows w1 body total_pages shown,
    get_all_users_sorted db DEFAULT_LIMIT w = (Ok rows, w1)
    /\ _build_leaderboard_text rows page PER_PAGE viewer_id false
       = Ok (body, total_pages, shown)
    /\ leaderboard_callback unicode_isspace unicode_decimal db viewer_id
         (Some (lit "leaderboard" ++ lit "_" ++ str_of_int page)) w
       = (Ok tt,
          {| logged := logged w1;
             sent := sent w1
                     ++ [Edited body (_build_pager_old shown total_pages (lit "leaderboard"));
                         Answered] |}).
Proof.
  destruct (get_all_users_sorted_total db DEFAULT_LIMIT w) as (rows & w1 & Hrows).
  pose proof (build_text_eq rows page PER_PAGE viewer_id false ltac:(done)) as Hbuild.
  cbn zeta in Hbuild.
  do 5 eexists. split; [exact Hrows|]. split; [exact Hbuild|].
  destruct (leaderboard_callback_cases unicode_isspace unicode_decimal db viewer_id
              (Some (lit "leaderboard" ++ lit "_" ++ str_of_int page)) w)
    as [(rest & page' & Hdata & Hint & ->)|[Hno _]].
  - cbn [data_or_empty] in Hdata.
    assert (or_str (lit "leaderboard" ++ lit "_" ++ str_of_int page) []
            = lit "leaderboard" ++ lit "_" ++ str_of_int page) as Hor by done.
    rewrite Hor in Hdata.
    rewrite (strip_token (lit "leaderboard") page 108%N (lit "eaderboard"))
      in Hdata by done.
    change (lit "leaderboard" ++ lit "_" ++ str_of_int page)
      with (lit "leaderboard_" ++ str_of_int page) in Hdata.
    apply app_inv_head in Hdata as <-.
    rewrite int_of_str_of_int in Hint. injection Hint as <-.
    unfold try_except, _edit_leaderboard_page, mbind, M_bind, lift, send.
    rewrite Hrows, Hbuild. cbn. by rewrite <- app_assoc.
  - exfalso. apply (Hno (str_of_int page) page); [|apply int_of_str_of_int].
    cbn [data_or_empty].
    assert (or_str (lit "leaderboard" ++ lit "_" ++ str_of_int page) []
            = lit "leaderboard" ++ lit "_" ++ str_of_int page) as -> by done.
    by rewrite (strip_token (lit "leaderboard") page 108%N (lit "eaderboard")).
Qed.

End PageChange.

(* ================================================================= *)
(** ** The examples of the specification *)

(** Three players with wins 10, 10, 5 and scores 100, 50, 0, stored in
    another order, are ranked 1, 2, 3: the tie on wins is broken by score. *)
Example ranks_of_three :
  map user_id
    (run_query [stored 3 5 0; stored 2 10 50; stored 1 10 100] DEFAULT_LIMIT)
  = [1; 2; 3].
Proof. reflexivity. Qed.

(** Seven players, five per page, page 2: the page lists ranks 6 and 7, there
    are two pages, and the pager has the "previous" button only. *)
Example second_page_of_seven :
  exists body,
    _build_leaderboard_text seven_players 2 5 6 false = Ok (body, 2, 2)
    /\ entries body = [entry_of 6 6 (player 6 1 0 "Fay" "fay");
                       entry_of 6 7 (player 7 0 0 "Gus" "gus")]
    /\ _build_pager_old 2 2 (lit "leaderboard")
       = Some [[previous_button (lit "leaderboard") 2];
               [indicator_button (lit "leaderboard") 2 2]].
Proof. eexists. repeat split. Qed.

(** A player without games has win percent 0: nothing is divided. *)
Example win_percent_without_games :
  s_win_percent
    <$> (get_user_rank
           {| users_table := [stored 1 0 0]; fault_at := no_fault |} 1 quiet).1
  = Ok PctZero.
Proof. reflexivity. Qed.

(* ================================================================= *)
(** ** Further properties of the view *)

(** The result of [_build_leaderboard_text] for any page size but zero. *)
Lemma build_text_shape (all_users : list row) (page per_page viewer_id : Z) (daily : bool) :
  per_page <> 0 ->
  let total_pages := pages_of (len all_users) per_page in
  let shown := clamp_page page total_pages in
  let start_idx := (shown - 1) * per_page in
  let rows := py_slice all_users start_idx (Z.min (start_idx + per_page) (len all_users)) in
  _build_leaderboard_text all_users page per_page viewer_id daily
  = Ok (Header
          :: imap (fun k r => entry_of viewer_id (start_idx + 1 + Z.of_nat k) r) rows
          ++ (if existsb (is_user viewer_id) rows then []
              else [your_rank_of all_users viewer_id]),
        total_pages, shown).
Proof.
  intros Hp total_pages shown start_idx rows.
  unfold _build_leaderboard_text, ceil_div.
  case_decide; [done|]. cbn [mbind outcome_bind].
  fold (pages_of (len all_users) per_page). fold total_pages.
  fold (clamp_page page total_pages). fold shown. fold start_idx. fold rows.
  rewrite render_entries_ok. cbn [mbind outcome_bind fst snd orb].
  destruct (existsb (is_user viewer_id) rows).
  - cbn. by rewrite app_nil_r.
  - rewrite your_rank_block_ok. cbn. reflexivity.
Qed.

Lemma py_slice_rows {A} (l : list A) (start stop : Z) (x : A) :
  x ∈ py_slice l start stop -> x ∈ l.
Proof.
  unfold py_slice. intros Hx. apply list_elem_of_lookup in Hx as (k & Hk).
  apply lookup_take_Some in Hk as [Hk _]. rewrite lookup_drop in Hk.
  by eapply list_elem_of_lookup_2.
Qed.

Lemma quotient_of_sqlite_integer (w g : Z) :
  sqlite_integer w -> g <> 0 -> pct_is_computed (PctRound1 w g).
Proof.
  unfold sqlite_integer. intros Hw Hg. split; [done|].
  assert (2 ^ 63 <= 2 ^ 1023) as Hpow by (apply Z.pow_le_mono_r; lia).
  assert (0 < 2 ^ 1023) as Hpos by (apply Z.pow_pos_nonneg; lia).
  set (big := 2 ^ 1023) in *. set (small := 2 ^ 63) in *.
  assert (Z.abs w <= small) as Habs by lia.
  assert (1 <= Z.abs g) as Hone by lia.
  nia.
Qed.

(** X1. The page size decides whether a page can be rendered from rows of
    the store, whose wins are 64-bit integers: a page size of zero raises
    [ZeroDivisionError]; every other page size gives a text, a number of
    pages of at least one and a page between 1 and that number, and every
    win percentage in the text is one that Python computes: its division is
    by a number of games other than zero and stays within binary64. *)
Theorem render_raises_only_for_zero_page_size
    (all_users : list row) (page per_page viewer_id : Z) (daily : bool) :
  (per_page = 0 ->
   _build_leaderboard_text all_users page per_page viewer_id daily
   = Raise ZeroDivisionError)
  /\ (per_page <> 0 ->
      Forall (fun r => sqlite_integer (wins r)) all_users ->
      exists body total_pages shown,
        _build_leaderboard_text all_users page per_page viewer_id daily
        = Ok (body, total_pages, shown)
        /\ 1 <= shown <= total_pages
        /\ (forall b p, b ∈ body -> block_pct b = Some p -> pct_is_computed p)).
Proof.
  split.
  - intros ->. reflexivity.
  - intros Hp Hrows. rewrite build_text_shape by done. do 3 eexists.
    split; [reflexivity|]. split; [unfold clamp_page, pages_of; lia|].
    rewrite Forall_forall in Hrows.
    intros b p Hin Hpct.
    apply elem_of_cons in Hin as [->|Hin]; [discriminate Hpct|].
    apply elem_of_app in Hin as [Hin|Hin].
    + apply elem_of_lookup_imap in Hin as (k & r & -> & Hk).
      apply list_elem_of_lookup_2, py_slice_rows in Hk.
      unfold entry_of in Hpct. cbn [block_pct] in Hpct. injection Hpct as <-.
      unfold pct_if_played. case_decide; [|done].
      apply quotient_of_sqlite_integer; [by apply Hrows|lia].
    + destruct (existsb _ _); [by apply elem_of_nil in Hin|].
      apply list_elem_of_singleton in Hin as ->. unfold your_rank_of in Hpct.
      destruct (locate _ _) as [[k r]|] eqn:Hloc; cbn [block_pct] in Hpct;
        injection Hpct as <-; [|done].
      apply list_find_Some in Hloc as (Hk & _ & _).
      apply list_elem_of_lookup_2 in Hk.
      unfold pct_if_nonzero. case_decide; [done|].
      apply quotient_of_sqlite_integer; [by apply Hrows|done].
Qed.

Lemma render_raises_only_for_zero_page_size_witness :
  _build_leaderboard_text seven_players 3 0 9 false = Raise ZeroDivisionError
  /\ exists body total_pages shown,
       _build_leaderboard_text seven_players 3 (-2) 9 false
       = Ok (body, total_pages, shown)
       /\ 1 <= shown <= total_pages
       /\ (forall b p, b ∈ body -> block_pct b = Some p -> pct_is_computed p).
Proof.
  split.
  - apply (proj1 (render_raises_only_for_zero_page_size seven_players 3 0 9 false)).
    reflexivity.
  - apply (proj2 (render_raises_only_for_zero_page_size seven_players 3 (-2) 9 false)).
    + lia.
    + repeat constructor; unfold sqlite_integer; cbn; lia.
Defined.

Lemma html_escape_no_markup (s : str) (c : N) :
  c ∈ html_escape s -> ~ markup_char c.
Proof.
  unfold html_escape. intros Hc. apply list_elem_of_In, in_concat in Hc
    as (piece & Hpiece & Hc).
  apply in_map_iff in Hpiece as (a & <- & _). apply list_elem_of_In in Hc.
  unfold escape_char in Hc. unfold markup_char.
  repeat case_decide; subst;
    repeat match type of Hc with
      | context [lit ?s] =>
          let v := eval vm_compute in (lit s) in change (lit s) with v in Hc
      end;
    repeat (apply elem_of_cons in Hc as [->|Hc]; [lia|]);
    by apply elem_of_nil in Hc.
Qed.

(** X2. No name in a rendered text holds a character of the markup: every
    [<], [>] and quote of a player's name has been replaced. *)
Theorem rendered_names_are_escaped
    (all_users : list row) (page per_page viewer_id : Z) (daily : bool)
    (body : text) (total_pages shown : Z) :
  _build_leaderboard_text all_users page per_page viewer_id daily
  = Ok (body, total_pages, shown) ->
  forall b name c,
    b ∈ body -> block_name b = Some name -> c ∈ name -> ~ markup_char c.
Proof.
  intros Hb b name c Hin Hname Hc.
  destruct (decide (per_page = 0)) as [->|Hp]; [discriminate Hb|].
  rewrite build_text_shape in Hb by done. injection Hb as <- _ _.
  apply elem_of_cons in Hin as [->|Hin]; [discriminate Hname|].
  apply elem_of_app in Hin as [Hin|Hin].
  - apply elem_of_lookup_imap in Hin as (k & r & -> & _).
    unfold entry_of in Hname. cbn [block_name] in Hname.
    injection Hname as <-. by eapply html_escape_no_markup.
  - destruct (existsb _ _); [by apply elem_of_nil in Hin|].
    apply list_elem_of_singleton in Hin as ->. unfold your_rank_of in Hname.
    destruct (locate _ _) as [[k r]|]; cbn [block_name] in Hname;
      injection Hname as <-; by eapply html_escape_no_markup.
Qed.

Lemma rendered_names_are_escaped_witness :
  _build_leaderboard_text [player 1 4 100 "<Ann>" "ann99"] 1 5 1 false
  = Ok ([Header; entry_of 1 1 (player 1 4 100 "<Ann>" "ann99")], 1, 1)
  /\ (forall b name c,
        b ∈ [Header; entry_of 1 1 (player 1 4 100 "<Ann>" "ann99")] ->
        block_name b = Some name -> c ∈ name -> ~ markup_char c).
Proof.
  split; [reflexivity|].
  apply (rendered_names_are_escaped [player 1 4 100 "<Ann>" "ann99"] 1 5 1 false
           _ 1 1).
  reflexivity.
Defined.

Lemma self_rank_entry (viewer_id rank : Z) (r : row) :
  self_rank (entry_of viewer_id rank r)
  = if decide (user_id r = viewer_id) then Some rank else None.
Proof. unfold entry_of. cbn. by case_decide. Qed.

Lemma locate_cons (uid : Z) (r : row) (l : list row) :
  locate uid (r :: l)
  = if decide (user_id r = uid) then Some (0%nat, r)
    else prod_map S id <$> locate uid l.
Proof. reflexivity. Qed.

Lemma locate_existsb (uid : Z) (l : list row) :
  existsb (is_user uid) l = bool_decide (is_Some (locate uid l)).
Proof.
  destruct (locate uid l) as [[k r]|] eqn:Hloc.
  - rewrite bool_decide_eq_true_2 by eauto.
    apply list_find_Some in Hloc as (Hk & Hr & _).
    apply existsb_is_user, list_elem_of_fmap. exists r.
    split; [done|]. by eapply list_elem_of_lookup_2.
  - rewrite bool_decide_eq_false_2 by (by intros [? ?]).
    apply not_true_is_false. intros Hex.
    apply existsb_is_user, list_elem_of_fmap in Hex as (r & Hid & Hin).
    apply list_find_None in Hloc. rewrite Forall_forall in Hloc.
    by destruct (Hloc r Hin).
Qed.

Lemma self_rank_entries (viewer_id s : Z) (l : list row) :
  NoDup (map user_id l) ->
  omap self_rank (imap (fun k r => entry_of viewer_id (s + Z.of_nat k) r) l)
  = match locate viewer_id l with
    | Some (k, _) => [s + Z.of_nat k]
    | None => []
    end.
Proof.
  revert s. induction l as [|r l IH]; intros s Hnd; [done|].
  apply NoDup_cons in Hnd as [Hr Hnd].
  rewrite locate_cons. cbn [imap omap list_omap]. rewrite self_rank_entry.
  rewrite (imap_ext _ (fun k x => entry_of viewer_id (s + 1 + Z.of_nat k) x))
    by (intros k x _; unfold compose; f_equal; lia).
  rewrite IH by done. case_decide as Hid.
  - subst viewer_id. rewrite locate_absent by done. done.
  - destruct (locate viewer_id l) as [[k x]|]; cbn [fmap option_fmap option_map prod_map fst snd id];
      [|done].
    f_equal. lia.
Qed.

(** X3. When no two rows have the same user id, every rendered page tells
    the viewer's rank exactly once, by a highlighted entry or by the "your
    rank" block: the viewer's position in the list counted from one, or
    [total + 1] for a viewer who is not in the list. *)
Theorem viewer_rank_is_shown_once
    (all_users : list row) (page per_page viewer_id : Z) (daily : bool) :
  1 <= per_page ->
  NoDup (map user_id all_users) ->
  exists body total_pages shown rank,
    _build_leaderboard_text all_users page per_page viewer_id daily
    = Ok (body, total_pages, shown)
    /\ omap self_rank body = [rank]
    /\ (forall (k : nat) r,
          all_users !! k = Some r -> user_id r = viewer_id ->
          rank = Z.of_nat k + 1)
    /\ (viewer_id ∉ map user_id all_users -> rank = len all_users + 1).
Proof.
  intros Hp Hnd. rewrite build_text_eq by lia.
  set (shown := clamp_page page _).
  assert (1 <= shown) as Hshown by (unfold shown, clamp_page; lia).
  assert (forall (k k' : nat) r r',
            all_users !! k = Some r -> all_users !! k' = Some r' ->
            user_id r = user_id r' -> k = k') as Huniq.
  { intros k k' r r' Hk Hk' Hid.
    apply (NoDup_lookup (map user_id all_users) k k' (user_id r)); [done|..];
      rewrite list_lookup_fmap; [by rewrite Hk|rewrite Hk'; cbn; by rewrite Hid]. }
  do 3 eexists.
  exists (match locate viewer_id all_users with
          | Some (k, _) => Z.of_nat k + 1
          | None => len all_users + 1
          end).
  split; [reflexivity|]. split; [|split].
  - cbn [omap list_omap self_rank]. rewrite omap_app.
    rewrite self_rank_entries
      by (unfold page_rows; rewrite fmap_take, fmap_drop;
          eapply sublist_NoDup; [|apply sublist_take];
          eapply sublist_NoDup; [exact Hnd|apply sublist_drop]).
    rewrite locate_existsb.
    destruct (locate viewer_id (page_rows all_users per_page shown))
      as [[j r]|] eqn:Hpage.
    + rewrite bool_decide_eq_true_2 by eauto. cbn. f_equal.
      apply list_find_Some in Hpage as (Hj & Hr & _).
      unfold page_rows in Hj. apply lookup_take_Some in Hj as [Hj _].
      rewrite lookup_drop in Hj.
      destruct (locate viewer_id all_users) as [[k x]|] eqn:Hall.
      * apply list_find_Some in Hall as (Hk & Hx & _).
        rewrite (Huniq _ _ _ _ Hk Hj) by congruence. nia.
      * apply list_find_None in Hall. rewrite Forall_forall in Hall.
        destruct (Hall r); [by eapply list_elem_of_lookup_2|done].
    + rewrite bool_decide_eq_false_2 by (intros [? ?]; done). cbn.
      unfold your_rank_of. by destruct (locate viewer_id all_users) as [[k x]|].
  - intros k r Hk Hr.
    destruct (locate viewer_id all_users) as [[k' x]|] eqn:Hall.
    + apply list_find_Some in Hall as (Hk' & Hx & _).
      rewrite (Huniq _ _ _ _ Hk Hk') by congruence. done.
    + apply list_find_None in Hall. rewrite Forall_forall in Hall.
      destruct (Hall r); [by eapply list_elem_of_lookup_2|done].
  - intros Hnot. by rewrite locate_absent.
Qed.

Lemma viewer_rank_is_shown_once_witness :
  1 <= 5 /\ NoDup (map user_id seven_players) /\
  exists body total_pages shown rank,
    _build_leaderboard_text seven_players 1 5 6 false
    = Ok (body, total_pages, shown)
    /\ omap self_rank body = [rank]
    /\ (forall (k : nat) r,
          seven_players !! k = Some r -> user_id r = 6 -> rank = Z.of_nat k + 1)
    /\ (6 ∉ map user_id seven_players -> rank = len seven_players + 1).
Proof.
  assert (NoDup (map user_id seven_players)) as Hnd
    by (apply (bool_decide_unpack _); vm_compute; exact I).
  split; [lia|]. split; [exact Hnd|].
  apply (viewer_rank_is_shown_once seven_players 1 5 6 false); [lia|exact Hnd].
Defined.

Lemma pager_rows (page total_pages : Z) (prefix : str) :
  1 < total_pages ->
  _build_pager_old page total_pages prefix
  = Some [ (if decide (1 < page) then [previous_button prefix page] else [])
           ++ (if decide (page < total_pages) then [next_button prefix page] else []);
           [indicator_button prefix page total_pages] ].
Proof.
  intros Hmany. unfold _build_pager_old. rewrite decide_False by lia.
  fold (previous_button prefix page) (next_button prefix page)
       (indicator_button prefix page total_pages).
  destruct (decide (page > 1)); destruct (decide (page < total_pages));
    repeat case_decide; try lia; reflexivity.
Qed.

(** X4. The buttons under a rendered page lead to the pages next to it, and
    to existing pages only: every navigation button carries the token of page
    [shown - 1] or [shown + 1], a page between 1 and the number of pages, and
    each such neighbour has its button. *)
Theorem pager_leads_to_neighbours
    (all_users : list row) (page per_page viewer_id : Z) (daily : bool)
    (prefix : str) :
  1 <= per_page ->
  exists body total_pages shown,
    _build_leaderboard_text all_users page per_page viewer_id daily
    = Ok (body, total_pages, shown)
    /\ (forall nav rest b,
          _build_pager_old shown total_pages prefix = Some (nav :: rest) ->
          b ∈ nav ->
          exists target,
            callback_data b = prefix ++ lit "_" ++ str_of_int target
            /\ 1 <= target <= total_pages
            /\ (target = shown - 1 \/ target = shown + 1))
    /\ (forall target,
          1 <= target <= total_pages ->
          target = shown - 1 \/ target = shown + 1 ->
          exists nav rest b,
            _build_pager_old shown total_pages prefix = Some (nav :: rest)
            /\ b ∈ nav
            /\ callback_data b = prefix ++ lit "_" ++ str_of_int target).
Proof.
  intros Hp. rewrite build_text_eq by lia.
  set (total_pages := pages_of _ _). set (shown := clamp_page page total_pages).
  assert (1 <= shown <= total_pages) as Hshown
    by (unfold shown, clamp_page, total_pages, pages_of; lia).
  do 3 eexists. split; [reflexivity|]. split.
  - intros nav rest b Hpager Hb.
    destruct (decide (1 < total_pages)) as [Hmany|Hone];
      [|by unfold _build_pager_old in Hpager; rewrite decide_True in Hpager by lia].
    rewrite pager_rows in Hpager by done. injection Hpager as <- _.
    apply elem_of_app in Hb as [Hb|Hb]; case_decide;
      try (by apply elem_of_nil in Hb);
      apply list_elem_of_singleton in Hb as ->.
    + exists (shown - 1). split; [done|]. lia.
    + exists (shown + 1). split; [done|]. lia.
  - intros target Hrange Hnext.
    rewrite pager_rows by lia. destruct Hnext as [-> | ->].
    + eexists _, _, (previous_button prefix shown).
      split; [reflexivity|]. split; [|reflexivity]. rewrite decide_True by lia.
      apply elem_of_app. left. by apply list_elem_of_singleton.
    + eexists _, _, (next_button prefix shown).
      split; [reflexivity|]. split; [|reflexivity].
      rewrite (decide_True (P := shown < total_pages)) by lia.
      apply elem_of_app. right. by apply list_elem_of_singleton.
Qed.

Lemma pager_leads_to_neighbours_witness :
  1 <= 5 /\
  exists body total_pages shown,
    _build_leaderboard_text seven_players 1 5 9 false
    = Ok (body, total_pages, shown)
    /\ (forall nav rest b,
          _build_pager_old shown total_pages (lit "leaderboard") = Some (nav :: rest) ->
          b ∈ nav ->
          exists target,
            callback_data b = lit "leaderboard" ++ lit "_" ++ str_of_int target
            /\ 1 <= target <= total_pages
            /\ (target = shown - 1 \/ target = shown + 1))
    /\ (forall target,
          1 <= target <= total_pages ->
          target = shown - 1 \/ target = shown + 1 ->
          exists nav rest b,
            _build_pager_old shown total_pages (lit "leaderboard") = Some (nav :: rest)
            /\ b ∈ nav
            /\ callback_data b = lit "leaderboard" ++ lit "_" ++ str_of_int target).
Proof.
  split; [lia|].
  apply (pager_leads_to_neighbours seven_players 1 5 9 false (lit "leaderboard")). lia.
Defined.

(** X5. A rendered page gets no pager exactly when the whole list fits on one
    page, that is when it has at most [per_page] rows. *)
Theorem no_pager_iff_list_fits
    (all_users : list row) (page per_page viewer_id : Z) (daily : bool)
    (prefix : str) :
  1 <= per_page ->
  exists body total_pages shown,
    _build_leaderboard_text all_users page per_page viewer_id daily
    = Ok (body, total_pages, shown)
    /\ (_build_pager_old shown total_pages prefix = None
        <-> len all_users <= per_page).
Proof.
  intros Hp. rewrite build_text_eq by lia. do 3 eexists. split; [reflexivity|].
  destruct (pages_of_ceiling (len all_users) per_page ltac:(lia)) as (c & Hc & Hb).
  pose proof (len_nonneg all_users) as Hlen.
  unfold _build_pager_old. case_decide as Hpages; split; try done; intros Hfit.
  - rewrite Hc in Hpages. nia.
  - exfalso. apply Hpages. rewrite Hc. nia.
Qed.

Lemma no_pager_iff_list_fits_witness :
  1 <= 5 /\
  exists body total_pages shown,
    _build_leaderboard_text seven_players 2 5 9 false
    = Ok (body, total_pages, shown)
    /\ (_build_pager_old shown total_pages (lit "leaderboard") = None
        <-> len seven_players <= 5).
Proof.
  split; [lia|].
  apply (no_pager_iff_list_fits seven_players 2 5 9 false (lit "leaderboard")). lia.
Defined.

(* ================================================================= *)
(** ** Further properties of the store *)

Lemma healthy_or_faulty (db : database) : healthy db \/ faulty db.
Proof.
  destruct (fault_at db EnsureColumns) as [e|] eqn:H1;
    [right; by exists EnsureColumns, e|].
  destruct (fault_at db Connect) as [e|] eqn:H2; [right; by exists Connect, e|].
  destruct (fault_at db Execute) as [e|] eqn:H3; [right; by exists Execute, e|].
  destruct (fault_at db FetchAll) as [e|] eqn:H4; [right; by exists FetchAll, e|].
  destruct (fault_at db Close) as [e|] eqn:H5; [right; by exists Close, e|].
  left. by intros [].
Qed.

Lemma run_query_length (table : list user_record) (limit : Z) :
  0 <= limit -> len (run_query table limit) = Z.min limit (len table).
Proof.
  intros Hl. unfold run_query, sql_limit, len. rewrite decide_False by lia.
  rewrite length_take, (Permutation_length (sort_by_perm _ _)), length_map. lia.
Qed.

(** X6. With a working store and a limit from zero up that SQLite can bind
    (below 2^63), [get_all_users_sorted] logs nothing and returns the
    [min(limit, number of stored users)] best rows: the returned rows,
    followed by the rows left out, are the selections of all stored rows
    ordered by wins, then score, descending, so no row left out ranks before a
    returned one; nothing is left out when the limit is not below the number
    of users.  A limit that SQLite cannot bind makes [cursor.execute] raise
    [OverflowError]: the function then logs and returns the empty list. *)
Theorem fetch_returns_the_best_rows (db : database) (limit : Z) (w : world) :
  healthy db ->
  (0 <= limit < 2 ^ 63 ->
   exists rows rest,
     get_all_users_sorted db limit w = (Ok rows, w)
     /\ len rows = Z.min limit (len (users_table db))
     /\ StronglySorted ranked_before (rows ++ rest)
     /\ rows ++ rest ≡ₚ map select_columns (users_table db)
     /\ (len (users_table db) <= limit -> rest = []))
  /\ (~ sqlite_integer limit ->
      get_all_users_sorted db limit w
      = (Ok [], {| logged := logged w ++ [lit "Error in get_all_users_sorted"];
                   sent := sent w |})).
Proof.
  intros Hdb. split; [|apply get_all_users_sorted_overflow].
  intros Hl.
  exists (run_query (users_table db) limit),
    (drop (Z.to_nat limit)
       (sort_by wins_then_score (map select_columns (users_table db)))).
  split; [apply get_all_users_sorted_healthy; [done|unfold sqlite_integer; lia]|].
  split; [apply run_query_length; lia|].
  unfold run_query, sql_limit. rewrite decide_False by lia.
  rewrite take_drop.
  split; [apply wins_then_score_sorted|]. split; [apply sort_by_perm|].
  intros Hall. apply drop_ge.
  rewrite (Permutation_length (sort_by_perm _ _)), length_map.
  unfold len in Hall. lia.
Qed.

Lemma fetch_returns_the_best_rows_witness :
  healthy crowded_db /\ 0 <= 100 < 2 ^ 63 /\
  exists rows rest,
    get_all_users_sorted crowded_db 100 quiet = (Ok rows, quiet)
    /\ len rows = Z.min 100 (len (users_table crowded_db))
    /\ StronglySorted ranked_before (rows ++ rest)
    /\ rows ++ rest ≡ₚ map select_columns (users_table crowded_db)
    /\ (len (users_table crowded_db) <= 100 -> rest = []).
Proof.
  assert (healthy crowded_db) as H by (intros s; reflexivity).
  split; [exact H|]. split; [lia|].
  apply (proj1 (fetch_returns_the_best_rows crowded_db 100 quiet H)). lia.
Defined.

Lemma default_fetch_at_most_hundred (db : database) (w : world) :
  exists rows w',
    get_all_users_sorted db DEFAULT_LIMIT w = (Ok rows, w') /\ len rows <= 100.
Proof.
  destruct (healthy_or_faulty db) as [Hdb|Hdb].
  - rewrite get_all_users_sorted_default by done. do 2 eexists.
    split; [reflexivity|]. rewrite run_query_length by done.
    unfold DEFAULT_LIMIT. lia.
  - rewrite get_all_users_sorted_faulty by done. do 2 eexists.
    split; [reflexivity|]. unfold len. cbn. lia.
Qed.

(** X7. Whatever the state of the store, the summary of [get_user_rank]
    counts at most a hundred users and gives a rank between 1 and
    [total_users + 1]; the rank is within [total_users] exactly when the user
    is in the fetched list. *)
Theorem summary_rank_is_bounded (db : database) (uid : Z) (w : world) :
  exists rows s w',
    get_all_users_sorted db DEFAULT_LIMIT w = (Ok rows, w')
    /\ get_user_rank db uid w = (Ok s, w')
    /\ s_total_users s = len rows
    /\ 0 <= s_total_users s <= 100
    /\ 1 <= s_rank s <= s_total_users s + 1
    /\ (s_rank s <= s_total_users s <-> uid ∈ map user_id rows).
Proof.
  destruct (default_fetch_at_most_hundred db w) as (rows & w' & Hrows & Hlen).
  pose proof (len_nonneg rows) as Hpos.
  exists rows. rewrite (get_user_rank_eq _ _ _ _ _ Hrows).
  do 2 eexists. split; [done|]. split; [reflexivity|].
  destruct (locate uid rows) as [[k r]|] eqn:Hloc.
  - apply list_find_Some in Hloc as (Hk & Hr & _).
    pose proof (lookup_lt_Some _ _ _ Hk) as Hlt. unfold len in *.
    cbn. repeat split; try lia.
    intros _. apply list_elem_of_fmap. exists r.
    split; [done|]. by eapply list_elem_of_lookup_2.
  - apply list_find_None in Hloc. rewrite Forall_forall in Hloc.
    cbn. repeat split; try lia.
    intros Hin. apply list_elem_of_fmap in Hin as (r & Hid & Hin).
    by destruct (Hloc r Hin).
Qed.

(** X8. The "your rank" block of the leaderboard and the summary of
    [get_user_rank] agree: over the same store, the block carries the rank,
    the name and the counters of the viewer's summary. *)
Theorem your_rank_block_matches_summary
    (db : database) (viewer_id page : Z) (w : world) :
  exists rows w' s body total_pages shown,
    get_all_users_sorted db DEFAULT_LIMIT w = (Ok rows, w')
    /\ get_user_rank db viewer_id w = (Ok s, w')
    /\ _build_leaderboard_text rows page PER_PAGE viewer_id false
       = Ok (body, total_pages, shown)
    /\ (forall b, b ∈ body -> is_your_rank b = true ->
          b = YourRank (s_rank s) (html_escape (s_username s)) viewer_id
                (s_total_played s)
                (pct_if_nonzero (s_wins s) (s_total_played s))
                (s_wins s) (s_losses s) (s_total_score s) (s_penalties s)).
Proof.
  destruct (get_all_users_sorted_total db DEFAULT_LIMIT w) as (rows & w' & Hrows).
  exists rows, w'. rewrite (get_user_rank_eq _ _ _ _ _ Hrows).
  rewrite build_text_eq by done. do 4 eexists.
  split; [done|]. split; [reflexivity|]. split; [reflexivity|].
  intros b Hb Hyour.
  apply elem_of_cons in Hb as [->|Hb]; [discriminate Hyour|].
  apply elem_of_app in Hb as [Hb|Hb].
  - apply elem_of_lookup_imap in Hb as (k & r & -> & _). discriminate Hyour.
  - destruct (existsb _ _); [by apply elem_of_nil in Hb|].
    apply list_elem_of_singleton in Hb as ->. unfold your_rank_of.
    destruct (locate viewer_id rows) as [[k r]|]; [|reflexivity].
    by rewrite summary_of_row_eq.
Qed.

(* ================================================================= *)
(** ** Further properties of the page handlers *)

Section Routing.

Variable unicode_isspace : N -> bool.
Variable unicode_decimal : N -> option Z.

Lemma rstrip_head (c : N) (s : str) :
  isspace unicode_isspace c = false ->
  exists s', rstrip unicode_isspace (c :: s) = c :: s'.
Proof.
  intros Hc. cbn [rstrip]. destruct (rstrip unicode_isspace s); rewrite ?Hc; eauto.
Qed.

Lemma strip_head (c : N) (s : str) :
  isspace unicode_isspace c = false ->
  exists s', strip unicode_isspace (data_or_empty (Some (c :: s))) = c :: s'.
Proof.
  intros Hc. unfold strip. cbn [data_or_empty or_str lstrip]. rewrite Hc.
  by apply rstrip_head.
Qed.

(** X9. A token of one view is inert in the handler of the other: the
    leaderboard handler only answers a query whose data begins with
    "daily_leaderboard", and the daily handler only answers one whose data
    begins with "leaderboard".  The page indicator is inert in both: its token
    "{prefix}:nop" is only answered. *)
Theorem foreign_tokens_are_only_answered
    (db : database) (daily_users : list row) (viewer_id page total_pages : Z)
    (rest : str) (w : world) :
  let answered := (Ok tt, {| logged := logged w; sent := sent w ++ [Answered] |}) in
  leaderboard_callback unicode_isspace unicode_decimal db viewer_id
    (Some (lit "daily_leaderboard" ++ rest)) w = answered
  /\ daily_leaderboard_callback unicode_isspace unicode_decimal daily_users viewer_id
       (Some (lit "leaderboard" ++ rest)) w = answered
  /\ leaderboard_callback unicode_isspace unicode_decimal db viewer_id
       (Some (callback_data (indicator_button (lit "leaderboard") page total_pages))) w
     = answered
  /\ daily_leaderboard_callback unicode_isspace unicode_decimal daily_users viewer_id
       (Some (callback_data
               (indicator_button (lit "daily_leaderboard") page total_pages))) w
     = answered.
Proof.
  intros answered. split; [|split; [|split]].
  - destruct (strip_head 100%N (lit "aily_leaderboard" ++ rest) eq_refl) as (s' & Hs).
    unfold leaderboard_callback.
    change (lit "daily_leaderboard" ++ rest)
      with (100%N :: (lit "aily_leaderboard" ++ rest)).
    rewrite Hs. reflexivity.
  - destruct (strip_head 108%N (lit "eaderboard" ++ rest) eq_refl) as (s' & Hs).
    unfold daily_leaderboard_callback.
    change (lit "leaderboard" ++ rest) with (108%N :: (lit "eaderboard" ++ rest)).
    rewrite Hs. reflexivity.
  - reflexivity.
  - reflexivity.
Qed.

(** X10. A token "daily_leaderboard_{page}", as the daily pager writes it, is
    read back by the daily handler.  Given the snapshot that
    [get_daily_leaderboard()] returned and a transport that accepts the edit,
    the snapshot is rendered for that page with [PER_PAGE] rows, the message
    is edited once with the text and the daily pager, and then the query is
    answered. *)
Theorem daily_action_is_served
    (daily_users : list row) (viewer_id page : Z) (w : world) :
  exists body total_pages shown,
    _build_leaderboard_text daily_users page PER_PAGE viewer_id true
    = Ok (body, total_pages, shown)
    /\ daily_leaderboard_callback unicode_isspace unicode_decimal daily_users viewer_id
         (Some (lit "daily_leaderboard" ++ lit "_" ++ str_of_int page)) w
       = (Ok tt,
          {| logged := logged w;
             sent := sent w
                     ++ [Edited body
                           (_build_pager_old shown total_pages (lit "daily_leaderboard"));
                         Answered] |}).
Proof.
  pose proof (build_text_eq daily_users page PER_PAGE viewer_id true ltac:(done))
    as Hbuild.
  cbn zeta in Hbuild. do 3 eexists. split; [exact Hbuild|].
  assert (strip unicode_isspace
            (data_or_empty (Some (lit "daily_leaderboard" ++ lit "_" ++ str_of_int page)))
          = lit "daily_leaderboard_" ++ str_of_int page) as Hstrip.
  { cbn [data_or_empty].
    assert (or_str (lit "daily_leaderboard" ++ lit "_" ++ str_of_int page) []
            = lit "daily_leaderboard" ++ lit "_" ++ str_of_int page) as -> by done.
    by rewrite (strip_token unicode_isspace (lit "daily_leaderboard") page 100%N
                  (lit "aily_leaderboard")). }
  destruct (daily_leaderboard_callback_cases unicode_isspace unicode_decimal
              daily_users viewer_id
              (Some (lit "daily_leaderboard" ++ lit "_" ++ str_of_int page)) w)
    as [(rest & page' & Hdata & Hint & ->)|[Hno _]].
  - rewrite Hstrip in Hdata. apply app_inv_head in Hdata as <-.
    rewrite int_of_str_of_int in Hint. injection Hint as <-.
    unfold try_except, _edit_daily_leaderboard_page, mbind, M_bind, lift, send.
    rewrite Hbuild. cbn. by rewrite <- app_assoc.
  - exfalso. apply (Hno (str_of_int page) page); [|apply int_of_str_of_int].
    exact Hstrip.
Qed.

End Routing.

(* ================================================================= *)
(** ** The statistics view *)

Lemma str_split_all_piece (sep : N) (p : str) :
  sep ∉ p -> str_split_all sep p = [p].
Proof.
  induction p as [|c p IH]; intros Hp; [done|].
  apply not_elem_of_cons in Hp as [Hc Hp].
  cbn [str_split_all]. rewrite IH by done. by rewrite decide_False.
Qed.

Lemma str_split_all_app (sep : N) (p rest : str) :
  sep ∉ p ->
  str_split_all sep (p ++ sep :: rest) = p :: str_split_all sep rest.
Proof.
  assert (exists h t, str_split_all sep rest = h :: t) as (h & t & Hrest).
  { destruct rest as [|c r]; [by eexists _, _|]. cbn [str_split_all].
    destruct (str_split_all sep r); [by eexists _, _|].
    case_decide; by eexists _, _. }
  induction p as [|c p IH]; intros Hp.
  - cbn [app str_split_all]. rewrite Hrest. by rewrite decide_True.
  - apply not_elem_of_cons in Hp as [Hc Hp].
    cbn [app str_split_all]. rewrite IH by done. by rewrite decide_False.
Qed.

Lemma str_of_int_chars (z : Z) (c : N) :
  c ∈ str_of_int z -> c = 45%N \/ (48 <= c <= 57)%N.
Proof.
  unfold str_of_int. intros Hc.
  destruct (Z.to_int z) as [d|d].
  - right. pose proof (uint_digits_ascii d) as Hall.
    rewrite Forall_forall in Hall. by apply Hall.
  - apply elem_of_cons in Hc as [->|Hc]; [by left|].
    right. pose proof (uint_digits_ascii d) as Hall.
    rewrite Forall_forall in Hall. by apply Hall.
Qed.

Lemma str_of_int_no_sep (z : Z) (sep : N) :
  sep = 95%N \/ sep = 58%N -> sep ∉ str_of_int z.
Proof. intros Hsep Hin. apply str_of_int_chars in Hin. lia. Qed.

Lemma not_in_lit (sep : N) (s : string) :
  bool_decide (sep ∉ lit s) = true -> sep ∉ lit s.
Proof. apply bool_decide_eq_true. Qed.

Section StatisticsViewFacts.

Variable unicode_isspace : N -> bool.
Variable unicode_decimal : N -> option Z.
Variable db : database.
Variable daily_users : list row.

(** X11. The buttons under a statistics message are read back by
    [userinfo_callback]: the daily button of user [uid] shows the daily values
    of [uid], the overall button shows the summary of [uid], and both replies
    carry the same two buttons again, before the query is answered. *)
Theorem userinfo_buttons_are_served (uid : Z) (w : world) :
  exists v s w',
    userinfo_callback_daily daily_users uid = Ok v
    /\ get_user_rank db uid w = (Ok s, w')
    /\ map (map callback_data) (userinfo_buttons uid)
       = [[lit "userinfo_daily_" ++ str_of_int uid;
           lit "userinfo_overall_" ++ str_of_int uid]]
    /\ userinfo_callback unicode_isspace unicode_decimal db daily_users
         (lit "userinfo_daily_" ++ str_of_int uid) w
       = (Ok [InfoEdited (DailyStats v) (userinfo_buttons uid); InfoAnswered], w)
    /\ userinfo_callback unicode_isspace unicode_decimal db daily_users
         (lit "userinfo_overall_" ++ str_of_int uid) w
       = (Ok [InfoEdited (OverallStats s) (userinfo_buttons uid); InfoAnswered], w').
Proof.
  pose proof (userinfo_callback_daily_eq daily_users uid) as Hdaily.
  destruct (get_all_users_sorted_total db DEFAULT_LIMIT w) as (rows & w' & Hrows).
  pose proof (get_user_rank_eq db uid w rows w' Hrows) as Hrank.
  do 3 eexists. split; [exact Hdaily|]. split; [exact Hrank|].
  split; [reflexivity|].
  assert (forall view : string,
            bool_decide (95%N ∉ lit view) = true ->
            str_split_all 95%N (lit "userinfo" ++ 95%N :: lit view
                                 ++ 95%N :: str_of_int uid)
            = [lit "userinfo"; lit view; str_of_int uid]) as Hsplit.
  { intros view Hview.
    rewrite str_split_all_app by (by apply not_in_lit).
    rewrite str_split_all_app by (by apply not_in_lit).
    rewrite str_split_all_piece by (apply str_of_int_no_sep; by left). done. }
  split.
  - unfold userinfo_callback.
    change (lit "userinfo_daily_" ++ str_of_int uid)
      with (lit "userinfo" ++ 95%N :: lit "daily" ++ 95%N :: str_of_int uid).
    rewrite Hsplit by done.
    unfold mbind, M_bind, lift, mret, M_ret.
    rewrite int_of_str_of_int, decide_True by done. by rewrite Hdaily.
  - unfold userinfo_callback.
    change (lit "userinfo_overall_" ++ str_of_int uid)
      with (lit "userinfo" ++ 95%N :: lit "overall" ++ 95%N :: str_of_int uid).
    rewrite Hsplit by done.
    unfold mbind, M_bind, lift, mret, M_ret.
    rewrite int_of_str_of_int, decide_False by done. by rewrite Hrank.
Qed.

(** X12. What [userinfo_callback] does with other tokens.  A token that
    does not split at underscores into three parts is only answered.  A token
    of three parts whose last part is no integer raises [ValueError] before
    anything is sent.  The first part is not looked at, and a view name other
    than "daily" shows the overall summary. *)
Theorem userinfo_token_edge_cases (data first view last : str) (w : world) :
  (length (str_split_all 95%N data) <> 3%nat ->
   userinfo_callback unicode_isspace unicode_decimal db daily_users data w
   = (Ok [InfoAnswered], w))
  /\ (95%N ∉ first -> 95%N ∉ view -> 95%N ∉ last ->
      int_of_str unicode_isspace unicode_decimal last = Raise ValueError ->
      userinfo_callback unicode_isspace unicode_decimal db daily_users
        (first ++ 95%N :: view ++ 95%N :: last) w
      = (Raise ValueError, w))
  /\ (forall uid,
        95%N ∉ first -> 95%N ∉ view -> view <> lit "daily" ->
        exists s w',
          get_user_rank db uid w = (Ok s, w')
          /\ userinfo_callback unicode_isspace unicode_decimal db daily_users
               (first ++ 95%N :: view ++ 95%N :: str_of_int uid) w
             = (Ok [InfoEdited (OverallStats s) (userinfo_buttons uid); InfoAnswered],
                w')).
Proof.
  split; [|split].
  - intros Hlen. unfold userinfo_callback.
    destruct (str_split_all 95%N data) as [|a [|b [|c [|d l]]]]; try done.
  - intros Hf Hv Hl Hint. unfold userinfo_callback.
    rewrite !str_split_all_app, str_split_all_piece by done.
    unfold mbind, M_bind, lift. by rewrite Hint.
  - intros uid Hf Hv Hview.
    destruct (get_all_users_sorted_total db DEFAULT_LIMIT w) as (rows & w' & Hrows).
    pose proof (get_user_rank_eq db uid w rows w' Hrows) as Hrank.
    do 2 eexists. split; [exact Hrank|]. unfold userinfo_callback.
    rewrite !str_split_all_app by done.
    rewrite str_split_all_piece by (apply str_of_int_no_sep; by left).
    unfold mbind, M_bind, lift, mret, M_ret.
    rewrite int_of_str_of_int, decide_False by done. by rewrite Hrank.
Qed.

End StatisticsViewFacts.

Lemma userinfo_token_edge_cases_witness :
  userinfo_callback ascii_only_space ascii_only_decimal locked_db two_daily
    (lit "userinfo_daily") quiet
  = (Ok [InfoAnswered], quiet)
  /\ userinfo_callback ascii_only_space ascii_only_decimal locked_db two_daily
       (lit "userinfo" ++ 95%N :: lit "daily" ++ 95%N :: lit "abc") quiet
     = (Raise ValueError, quiet).
Proof.
  destruct (userinfo_token_edge_cases ascii_only_space ascii_only_decimal
              locked_db two_daily (lit "userinfo_daily")
              (lit "userinfo") (lit "daily") (lit "abc") quiet)
    as (Hparts & Hint & _).
  split.
  - apply Hparts. vm_compute. lia.
  - apply Hint; try (apply (bool_decide_unpack _); vm_compute; exact I).
    reflexivity.
Defined.


(* ================================================================= *)
(** ** The first screen *)

Lemma first_page (all_users : list row) (viewer_id : Z) (daily : bool) (prefix : str) :
  exists body total_pages,
    _build_leaderboard_text all_users 1 PER_PAGE viewer_id daily
    = Ok (body, total_pages, 1)
    /\ entries body
       = imap (fun k r => entry_of viewer_id (Z.of_nat k + 1) r) (take 5 all_users)
    /\ _build_pager_old 1 total_pages prefix
       = if decide (len all_users <= 5) then None
         else Some [[next_button prefix 1]; [indicator_button prefix 1 total_pages]].
Proof.
  rewrite build_text_eq by done.
  set (total_pages := pages_of (len all_users) PER_PAGE).
  assert (1 <= total_pages) as Hone by (unfold total_pages, pages_of; lia).
  rewrite clamp_page_in_range by lia.
  do 2 eexists. split; [reflexivity|]. split.
  - rewrite entries_imap_entry.
    + unfold page_rows. cbn [Z.sub Z.mul Z.to_nat drop]. unfold PER_PAGE.
      apply imap_ext. intros k r _. cbn. f_equal. lia.
    + done.
    + destruct (existsb _ _); [constructor|].
      constructor; [|constructor]. unfold your_rank_of.
      by destruct (locate _ _) as [[??]|].
  - destruct (pages_of_ceiling (len all_users) PER_PAGE ltac:(done)) as (c & Hc & Hb).
    fold total_pages in Hc. pose proof (len_nonneg all_users) as Hlen.
    unfold PER_PAGE in *. case_decide as Hfit.
    + unfold _build_pager_old. rewrite decide_True; [done|]. rewrite Hc. lia.
    + rewrite pager_rows by (rewrite Hc; lia).
      rewrite decide_False by lia. rewrite decide_True by (rewrite Hc; lia). done.
Qed.

(** X13. What the first screen of either leaderboard hands to the
    transport is page 1: the first five players under ranks 1 to 5; its pager
    is absent when there are at most five players and otherwise holds the
    "next" button and the indicator, never a "previous" button; and the card
    is asked for the photo of the player at rank 1, or of the viewer when the
    list is empty.  For the daily screen this is so when
    [get_daily_leaderboard()] returns the snapshot; when that call raises,
    the exception leaves the function. *)
Theorem first_screen_shows_page_one
    (db : database) (daily_users : list row) (viewer_id : Z) (w : world) :
  (exists rows w' body pager top total_pages,
      get_all_users_sorted db DEFAULT_LIMIT w = (Ok rows, w')
      /\ _send_leaderboard_initial db viewer_id w = (Ok (body, pager, top), w')
      /\ entries body
         = imap (fun k r => entry_of viewer_id (Z.of_nat k + 1) r) (take 5 rows)
      /\ pager
         = (if decide (len rows <= 5) then None
            else Some [[next_button (lit "leaderboard") 1];
                       [indicator_button (lit "leaderboard") 1 total_pages]])
      /\ (rows = [] -> top = viewer_id)
      /\ (forall r, rows !! 0%nat = Some r ->
                    top = user_id r
                    /\ entries body !! 0%nat = Some (entry_of viewer_id 1 r)))
  /\ (forall e, _send_daily_leaderboard_initial (Raise e) viewer_id = Raise e)
  /\ (exists body pager top total_pages,
        _send_daily_leaderboard_initial (Ok daily_users) viewer_id
        = Ok (body, pager, top)
        /\ entries body
           = imap (fun k r => entry_of viewer_id (Z.of_nat k + 1) r)
               (take 5 daily_users)
        /\ pager
           = (if decide (len daily_users <= 5) then None
              else Some [[next_button (lit "daily_leaderboard") 1];
                         [indicator_button (lit "daily_leaderboard") 1 total_pages]])
        /\ (daily_users = [] -> top = viewer_id)
        /\ (forall r, daily_users !! 0%nat = Some r ->
                      top = user_id r
                      /\ entries body !! 0%nat = Some (entry_of viewer_id 1 r))).
Proof.
  split.
  - destruct (get_all_users_sorted_total db DEFAULT_LIMIT w) as (rows & w' & Hrows).
    destruct (first_page rows viewer_id false (lit "leaderboard"))
      as (body & total_pages & Hbuild & Hentries & Hpager).
    exists rows, w', body. do 2 eexists. exists total_pages.
    split; [done|]. split.
    { unfold _send_leaderboard_initial, mbind, M_bind, lift, mret, M_ret.
      rewrite Hrows, Hbuild. cbn [fst snd]. reflexivity. }
    split; [done|]. split; [done|]. split; [by intros ->|].
    intros r Hr. destruct rows as [|r0 rows]; [done|]. cbn in Hr. injection Hr as ->.
    split; [done|]. by rewrite Hentries.
  - split; [done|].
    destruct (first_page daily_users viewer_id true (lit "daily_leaderboard"))
      as (body & total_pages & Hbuild & Hentries & Hpager).
    exists body. do 2 eexists. exists total_pages. split.
    { unfold _send_daily_leaderboard_initial, mbind, outcome_bind.
      rewrite Hbuild. cbn [fst snd]. reflexivity. }
    split; [done|]. split; [done|]. split; [by intros ->|].
    intros r Hr. destruct daily_users as [|r0 rows]; [done|]. cbn in Hr.
    injection Hr as ->. split; [done|]. by rewrite Hentries.
Qed.

(* ================================================================= *)
(** ** Moderation *)

(** X14. The [mods] table behaves as a set of moderators.  [add_mod] reports
    whether the user was added, that is whether the user was no moderator
    before; afterwards the user is one, and a moderator already present keeps
    the stored name.  [remove_mod] reports whether the user was a moderator;
    afterwards the user is none.  Neither touches another user, and removing
    a moderator just added gives back the table. *)
Theorem mods_table_round_trip (mods : gmap Z str) (mod_id other : Z) (name : str) :
  (add_mod mod_id name mods).1 = negb (is_mod mod_id mods)
  /\ is_mod mod_id (add_mod mod_id name mods).2 = true
  /\ (is_mod mod_id mods = true -> (add_mod mod_id name mods).2 = mods)
  /\ (remove_mod mod_id mods).1 = is_mod mod_id mods
  /\ is_mod mod_id (remove_mod mod_id mods).2 = false
  /\ (other <> mod_id ->
      is_mod other (add_mod mod_id name mods).2 = is_mod other mods
      /\ is_mod other (remove_mod mod_id mods).2 = is_mod other mods)
  /\ (is_mod mod_id mods = false ->
      (remove_mod mod_id (add_mod mod_id name mods).2).2 = mods).
Proof.
  unfold add_mod, remove_mod, is_mod.
  destruct (mods !! mod_id) as [old|] eqn:Hold; cbn [fst snd negb];
    rewrite ?Hold, ?lookup_delete_eq, ?lookup_insert_eq; cbn [fst snd];
    rewrite ?lookup_delete_eq;
    (split; [done|]); (split; [done|]); (split; [done|]); (split; [done|]);
    (split; [done|]); split.
  - intros Hother. by rewrite lookup_delete_ne.
  - done.
  - intros Hother. by rewrite lookup_insert_ne.
  - intros _. by apply delete_insert_id.
Qed.

Lemma run_query_rows (table : list user_record) (limit : Z) (r : row) :
  r ∈ run_query table limit -> exists u, u ∈ table /\ r = select_columns u.
Proof.
  unfold run_query, sql_limit. intros Hr.
  assert (r ∈ sort_by wins_then_score (map select_columns table)) as Hin.
  { case_decide; [done|]. apply list_elem_of_lookup in Hr as (k & Hk).
    apply lookup_take_Some in Hk as [Hk _]. by eapply list_elem_of_lookup_2. }
  rewrite (sort_by_perm wins_then_score _) in Hin.
  apply list_elem_of_fmap in Hin as (u & -> & Hu). eauto.
Qed.

Lemma reset_rows (uid : Z) (users : list user_record) (u : user_record) :
  u ∈ (reset_user_stats uid users).2 -> rec_user_id u = uid ->
  u = clear_counters u.
Proof.
  unfold reset_user_stats. intros Hu Hid.
  destruct (existsb (has_id uid) users) eqn:Hany; cbn [snd] in Hu.
  - apply list_elem_of_fmap in Hu as (u0 & -> & _).
    destruct (has_id uid u0) eqn:H0; [done|].
    unfold has_id in H0. by apply bool_decide_eq_false in H0.
  - exfalso. apply not_true_iff_false in Hany. apply Hany.
    apply existsb_exists. exists u. split; [by apply list_elem_of_In|].
    by apply bool_decide_eq_true.
Qed.

(** X15. [reset_user_stats] reports whether the user has a row, keeps the
    rows and their order, and leaves the rows of other users as they are.
    After it, whatever the state of the store, the summary of [get_user_rank]
    for that user has zero counters and win percent 0. *)
Theorem reset_clears_the_summary (db : database) (uid : Z) (w : world) :
  let users' := (reset_user_stats uid (users_table db)).2 in
  let db' := {| users_table := users'; fault_at := fault_at db |} in
  ((reset_user_stats uid (users_table db)).1 = true
   <-> uid ∈ map rec_user_id (users_table db))
  /\ map rec_user_id users' = map rec_user_id (users_table db)
  /\ (forall (k : nat) u,
        users_table db !! k = Some u -> rec_user_id u <> uid ->
        users' !! k = Some u)
  /\ exists s w',
       get_user_rank db' uid w = (Ok s, w')
       /\ s_total_played s = 0 /\ s_wins s = 0 /\ s_losses s = 0
       /\ s_rounds_played s = 0 /\ s_eliminations s = 0
       /\ s_total_score s = 0 /\ s_penalties s = 0
       /\ s_win_percent s = PctZero.
Proof.
  intros users' db'. split; [|split; [|split]].
  - unfold reset_user_stats.
    destruct (existsb (has_id uid) (users_table db)) eqn:Hany; cbn [fst].
    + split; [|done]. intros _. apply existsb_exists in Hany as (u & Hu & Hid).
      apply bool_decide_eq_true in Hid. apply list_elem_of_fmap.
      exists u. split; [done|]. by apply list_elem_of_In.
    + split; [done|]. intros Hin. apply list_elem_of_fmap in Hin as (u & Hid & Hu).
      apply not_true_iff_false in Hany. destruct Hany. apply existsb_exists.
      exists u. split; [by apply list_elem_of_In|]. by apply bool_decide_eq_true.
  - unfold users', reset_user_stats.
    destruct (existsb _ _); cbn [snd]; [|done].
    rewrite map_map. apply map_ext. intros u. by destruct (has_id uid u).
  - intros k u Hk Hid. unfold users', reset_user_stats.
    destruct (existsb _ _); cbn [snd]; [|done].
    change (map ?f ?l) with (f <$> l). rewrite list_lookup_fmap, Hk. cbn.
    unfold has_id. by rewrite bool_decide_eq_false_2.
  - destruct (get_all_users_sorted_total db' DEFAULT_LIMIT w) as (rows & w' & Hrows).
    rewrite (get_user_rank_eq _ _ _ _ _ Hrows). do 2 eexists.
    split; [reflexivity|].
    destruct (locate uid rows) as [[k r]|] eqn:Hloc; [|by cbn].
    apply list_find_Some in Hloc as (Hk & Hr & _).
    assert (r ∈ run_query users' DEFAULT_LIMIT) as Hin.
    { destruct (healthy_or_faulty db') as [Hdb|Hdb].
      - rewrite get_all_users_sorted_default in Hrows by done.
        injection Hrows as <- _. by eapply list_elem_of_lookup_2.
      - rewrite get_all_users_sorted_faulty in Hrows by done.
        injection Hrows as <- _. done. }
    apply run_query_rows in Hin as (u & Hu & ->).
    rewrite (reset_rows uid (users_table db) u Hu Hr).
    rewrite summary_of_row_eq. cbn. unfold pct_if_played.
    by rewrite decide_False by lia.
Qed.

Section ResetConfirmation.

Variable unicode_isspace : N -> bool.
Variable unicode_decimal : N -> option Z.
Variable LOG_CHAT_ID : Z.

(** X16. [reset_callback] changes the users table only on a token of three
    fields separated by colons whose first field is "confirm_reset" and whose
    last field is the id of the user who pressed the button; the table then
    is the one left by [reset_user_stats] for the user named in the second
    field.  A press by anyone else gets the alert alone. *)
Theorem reset_needs_its_initiator
    (data : str) (presser : Z) (users : list user_record) :
  let result := reset_callback unicode_isspace unicode_decimal LOG_CHAT_ID
                  data presser users in
  (result.2 <> users ->
   exists target_field initiator_field target,
     str_split_all 58%N data = [lit "confirm_reset"; target_field; initiator_field]
     /\ int_of_str unicode_isspace unicode_decimal target_field = Ok target
     /\ int_of_str unicode_isspace unicode_decimal initiator_field = Ok presser
     /\ result.2 = (reset_user_stats target users).2)
  /\ (forall action target_field initiator_field target initiator,
        str_split_all 58%N data = [action; target_field; initiator_field] ->
        int_of_str unicode_isspace unicode_decimal target_field = Ok target ->
        int_of_str unicode_isspace unicode_decimal initiator_field = Ok initiator ->
        presser <> initiator ->
        result = ([ResetAlertNotYours], users)).
Proof.
  intros result. unfold result, reset_callback, reset_callback_body. split.
  - intros Hchanged.
    destruct (str_split_all 58%N data) as [|action [|t [|i [|x l]]]];
      try (by destruct Hchanged).
    unfold mbind, outcome_bind in *.
    destruct (int_of_str _ _ t) as [target|e] eqn:Ht; [|by destruct Hchanged].
    destruct (int_of_str _ _ i) as [initiator|e] eqn:Hi; [|by destruct Hchanged].
    destruct (decide (presser <> initiator)) as [Hne|Heq]; [by destruct Hchanged|].
    apply dec_stable in Heq. subst initiator.
    destruct (decide (action = lit "confirm_reset")) as [->|Hact].
    + unfold bind_integer in *.
      destruct (decide (sqlite_integer target)); [|by destruct Hchanged].
      exists t, i, target. split; [done|]. split; [done|]. split; [done|].
      by destruct (reset_user_stats target users) as [[] users'].
    + by destruct (decide (action = lit "cancel_reset")); destruct Hchanged.
  - intros action t i target initiator -> Ht Hi Hne.
    unfold mbind, outcome_bind. by rewrite Ht, Hi, decide_True.
Qed.

Lemma reset_token_fields (action : string) (target_id user_id : Z) :
  bool_decide (58%N ∉ lit action) = true ->
  str_split_all 58%N
    (lit action ++ 58%N :: str_of_int target_id ++ 58%N :: str_of_int user_id)
  = [lit action; str_of_int target_id; str_of_int user_id].
Proof.
  intros Haction.
  rewrite str_split_all_app by (by apply not_in_lit).
  rewrite str_split_all_app by (apply str_of_int_no_sep; by right).
  by rewrite str_split_all_piece by (apply str_of_int_no_sep; by right).
Qed.

(** X17. The buttons of the [reset] command are read back by
    [reset_callback].  "Yes", pressed by the user who asked, resets the target
    when it has a row and reports it, with a line for the log chat when one is
    configured, and says so when it has none; for a target that SQLite cannot
    bind (outside 64 bits) the statement raises and the press gets the
    something-went-wrong alert.  "No" reports the cancelling and changes
    nothing; pressed by another user, either button gives the alert and
    changes nothing.  The transport is taken to accept the messages. *)
Theorem reset_buttons_are_served
    (target_id user_id presser : Z) (users : list user_record) :
  map (map callback_data) (reset_buttons target_id user_id)
  = [[lit "confirm_reset:" ++ str_of_int target_id ++ lit ":" ++ str_of_int user_id;
      lit "cancel_reset:" ++ str_of_int target_id ++ lit ":" ++ str_of_int user_id]]
  /\ reset_callback unicode_isspace unicode_decimal LOG_CHAT_ID
       (lit "confirm_reset:" ++ str_of_int target_id ++ lit ":" ++ str_of_int user_id)
       presser users
     = (if decide (presser <> user_id) then ([ResetAlertNotYours], users)
        else if decide (- 2 ^ 63 <= target_id < 2 ^ 63) then
          if (reset_user_stats target_id users).1
          then ([ResetEditedDone target_id]
                  ++ (if decide (LOG_CHAT_ID = 0) then []
                      else [ResetLogged target_id user_id])
                  ++ [ResetAnswered],
                (reset_user_stats target_id users).2)
          else ([ResetEditedNoUser; ResetAnswered], users)
        else ([ResetAlertWrong], users))
  /\ reset_callback unicode_isspace unicode_decimal LOG_CHAT_ID
       (lit "cancel_reset:" ++ str_of_int target_id ++ lit ":" ++ str_of_int user_id)
       presser users
     = (if decide (presser <> user_id) then ([ResetAlertNotYours], users)
        else ([ResetEditedCanceled target_id; ResetAnswered], users)).
Proof.
  split; [reflexivity|]. split.
  - unfold reset_callback, reset_callback_body.
    change (lit "confirm_reset:" ++ str_of_int target_id ++ lit ":" ++ str_of_int user_id)
      with (lit "confirm_reset" ++ 58%N :: str_of_int target_id
              ++ 58%N :: str_of_int user_id).
    rewrite reset_token_fields by done. unfold mbind, outcome_bind.
    rewrite !int_of_str_of_int.
    destruct (decide (presser <> user_id)); [done|].
    rewrite decide_True by done.
    unfold bind_integer, sqlite_integer.
    destruct (decide (- 2 ^ 63 <= target_id < 2 ^ 63)); [|done].
    unfold reset_user_stats. by destruct (existsb _ _).
  - unfold reset_callback, reset_callback_body.
    change (lit "cancel_reset:" ++ str_of_int target_id ++ lit ":" ++ str_of_int user_id)
      with (lit "cancel_reset" ++ 58%N :: str_of_int target_id
              ++ 58%N :: str_of_int user_id).
    rewrite reset_token_fields by done. unfold mbind, outcome_bind.
    rewrite !int_of_str_of_int.
    destruct (decide (presser <> user_id)); [done|].
    rewrite decide_False by done. by rewrite decide_True.
Qed.

End ResetConfirmation.

Lemma reset_needs_its_initiator_witness :
  exists target_field initiator_field target,
    str_split_all 58%N (lit "confirm_reset:1:7")
    = [lit "confirm_reset"; target_field; initiator_field]
    /\ int_of_str ascii_only_space ascii_only_decimal target_field = Ok target
    /\ int_of_str ascii_only_space ascii_only_decimal initiator_field = Ok 7
    /\ (reset_callback ascii_only_space ascii_only_decimal 0
          (lit "confirm_reset:1:7") 7 [stored 1 3 30]).2
       = (reset_user_stats target [stored 1 3 30]).2.
Proof.
  apply (proj1 (reset_needs_its_initiator ascii_only_space ascii_only_decimal 0
                  (lit "confirm_reset:1:7") 7 [stored 1 3 30])).
  vm_compute. discriminate.
Defined.

(** ** The moderation commands *)

Section CommandFacts.

Variable unicode_isspace : N -> bool.
Variable unicode_decimal : N -> option Z.
Variable OWNER_ID : Z.
Variable LOG_CHAT_ID : Z.

Lemma target_of_argument (id : Z) (rest : list str)
    (reply_from : option (option tg_user)) :
  target_of unicode_isspace unicode_decimal (str_of_int id :: rest) reply_from
  = Ok (Some id).
Proof. unfold target_of. by rewrite int_of_str_of_int. Qed.

Lemma addmod_by_owner (owner u : tg_user) (mods : gmap Z str) :
  tg_id owner = OWNER_ID ->
  (addmod OWNER_ID LOG_CHAT_ID owner (Some (Some u)) mods).2
  = (add_mod (tg_id u) (name_of u) mods).2.
Proof.
  intros Howner. unfold addmod, is_owner.
  rewrite bool_decide_eq_true_2 by done. cbn [negb].
  by destruct (add_mod (tg_id u) (name_of u) mods) as [[] mods'].
Qed.

Lemma rmmod_by_owner (owner : tg_user) (args : list str)
    (reply_from : option (option tg_user)) (mods : gmap Z str) (id : Z) :
  tg_id owner = OWNER_ID ->
  target_of unicode_isspace unicode_decimal args reply_from = Ok (Some id) ->
  id <> 0 ->
  (rmmod unicode_isspace unicode_decimal OWNER_ID LOG_CHAT_ID owner args
     reply_from mods).2
  = (remove_mod id mods).2.
Proof.
  intros Howner Htarget Hid. unfold rmmod, is_owner.
  rewrite bool_decide_eq_true_2 by done. cbn [negb].
  rewrite Htarget, decide_False by done.
  by destruct (remove_mod id mods) as [[] mods'].
Qed.

(** X18. Only the owner changes the [mods] table.  [addmod] changes it only
    when the owner replies to the message of a user who is no moderator yet,
    and then stores that user under the user name, or the full name when the
    user name is missing or empty.  [rmmod] changes it only when the owner
    names, by argument or by reply, a moderator whose id is not 0, and then
    deletes that row.  From anyone else both commands answer that the user
    is not authorized and leave the table as it is. *)
Theorem mods_change_only_by_the_owner
    (user : tg_user) (args : list str) (reply_from : option (option tg_user))
    (mods : gmap Z str) :
  ((addmod OWNER_ID LOG_CHAT_ID user reply_from mods).2 <> mods ->
   tg_id user = OWNER_ID
   /\ exists u,
        reply_from = Some (Some u)
        /\ is_mod (tg_id u) mods = false
        /\ (addmod OWNER_ID LOG_CHAT_ID user reply_from mods).2
           = <[tg_id u := name_of u]> mods)
  /\ ((rmmod unicode_isspace unicode_decimal OWNER_ID LOG_CHAT_ID user args
         reply_from mods).2 <> mods ->
      tg_id user = OWNER_ID
      /\ exists id,
           target_of unicode_isspace unicode_decimal args reply_from = Ok (Some id)
           /\ id <> 0
           /\ is_mod id mods = true
           /\ (rmmod unicode_isspace unicode_decimal OWNER_ID LOG_CHAT_ID user args
                 reply_from mods).2 = delete id mods)
  /\ (tg_id user <> OWNER_ID ->
      addmod OWNER_ID LOG_CHAT_ID user reply_from mods = ([CmdNotAuthorized], mods)
      /\ rmmod unicode_isspace unicode_decimal OWNER_ID LOG_CHAT_ID user args
           reply_from mods = ([CmdNotAuthorized], mods)).
Proof.
  split; [|split].
  - unfold addmod, is_owner. intros Hchanged.
    destruct (bool_decide (tg_id user = OWNER_ID)) eqn:Howner;
      cbn [negb] in *; [|by destruct Hchanged].
    apply bool_decide_eq_true in Howner. split; [done|].
    destruct reply_from as [[u|]|]; try (by destruct Hchanged).
    exists u. split; [done|]. unfold add_mod, is_mod in *.
    destruct (mods !! tg_id u) eqn:Hu; [by destruct Hchanged|]. done.
  - unfold rmmod, is_owner. intros Hchanged.
    destruct (bool_decide (tg_id user = OWNER_ID)) eqn:Howner;
      cbn [negb] in *; [|by destruct Hchanged].
    apply bool_decide_eq_true in Howner. split; [done|].
    destruct (target_of _ _ args reply_from) as [[id|]|e];
      try (by destruct Hchanged).
    destruct (decide (id = 0)) as [->|Hid]; [by destruct Hchanged|].
    exists id. split; [done|]. split; [done|]. unfold remove_mod, is_mod in *.
    destruct (mods !! id) eqn:Hm; [done|by destruct Hchanged].
  - intros Hother. unfold addmod, rmmod, is_owner.
    by rewrite bool_decide_eq_false_2.
Qed.

(** X19. The right to ask for a reset follows the [mods] table.  Once the
    owner has added a user by [addmod], the [reset] command of that user is
    not refused; once the owner has removed the user by [rmmod], through the
    id as argument or through a reply to the user, it is refused again,
    provided the user is not the owner and the id is not 0.  Removing a user
    who was added to a table without them gives back that table. *)
Theorem reset_right_follows_the_mods
    (owner u : tg_user) (args : list str) (rest : list str)
    (reply_from other_reply : option (option tg_user)) (mods : gmap Z str) :
  tg_id owner = OWNER_ID ->
  tg_id u <> OWNER_ID ->
  tg_id u <> 0 ->
  let added := (addmod OWNER_ID LOG_CHAT_ID owner (Some (Some u)) mods).2 in
  let removed_by_id :=
    (rmmod unicode_isspace unicode_decimal OWNER_ID LOG_CHAT_ID owner
       (str_of_int (tg_id u) :: rest) other_reply added).2 in
  let removed_by_reply :=
    (rmmod unicode_isspace unicode_decimal OWNER_ID LOG_CHAT_ID owner
       [] (Some (Some u)) added).2 in
  reset unicode_isspace unicode_decimal OWNER_ID u args reply_from added
    <> [CmdNotAuthorized]
  /\ reset unicode_isspace unicode_decimal OWNER_ID u args reply_from removed_by_id
     = [CmdNotAuthorized]
  /\ removed_by_reply = removed_by_id
  /\ (is_mod (tg_id u) mods = false -> removed_by_id = mods).
Proof.
  intros Howner Hu Hid added removed_by_id removed_by_reply.
  assert (is_mod (tg_id u) added = true) as Hadded.
  { unfold added. rewrite addmod_by_owner by done. unfold add_mod, is_mod.
    destruct (mods !! tg_id u) eqn:Hm; cbn [snd]; [by rewrite Hm|].
    by rewrite lookup_insert_eq. }
  assert (removed_by_id = delete (tg_id u) added) as Hremoved.
  { unfold removed_by_id.
    rewrite (rmmod_by_owner _ _ _ _ (tg_id u)) by (done || apply target_of_argument).
    unfold remove_mod. unfold is_mod in Hadded.
    by destruct (added !! tg_id u). }
  split; [|split; [|split]].
  - unfold reset, is_owner. rewrite bool_decide_eq_false_2 by done.
    rewrite Hadded. cbn [orb negb].
    destruct (target_of _ _ args reply_from) as [[t|]|e]; [|done|done].
    by destruct (decide (t = 0)).
  - unfold reset, is_owner. rewrite bool_decide_eq_false_2 by done.
    rewrite Hremoved. unfold is_mod. by rewrite lookup_delete_eq.
  - rewrite Hremoved. unfold removed_by_reply.
    rewrite (rmmod_by_owner _ _ _ _ (tg_id u)) by done.
    unfold remove_mod. unfold is_mod in Hadded.
    by destruct (added !! tg_id u).
  - intros Hnew. rewrite Hremoved. unfold added.
    rewrite addmod_by_owner by done. unfold add_mod. unfold is_mod in Hnew.
    destruct (mods !! tg_id u) eqn:Hm; [done|]. cbn [snd].
    by apply delete_insert_id.
Qed.

(** X20. The [reset] command asks for confirmation exactly when the user is
    the owner or a moderator and the target, read from the first argument or
    else from the message replied to, is an id other than 0; the buttons then
    carry the target and the id of the user who asked.  A first argument that
    is no integer gives the invalid-id reply even when the command replies to
    a user, and nothing in the replies of a user who is neither owner nor
    moderator is a confirmation. *)
Theorem reset_asks_the_authorized
    (user : tg_user) (args : list str) (reply_from : option (option tg_user))
    (mods : gmap Z str) (target : Z) (buttons : markup) :
  let replies := reset unicode_isspace unicode_decimal OWNER_ID user args
                   reply_from mods in
  (CmdConfirmReset target buttons ∈ replies
   <-> (tg_id user = OWNER_ID \/ is_mod (tg_id user) mods = true)
       /\ target_of unicode_isspace unicode_decimal args reply_from = Ok (Some target)
       /\ target <> 0
       /\ buttons = reset_buttons target (tg_id user))
  /\ (CmdConfirmReset target buttons ∈ replies ->
      replies = [CmdConfirmReset target buttons])
  /\ (forall arg rest e,
        args = arg :: rest ->
        int_of_str unicode_isspace unicode_decimal arg = Raise e ->
        tg_id user = OWNER_ID \/ is_mod (tg_id user) mods = true ->
        replies = [CmdInvalidId]).
Proof.
  intros replies.
  destruct (decide (tg_id user = OWNER_ID \/ is_mod (tg_id user) mods = true))
    as [Hauth|Hauth].
  - assert (replies
            = match target_of unicode_isspace unicode_decimal args reply_from with
              | Raise _ => [CmdInvalidId]
              | Ok (Some t) =>
                  if decide (t = 0) then [CmdProvideTargetId]
                  else [CmdConfirmReset t (reset_buttons t (tg_id user))]
              | Ok None => [CmdProvideTargetId]
              end) as ->.
    { unfold replies, reset, is_owner. destruct Hauth as [Ho|Hm].
      - by rewrite bool_decide_eq_true_2.
      - rewrite Hm. by rewrite orb_true_r. }
    destruct (target_of _ _ args reply_from) as [[t|]|e] eqn:Htarget.
    + destruct (decide (t = 0)) as [Hz|Hz].
      * split; [|split].
        -- split.
           ++ intros Hin. apply list_elem_of_singleton in Hin. discriminate.
           ++ intros (_ & Heq & Hne & _). congruence.
        -- intros Hin. apply list_elem_of_singleton in Hin. discriminate.
        -- intros arg rest e -> Harg _. unfold target_of in Htarget.
           rewrite Harg in Htarget. discriminate.
      * split; [|split].
        -- split.
           ++ intros Hin. apply list_elem_of_singleton in Hin.
              injection Hin as -> ->. done.
           ++ intros (_ & Heq & Hne & ->). injection Heq as ->.
              by apply list_elem_of_singleton.
        -- intros Hin. apply list_elem_of_singleton in Hin. by rewrite Hin.
        -- intros arg rest e -> Harg _. unfold target_of in Htarget.
           rewrite Harg in Htarget. discriminate.
    + split; [|split].
      * split.
        -- intros Hin. apply list_elem_of_singleton in Hin. discriminate.
        -- intros (_ & Heq & _). discriminate.
      * intros Hin. apply list_elem_of_singleton in Hin. discriminate.
      * intros arg rest e -> Harg _. unfold target_of in Htarget.
        rewrite Harg in Htarget. discriminate.
    + split; [|split].
      * split.
        -- intros Hin. apply list_elem_of_singleton in Hin. discriminate.
        -- intros (_ & Heq & _). discriminate.
      * intros Hin. apply list_elem_of_singleton in Hin. discriminate.
      * done.
  - assert (replies = [CmdNotAuthorized]) as ->.
    { unfold replies, reset, is_owner.
      destruct (bool_decide (tg_id user = OWNER_ID)) eqn:Ho.
      - apply bool_decide_eq_true in Ho. destruct Hauth. by left.
      - destruct (is_mod (tg_id user) mods) eqn:Hm; [|done].
        destruct Hauth. by right. }
    split; [|split].
    + split.
      * intros Hin. apply list_elem_of_singleton in Hin. discriminate.
      * intros (Ha & _). done.
    + intros Hin. apply list_elem_of_singleton in Hin. discriminate.
    + intros arg rest e _ _ Ha. done.
Qed.

End CommandFacts.

Lemma mods_change_only_by_the_owner_witness :
  addmod 1 0 {| tg_id := 5; tg_username := None; tg_full_name := lit "Ann" |}
    (Some None) ∅ = ([CmdNotAuthorized], ∅)
  /\ rmmod ascii_only_space ascii_only_decimal 1 0
       {| tg_id := 5; tg_username := None; tg_full_name := lit "Ann" |}
       [lit "5"] (Some None) ∅ = ([CmdNotAuthorized], ∅).
Proof.
  apply (proj2 (proj2 (mods_change_only_by_the_owner
                         ascii_only_space ascii_only_decimal 1 0
                         {| tg_id := 5; tg_username := None;
                            tg_full_name := lit "Ann" |}
                         [lit "5"] (Some None) ∅))).
  cbn. lia.
Defined.

Lemma reset_right_follows_the_mods_witness :
  1 = 1 /\ 5 <> 1 /\ 5 <> 0
  /\ reset ascii_only_space ascii_only_decimal 1
       {| tg_id := 5; tg_username := None; tg_full_name := lit "Ann" |}
       [lit "9"] None
       (addmod 1 0
          {| tg_id := 1; tg_username := None; tg_full_name := lit "Owner" |}
          (Some (Some {| tg_id := 5; tg_username := None;
                         tg_full_name := lit "Ann" |})) ∅).2
     <> [CmdNotAuthorized].
Proof.
  split; [reflexivity|]. split; [lia|]. split; [lia|].
  apply (proj1 (reset_right_follows_the_mods
                  ascii_only_space ascii_only_decimal 1 0
                  {| tg_id := 1; tg_username := None; tg_full_name := lit "Owner" |}
                  {| tg_id := 5; tg_username := None; tg_full_name := lit "Ann" |}
                  [lit "9"] [] None None ∅
                  eq_refl ltac:(cbn; lia) ltac:(cbn; lia))).
Defined.

Lemma reset_asks_the_authorized_witness :
  CmdConfirmReset 9 (reset_buttons 9 1)
  ∈ reset ascii_only_space ascii_only_decimal 1
      {| tg_id := 1; tg_username := None; tg_full_name := lit "Owner" |}
      [lit "9"] None ∅.
Proof.
  apply (proj2 (proj1 (reset_asks_the_authorized
                         ascii_only_space ascii_only_decimal 1
                         {| tg_id := 1; tg_username := None;
                            tg_full_name := lit "Owner" |}
                         [lit "9"] None ∅ 9 (reset_buttons 9 1)))).
  split; [left; reflexivity|]. split; [vm_compute; reflexivity|].
  split; [lia|reflexivity].
Defined.

(** ** The rank command and the reset of all players *)

Lemma same_id_same_row (l : list row) (r r' : row) :
  NoDup (map user_id l) -> r ∈ l -> r' ∈ l -> user_id r = user_id r' -> r = r'.
Proof.
  induction l as [|x l IH]; intros Hnd Hr Hr' Hid; [by apply elem_of_nil in Hr|].
  cbn [map] in Hnd. apply NoDup_cons in Hnd as [Hx Hnd].
  apply elem_of_cons in Hr as [->|Hr]; apply elem_of_cons in Hr' as [->|Hr'].
  - done.
  - destruct Hx. rewrite Hid. apply list_elem_of_fmap. eauto.
  - destruct Hx. rewrite <- Hid. apply list_elem_of_fmap. eauto.
  - by apply IH.
Qed.

Lemma locate_row_perm (uid : Z) (l l' : list row) :
  l ≡ₚ l' -> NoDup (map user_id l) ->
  snd <$> locate uid l = snd <$> locate uid l'.
Proof.
  intros Hperm Hnd.
  destruct (locate uid l) as [[k r]|] eqn:Hl;
    destruct (locate uid l') as [[k' r']|] eqn:Hl'; cbn; [|exfalso|exfalso|done].
  - apply list_find_Some in Hl as (Hk & Hr & _).
    apply list_find_Some in Hl' as (Hk' & Hr' & _).
    f_equal. apply (same_id_same_row l); [done| | |congruence].
    + by eapply list_elem_of_lookup_2.
    + rewrite Hperm. by eapply list_elem_of_lookup_2.
  - apply list_find_Some in Hl as (Hk & Hr & _).
    apply list_find_None in Hl'. rewrite Forall_forall in Hl'.
    apply (Hl' r); [|done]. rewrite <- Hperm. by eapply list_elem_of_lookup_2.
  - apply list_find_Some in Hl' as (Hk' & Hr' & _).
    apply list_find_None in Hl. rewrite Forall_forall in Hl.
    apply (Hl r'); [|done]. rewrite Hperm. by eapply list_elem_of_lookup_2.
Qed.

Lemma daily_stats_of_eq (uid : Z) (daily_users : list row) :
  daily_stats_of uid daily_users
  = Ok match locate uid daily_users with
       | Some (_, r) =>
           {| ds_games := games_played r; ds_wins := wins r;
              ds_losses := losses r; ds_score := total_score r;
              ds_pen := penalties r;
              ds_win_pct := pct_if_nonzero (wins r) (games_played r) |}
       | None =>
           {| ds_games := 0; ds_wins := 0; ds_losses := 0; ds_score := 0;
              ds_pen := 0; ds_win_pct := PctZero |}
       end.
Proof.
  unfold daily_stats_of. rewrite next_or_find_row.
  destruct (locate uid _) as [[k r]|]; cbn [fmap option_fmap option_map snd]; [|done].
  unfold pct_if_nonzero, round_pct. by repeat case_decide.
Qed.

(** X22. The rank command and the daily statistics button tell the same
    daily counters.  Given the snapshot that [get_daily_leaderboard()]
    returned, the message of [users_rank] pairs the summary of
    [get_user_rank] with the counters of the user's row in the snapshot,
    zeros for a user who is not in it; when no two rows of the snapshot have
    the same user id, these are the counters that the daily view of
    [userinfo_callback] shows, although that view looks the user up in the
    snapshot sorted by score.  When [get_daily_leaderboard()] raises, the
    exception leaves [users_rank]. *)
Theorem rank_command_agrees_with_daily_view
    (db : database) (daily_users : list row) (uid : Z) (w : world) :
  NoDup (map user_id daily_users) ->
  exists s w' d v,
    get_user_rank db uid w = (Ok s, w')
    /\ users_rank db (Ok daily_users) uid w = (Ok (s, d), w')
    /\ (forall e, users_rank db (Raise e) uid w = (Raise e, w'))
    /\ userinfo_callback_daily daily_users uid = Ok v
    /\ ds_games d = d_games v /\ ds_wins d = d_wins v
    /\ ds_losses d = d_losses v /\ ds_score d = d_score v
    /\ ds_pen d = d_pen v /\ ds_win_pct d = d_win_pct v
    /\ (uid ∉ map user_id daily_users ->
        d = {| ds_games := 0; ds_wins := 0; ds_losses := 0; ds_score := 0;
               ds_pen := 0; ds_win_pct := PctZero |})
    /\ (forall r, r ∈ daily_users -> user_id r = uid ->
          d = {| ds_games := games_played r; ds_wins := wins r;
                 ds_losses := losses r; ds_score := total_score r;
                 ds_pen := penalties r;
                 ds_win_pct := pct_if_nonzero (wins r) (games_played r) |}).
Proof.
  intros Hnd.
  destruct (get_all_users_sorted_total db DEFAULT_LIMIT w) as (rows & w' & Hrows).
  pose proof (get_user_rank_eq _ uid _ _ _ Hrows) as Hrank.
  do 4 eexists. split; [exact Hrank|]. split.
  { unfold users_rank, mbind, M_bind, lift, mret, M_ret.
    rewrite Hrank, daily_stats_of_eq. reflexivity. }
  split.
  { intros e. unfold users_rank, mbind, M_bind, lift. by rewrite Hrank. }
  split; [apply userinfo_callback_daily_eq|].
  pose proof (locate_row_perm uid _ _ (sort_by_perm by_score daily_users)) as Hsame.
  assert (NoDup (map user_id (sort_by by_score daily_users))) as Hnd'.
  { change (map ?f ?l) with (f <$> l). by rewrite (sort_by_perm by_score daily_users). }
  specialize (Hsame Hnd').
  destruct (locate uid (sort_by by_score daily_users)) as [[k r]|] eqn:Hs;
    destruct (locate uid daily_users) as [[k0 r0]|] eqn:Hd; cbn in Hsame;
    try discriminate.
  - injection Hsame as ->. do 6 (split; [reflexivity|]). split.
    + intros Hnot. rewrite (locate_absent _ _ Hnot) in Hd. discriminate.
    + intros r1 Hr1 Hid. apply list_find_Some in Hd as (Hk0 & Hr0 & _).
      rewrite (same_id_same_row daily_users r1 r0); [done|done|done| |congruence].
      by eapply list_elem_of_lookup_2.
  - do 6 (split; [reflexivity|]). split; [done|].
    intros r1 Hr1 Hid. apply list_find_None in Hd. rewrite Forall_forall in Hd.
    by destruct (Hd r1 Hr1).
Qed.

Lemma rank_command_agrees_with_daily_view_witness :
  exists s w' d v,
    get_user_rank ann_db 2 quiet = (Ok s, w')
    /\ users_rank ann_db (Ok two_daily) 2 quiet = (Ok (s, d), w')
    /\ (forall e, users_rank ann_db (Raise e) 2 quiet = (Raise e, w'))
    /\ userinfo_callback_daily two_daily 2 = Ok v
    /\ ds_games d = d_games v /\ ds_wins d = d_wins v
    /\ ds_losses d = d_losses v /\ ds_score d = d_score v
    /\ ds_pen d = d_pen v /\ ds_win_pct d = d_win_pct v
    /\ (2 ∉ map user_id two_daily ->
        d = {| ds_games := 0; ds_wins := 0; ds_losses := 0; ds_score := 0;
               ds_pen := 0; ds_win_pct := PctZero |})
    /\ (forall r, r ∈ two_daily -> user_id r = 2 ->
          d = {| ds_games := games_played r; ds_wins := wins r;
                 ds_losses := losses r; ds_score := total_score r;
                 ds_pen := penalties r;
                 ds_win_pct := pct_if_nonzero (wins r) (games_played r) |}).
Proof.
  apply (rank_command_agrees_with_daily_view ann_db two_daily 2 quiet).
  apply (bool_decide_unpack _). vm_compute. exact I.
Defined.

Section ResetAll.

Variable unicode_isspace : N -> bool.
Variable unicode_decimal : N -> option Z.
Variable OWNER_ID : Z.
Variable LOG_CHAT_ID : Z.

Lemma reset_all_token_fields (action : string) (user_id : Z) :
  bool_decide (58%N ∉ lit action) = true ->
  str_split_all 58%N (lit action ++ 58%N :: str_of_int user_id)
  = [lit action; str_of_int user_id].
Proof.
  intros Haction.
  rewrite str_split_all_app by (by apply not_in_lit).
  by rewrite str_split_all_piece by (apply str_of_int_no_sep; by right).
Qed.

(** X23. [reset_all_callback] changes the users table only on a token of two
    fields separated by a colon whose first field is "confirm_reset_all" and
    whose second field is the id of the user who pressed the button; every
    row then has its counters cleared.  A press by anyone else gets the alert
    alone, and a token that does not have two fields gets the
    something-went-wrong alert; neither changes the table. *)
Theorem reset_all_needs_its_initiator
    (data : str) (presser : Z) (users : list user_record) :
  let result := reset_all_callback unicode_isspace unicode_decimal LOG_CHAT_ID
                  data presser users in
  (result.2 <> users ->
   exists initiator_field,
     str_split_all 58%N data = [lit "confirm_reset_all"; initiator_field]
     /\ int_of_str unicode_isspace unicode_decimal initiator_field = Ok presser
     /\ result.2 = map clear_counters users)
  /\ (forall action initiator_field initiator,
        str_split_all 58%N data = [action; initiator_field] ->
        int_of_str unicode_isspace unicode_decimal initiator_field = Ok initiator ->
        presser <> initiator ->
        result = ([AllAlertNotYours], users))
  /\ (length (str_split_all 58%N data) <> 2%nat ->
      result = ([AllAlertWrong], users)).
Proof.
  intros result. unfold result, reset_all_callback, reset_all_callback_body.
  split; [|split].
  - intros Hchanged.
    destruct (str_split_all 58%N data) as [|action [|i [|x l]]];
      try (by destruct Hchanged).
    unfold mbind, outcome_bind in *.
    destruct (int_of_str _ _ i) as [initiator|e] eqn:Hi; [|by destruct Hchanged].
    destruct (decide (presser <> initiator)) as [Hne|Heq]; [by destruct Hchanged|].
    apply dec_stable in Heq. subst initiator.
    destruct (decide (action = lit "confirm_reset_all")) as [->|Hact].
    + by exists i.
    + by destruct (decide (action = lit "cancel_reset_all")); destruct Hchanged.
  - intros action i initiator -> Hi Hne.
    unfold mbind, outcome_bind. by rewrite Hi, decide_True.
  - intros Hlen.
    by destruct (str_split_all 58%N data) as [|action [|i [|x l]]].
Qed.

(** X24. Resetting all players, from the command to the leaderboard.  The
    [reset_all] command of the owner answers with a "Yes" and a "No" button,
    and of nobody else.  "No", pressed by the owner, reports the cancelling
    and changes nothing; either button pressed by another user gives the
    alert and changes nothing; "Yes", pressed by the owner, keeps every row
    and its user id, and afterwards the summary of [get_user_rank] has zero
    counters and win percent 0 for every user, whatever the state of the
    store. *)
Theorem reset_all_clears_every_summary
    (owner : tg_user) (db : database) (uid : Z) (w : world) :
  tg_id owner = OWNER_ID ->
  exists yes no,
    reset_all OWNER_ID owner = [CmdConfirmResetAll [[yes; no]]]
    /\ (forall other : tg_user,
          tg_id other <> OWNER_ID -> reset_all OWNER_ID other = [CmdNotAuthorized])
    /\ (forall presser users b,
          presser <> tg_id owner -> b = yes \/ b = no ->
          reset_all_callback unicode_isspace unicode_decimal LOG_CHAT_ID
            (callback_data b) presser users
          = ([AllAlertNotYours], users))
    /\ (forall users,
          reset_all_callback unicode_isspace unicode_decimal LOG_CHAT_ID
            (callback_data no) (tg_id owner) users
          = ([AllEditedCanceled; AllAnswered], users))
    /\ exists replies users',
         reset_all_callback unicode_isspace unicode_decimal LOG_CHAT_ID
           (callback_data yes) (tg_id owner) (users_table db)
         = (replies, users')
         /\ AllEditedDone ∈ replies
         /\ map rec_user_id users' = map rec_user_id (users_table db)
         /\ exists s w',
              get_user_rank {| users_table := users'; fault_at := fault_at db |} uid w
              = (Ok s, w')
              /\ s_total_played s = 0 /\ s_wins s = 0 /\ s_losses s = 0
              /\ s_rounds_played s = 0 /\ s_eliminations s = 0
              /\ s_total_score s = 0 /\ s_penalties s = 0
              /\ s_win_percent s = PctZero.
Proof.
  intros Howner. do 2 eexists. split.
  { unfold reset_all, is_owner. rewrite bool_decide_eq_true_2 by done.
    reflexivity. }
  assert (forall presser users,
            reset_all_callback unicode_isspace unicode_decimal LOG_CHAT_ID
              (lit "confirm_reset_all" ++ 58%N :: str_of_int (tg_id owner))
              presser users
            = if decide (presser <> tg_id owner) then ([AllAlertNotYours], users)
              else ([AllEditedDone]
                      ++ (if decide (LOG_CHAT_ID = 0) then []
                          else [AllLogged (tg_id owner)])
                      ++ [AllAnswered],
                    map clear_counters users)) as Hyes.
  { intros presser users. unfold reset_all_callback, reset_all_callback_body.
    rewrite reset_all_token_fields by done. unfold mbind, outcome_bind.
    rewrite int_of_str_of_int.
    destruct (decide (presser <> tg_id owner)); [done|].
    by rewrite decide_True. }
  assert (forall presser users,
            reset_all_callback unicode_isspace unicode_decimal LOG_CHAT_ID
              (lit "cancel_reset_all" ++ 58%N :: str_of_int (tg_id owner))
              presser users
            = if decide (presser <> tg_id owner) then ([AllAlertNotYours], users)
              else ([AllEditedCanceled; AllAnswered], users)) as Hno.
  { intros presser users. unfold reset_all_callback, reset_all_callback_body.
    rewrite reset_all_token_fields by done. unfold mbind, outcome_bind.
    rewrite int_of_str_of_int.
    destruct (decide (presser <> tg_id owner)); [done|].
    rewrite decide_False by done. by rewrite decide_True. }
  split; [|split; [|split]].
  - intros other Hother. unfold reset_all, is_owner.
    by rewrite bool_decide_eq_false_2.
  - intros presser users b Hne [-> | ->]; cbn [callback_data].
    + change (lit "confirm_reset_all:" ++ ?t)
        with (lit "confirm_reset_all" ++ 58%N :: t).
      by rewrite Hyes, decide_True.
    + change (lit "cancel_reset_all:" ++ ?t)
        with (lit "cancel_reset_all" ++ 58%N :: t).
      by rewrite Hno, decide_True.
  - intros users. cbn [callback_data].
    change (lit "cancel_reset_all:" ++ ?t)
      with (lit "cancel_reset_all" ++ 58%N :: t).
    rewrite Hno. destruct (decide (tg_id owner <> tg_id owner)) as [H|_]; [by destruct H|done].
  - cbn [callback_data].
    change (lit "confirm_reset_all:" ++ ?t)
      with (lit "confirm_reset_all" ++ 58%N :: t).
    rewrite Hyes.
    destruct (decide (tg_id owner <> tg_id owner)) as [H|_]; [by destruct H|].
    do 2 eexists. split; [reflexivity|]. split; [apply elem_of_cons; by left|].
    split.
    { rewrite map_map. by apply map_ext. }
    set (db' := {| users_table := map clear_counters (users_table db);
                   fault_at := fault_at db |}).
    destruct (get_all_users_sorted_total db' DEFAULT_LIMIT w) as (rows & w' & Hrows).
    rewrite (get_user_rank_eq _ _ _ _ _ Hrows). do 2 eexists.
    split; [reflexivity|].
    destruct (locate uid rows) as [[k r]|] eqn:Hloc; [|by cbn].
    apply list_find_Some in Hloc as (Hk & Hr & _).
    assert (r ∈ run_query (map clear_counters (users_table db)) DEFAULT_LIMIT) as Hin.
    { destruct (healthy_or_faulty db') as [Hdb|Hdb].
      - rewrite get_all_users_sorted_default in Hrows by done.
        injection Hrows as <- _. by eapply list_elem_of_lookup_2.
      - rewrite get_all_users_sorted_faulty in Hrows by done.
        injection Hrows as <- _. done. }
    apply run_query_rows in Hin as (u & Hu & ->).
    apply list_elem_of_fmap in Hu as (u0 & -> & _).
    rewrite summary_of_row_eq. cbn. unfold pct_if_played.
    by rewrite decide_False by lia.
Qed.

End ResetAll.

Lemma reset_all_needs_its_initiator_witness :
  reset_all_callback ascii_only_space ascii_only_decimal 0
    (lit "confirm_reset_all:7") 8 [stored 1 3 30]
  = ([AllAlertNotYours], [stored 1 3 30]).
Proof.
  apply (proj1 (proj2 (reset_all_needs_its_initiator
                         ascii_only_space ascii_only_decimal 0
                         (lit "confirm_reset_all:7") 8 [stored 1 3 30]))
           (lit "confirm_reset_all") (lit "7") 7);
    [vm_compute; reflexivity|vm_compute; reflexivity|lia].
Defined.

Lemma reset_all_clears_every_summary_witness :
  exists yes no,
    reset_all 1 {| tg_id := 1; tg_username := None; tg_full_name := lit "Owner" |}
    = [CmdConfirmResetAll [[yes; no]]]
    /\ reset_all_callback ascii_only_space ascii_only_decimal 0
         (callback_data no) 1 (users_table ann_db)
       = ([AllEditedCanceled; AllAnswered], users_table ann_db).
Proof.
  destruct (reset_all_clears_every_summary ascii_only_space ascii_only_decimal 1 0
              {| tg_id := 1; tg_username := None; tg_full_name := lit "Owner" |}
              ann_db 1 quiet eq_refl)
    as (yes & no & Hcmd & _ & _ & Hno & _).
  exists yes, no. split; [exact Hcmd|apply Hno].
Defined.
